(** * GoCardless webhook endpoint of the payments app

    A shallow embedding of
    [payments/payment_gateways/doctype/gocardless_settings/__init__.py]:
    the webhook entry point [webhooks], the dispatcher [set_status], the
    three handlers [set_mandate_status], [set_payment_request_status] and
    [create_payout_journal], and the signature check
    [authenticate_signature] with its secret cache [get_webhook_keys].

    Python values received from [json.loads] are the inductive [json];
    Python [str] is [string], one character per code point up to U+00FF
    (the range of a WSGI header); [bytes] is [list byte]; Python [float]
    is the primitive binary64 [float].  Exceptions and the mutable
    document store are threaded through a state-and-exception monad. *)

From Stdlib Require Import ZArith List String Ascii Bool.
From Stdlib.Strings Require Import Byte.
From Stdlib Require Import PrimFloat SpecFloat FloatOps.
From stdpp Require Import base option gmap strings list.

Import ListNotations.
Set Warnings "-register-all".
Local Open Scope string_scope.
Local Open Scope list_scope.
Local Open Scope Z_scope.

(** ** SHA-256 and HMAC, as [hashlib.sha256] and [hmac.new] compute them *)

Module Sha256.

Definition mask32 : Z := 2 ^ 32 - 1.
Definition w32 (x : Z) : Z := Z.land x mask32.
Definition add32 (x y : Z) : Z := w32 (x + y).
Definition not32 (x : Z) : Z := Z.lxor x mask32.
Definition rotr (n x : Z) : Z :=
  Z.lor (Z.shiftr x n) (w32 (Z.shiftl x (32 - n))).
Definition shr (n x : Z) : Z := Z.shiftr x n.

Definition Ch (x y z : Z) : Z :=
  Z.lxor (Z.land x y) (Z.land (not32 x) z).
Definition Maj (x y z : Z) : Z :=
  Z.lxor (Z.lxor (Z.land x y) (Z.land x z)) (Z.land y z).
Definition bsig0 (x : Z) : Z :=
  Z.lxor (Z.lxor (rotr 2 x) (rotr 13 x)) (rotr 22 x).
Definition bsig1 (x : Z) : Z :=
  Z.lxor (Z.lxor (rotr 6 x) (rotr 11 x)) (rotr 25 x).
Definition ssig0 (x : Z) : Z :=
  Z.lxor (Z.lxor (rotr 7 x) (rotr 18 x)) (shr 3 x).
Definition ssig1 (x : Z) : Z :=
  Z.lxor (Z.lxor (rotr 17 x) (rotr 19 x)) (shr 10 x).

(** The round constants are the fractional bits of the cube roots of
    the first 64 primes, the initial state those of the square roots
    of the first 8; both tables are computed rather than written out. *)
Definition divides (d n : Z) : bool := n mod d =? 0.
Definition is_prime (n : Z) : bool :=
  (2 <=? n) &&
  forallb (fun d => negb (divides d n))
          (map Z.of_nat (seq 2 (Z.to_nat n - 2))).
Definition primes64 : list Z :=
  Eval vm_compute in
    filter is_prime (map Z.of_nat (seq 2 310)).

Definition cube (r : Z) : Z := r * r * r.
Definition cbrt_step (n : Z) (r : Z) (b : nat) : Z :=
  let r' := Z.lor r (2 ^ Z.of_nat b) in
  if cube r' <=? n then r' else r.
Definition cbrt (n : Z) : Z :=
  fold_left (cbrt_step n) (rev (seq 0 48)) 0.

Definition K : list Z :=
  Eval vm_compute in map (fun p => w32 (cbrt (p * 2 ^ 96))) primes64.
Definition H0 : list Z :=
  Eval vm_compute in
    map (fun p => w32 (Z.sqrt (p * 2 ^ 64))) (firstn 8 primes64).

Definition byteZ (b : byte) : Z := Z.of_N (Byte.to_N b).
Definition Zbyte (z : Z) : byte :=
  match Byte.of_N (Z.to_N (Z.land z 255)) with
  | Some b => b
  | None => x00
  end.

(** Big-endian encoding of [z] on [n] bytes. *)
Fixpoint be_bytes (n : nat) (z : Z) : list byte :=
  match n with
  | O => []
  | S n' => Zbyte (Z.shiftr z (8 * Z.of_nat n')) :: be_bytes n' z
  end.

Definition be_word (bs : list byte) : Z :=
  fold_left (fun acc b => Z.lor (Z.shiftl acc 8) (byteZ b)) bs 0.

Definition pad (msg : list byte) : list byte :=
  let len := Z.of_nat (length msg) in
  let zeros := Z.to_nat ((55 - len) mod 64) in
  msg ++ x80 :: repeat x00 zeros ++ be_bytes 8 (8 * len).

(** Cut a list into chunks of [n] elements; [fuel] bounds the number
    of chunks. *)
Fixpoint chunks {A} (fuel n : nat) (l : list A) : list (list A) :=
  match fuel, l with
  | O, _ | _, [] => []
  | S fuel', _ => firstn n l :: chunks fuel' n (skipn n l)
  end.

Definition words_of_block (blk : list byte) : list Z :=
  map be_word (chunks 16 4 blk).

Fixpoint schedule (fuel : nat) (w : list Z) : list Z :=
  match fuel with
  | O => w
  | S fuel' =>
      let t := length w in
      let at_ (k : nat) := nth (t - k) w 0 in
      schedule fuel'
        (w ++ [add32 (add32 (ssig1 (at_ 2%nat)) (at_ 7%nat))
                     (add32 (ssig0 (at_ 15%nat)) (at_ 16%nat))])
  end.

Record state := State {
  sa : Z; sb : Z; sc : Z; sd : Z; se : Z; sf : Z; sg : Z; sh : Z }.

Definition round (s : state) (kw : Z * Z) : state :=
  let '(k, w) := kw in
  let t1 := add32 (add32 (add32 (sh s) (bsig1 (se s)))
                         (add32 (Ch (se s) (sf s) (sg s)) k)) w in
  let t2 := add32 (bsig0 (sa s)) (Maj (sa s) (sb s) (sc s)) in
  State (add32 t1 t2) (sa s) (sb s) (sc s)
        (add32 (sd s) t1) (se s) (sf s) (sg s).

Definition compress (s : state) (blk : list byte) : state :=
  let w := schedule 48 (words_of_block blk) in
  let r := fold_left round (combine K w) s in
  State (add32 (sa s) (sa r)) (add32 (sb s) (sb r))
        (add32 (sc s) (sc r)) (add32 (sd s) (sd r))
        (add32 (se s) (se r)) (add32 (sf s) (sf r))
        (add32 (sg s) (sg r)) (add32 (sh s) (sh r)).

Definition init : state :=
  State (nth 0 H0 0) (nth 1 H0 0) (nth 2 H0 0) (nth 3 H0 0)
        (nth 4 H0 0) (nth 5 H0 0) (nth 6 H0 0) (nth 7 H0 0).

Definition state_words (s : state) : list Z :=
  [sa s; sb s; sc s; sd s; se s; sf s; sg s; sh s].

Definition hash_state (msg : list byte) : state :=
  let p := pad msg in
  fold_left compress (chunks (length p) 64 p) init.

Definition digest (msg : list byte) : list byte :=
  flat_map (be_bytes 4) (state_words (hash_state msg)).

(** [hmac.new(key, msg, hashlib.sha256)]: the block size is 64 bytes; a
    longer key is hashed first, a shorter one padded with zeros. *)
Definition block_key (key : list byte) : list byte :=
  let k := if (64 <? Z.of_nat (length key)) then digest key else key in
  k ++ repeat x00 (64 - length k).

Definition xor_pad (c : Z) (k : list byte) : list byte :=
  map (fun b => Zbyte (Z.lxor (byteZ b) c)) k.

Definition hmac_state (key msg : list byte) : state :=
  let k := block_key key in
  hash_state (xor_pad 92 k ++ digest (xor_pad 54 k ++ msg)).

(** Lower-case hexadecimal digit of the low four bits of [z]. *)
Definition hexdigit (z : Z) : ascii :=
  let d := Z.land z 15 in
  ascii_of_N (Z.to_N (if d <? 10 then 48 + d else 87 + d)).

Definition hex_word (w : Z) (rest : string) : string :=
  String (hexdigit (Z.shiftr w 28)) (String (hexdigit (Z.shiftr w 24))
  (String (hexdigit (Z.shiftr w 20)) (String (hexdigit (Z.shiftr w 16))
  (String (hexdigit (Z.shiftr w 12)) (String (hexdigit (Z.shiftr w 8))
  (String (hexdigit (Z.shiftr w 4)) (String (hexdigit w) rest))))))).

Definition hex_state (s : state) : string :=
  hex_word (sa s) (hex_word (sb s) (hex_word (sc s) (hex_word (sd s)
  (hex_word (se s) (hex_word (sf s) (hex_word (sg s)
  (hex_word (sh s) ""))))))).

Definition hexdigest (msg : list byte) : string :=
  hex_state (hash_state msg).

Definition hmac_hexdigest (key msg : list byte) : string :=
  hex_state (hmac_state key msg).

End Sha256.

(** ** Python values *)

(** What [json.loads] returns: [None], [bool], [int], [float], [str],
    [list] and [dict] (keys in insertion order, looked up by first
    match). *)
Inductive json : Type :=
| JNull
| JBool (b : bool)
| JInt (z : Z)
| JFloat (f : float)
| JStr (s : string)
| JList (l : list json)
| JDict (d : list (string * json)).

(** The exception classes this module meets.  All of them derive from
    Python's [Exception]; [OtherError] stands for any further class
    raised by a collaborator (API client, date parser, ledger). *)
Inductive exn : Type :=
| AuthenticationError
| KeyError (key : string)
| TypeError
| AttributeError
| JSONDecodeError
| DoesNotExistError
| OverflowError
| OtherError (name : string).

(** [bool(v)]. *)
Definition truthy (v : json) : bool :=
  match v with
  | JNull => false
  | JBool b => b
  | JInt z => negb (z =? 0)
  | JFloat f => negb (PrimFloat.eqb f PrimFloat.zero)
  | JStr s => negb (String.eqb s "")
  | JList l => match l with [] => false | _ => true end
  | JDict d => match d with [] => false | _ => true end
  end.

Fixpoint dict_lookup (k : string) (d : list (string * json)) : option json :=
  match d with
  | [] => None
  | (k', v) :: d' => if String.eqb k k' then Some v else dict_lookup k d'
  end.

(** [v.get(k, default)]: only a [dict] has the method. *)
Definition py_get (v : json) (k : string) (default : json) : exn + json :=
  match v with
  | JDict d => inr (match dict_lookup k d with
                    | Some x => x
                    | None => default
                    end)
  | _ => inl AttributeError
  end.

(** [v[k]] for a string key [k]: [KeyError] on a [dict] without the key,
    [TypeError] on every other value ([list] and [str] want integer
    indices, the rest is not subscriptable). *)
Definition py_getitem (v : json) (k : string) : exn + json :=
  match v with
  | JDict d => match dict_lookup k d with
               | Some x => inr x
               | None => inl (KeyError k)
               end
  | _ => inl TypeError
  end.

(** [v == s] for a string literal [s]. *)
Definition py_eq_str (v : json) (s : string) : bool :=
  match v with
  | JStr s' => String.eqb s' s
  | _ => false
  end.

(** What [for x in v] iterates over: the elements of a [list], the keys
    of a [dict], the characters of a [str]; anything else is not
    iterable. *)
Definition py_iter (v : json) : exn + list json :=
  match v with
  | JList l => inr l
  | JDict d => inr (map (fun kv => JStr (fst kv)) d)
  | JStr s => inr (map (fun c => JStr (String c "")) (list_ascii_of_string s))
  | _ => inl TypeError
  end.

Definition is_dict (v : json) : bool :=
  match v with JDict _ => true | _ => false end.

(** [k in v] for a [dict] [v]. *)
Definition has_key (k : string) (v : json) : bool :=
  match v with
  | JDict d => match dict_lookup k d with Some _ => true | None => false end
  | _ => false
  end.

(** An event without a mandate link: [links] is absent, or a mapping
    without [mandate], or a sequence of mappings one of which is without
    [mandate]. *)
Definition lacks_mandate (d : list (string * json)) : bool :=
  match dict_lookup "links" d with
  | None => true
  | Some (JDict ld) => negb (has_key "mandate" (JDict ld))
  | Some (JList l) =>
      forallb is_dict l && existsb (fun x => negb (has_key "mandate" x)) l
  | Some _ => false
  end.

(** The field [k] of an event is absent or a mapping, as the event
    format has it for [resource_metadata], [details] and [links]. *)
Definition optional_mapping (k : string) (d : list (string * json)) : bool :=
  match dict_lookup k d with
  | None => true
  | Some v => is_dict v
  end.

(** [float(z)] of an [int]: rounded to the nearest binary64, ties to
    even; [OverflowError] beyond the largest finite value. *)
Definition float_of_int (z : Z) : exn + float :=
  let f := SF2Prim (binary_normalize 53 1024 z 0 false) in
  if PrimFloat.is_infinity f then inl OverflowError else inr f.

Definition hundred : float := 100%float.

(** ** Strings, bytes and the signature comparison *)

Definition is_ascii_char (c : ascii) : bool := (N_of_ascii c <? 128)%N.

Fixpoint is_ascii (s : string) : bool :=
  match s with
  | EmptyString => true
  | String c s' => is_ascii_char c && is_ascii s'
  end.

(** [s.encode("utf-8")] for code points up to U+00FF: one byte below
    U+0080, two bytes from there on. *)
Definition utf8_char (c : ascii) : list byte :=
  let n := Z.of_N (N_of_ascii c) in
  if n <? 128 then [Sha256.Zbyte n]
  else [Sha256.Zbyte (Z.lor 192 (Z.shiftr n 6));
        Sha256.Zbyte (Z.lor 128 (Z.land n 63))].

Definition encode_utf8 (s : string) : list byte :=
  flat_map utf8_char (list_ascii_of_string s).

(** [hmac.new(key.encode("utf-8"), body, hashlib.sha256).hexdigest()]. *)
Definition hmac_sha256_hex (key : string) (body : list byte) : string :=
  Sha256.hmac_hexdigest (encode_utf8 key) body.

(** [hmac.compare_digest(a, b)] on two [str]: equality, in constant
    time; a [str] argument with a character outside ASCII is refused
    with [TypeError]. *)
Definition compare_digest (a b : string) : exn + bool :=
  if is_ascii a && is_ascii b then inr (String.eqb a b) else inl TypeError.

(** ** The document store and the other state the module touches *)

Record Comment := {
  comment_type : string;
  comment_text : string;
  comment_by : string;
  comment_email : string }.

(** A Payment Request document: the fields the handler reads or writes. *)
Record PaymentRequest := {
  pr_status : string;
  pr_failed_reason : option json;
  pr_comments : list Comment }.

(** A GoCardless Settings document. *)
Record GCSettings := {
  gs_name : string;
  use_sandbox : bool;
  fees_account : option string;
  webhooks_secret : option string }.

Record PaymentGateway := {
  pg_name : string;
  gateway_controller : string }.

Record PaymentGatewayAccount := {
  payment_gateway : option string;
  payment_account : option string }.

Record BankAccount := {
  bank_account_no : string;
  account : option string }.

(** One row of the [accounts] table of a Journal Entry. *)
Record JournalLine := {
  jl_account : option string;
  debit_in_account_currency : float;
  debit : float;
  credit : float;
  credit_in_account_currency : float }.

Record JournalEntry := {
  voucher_type : string;
  posting_date : string;
  cheque_date : string;
  cheque_no : string;
  accounts : list JournalLine;
  docstatus : Z }.

(** The state a request can read or change.  Lists of documents are in
    the order the store returns them, most recently created first.
    [w_dispatched] is not program state: it is the history of the events
    handed to [set_status], kept to state which events were processed. *)
Record World := {
  w_mandates : gmap string Z;
  w_payment_requests : gmap string PaymentRequest;
  w_has_failed_reason : bool;
  w_settings : list GCSettings;
  w_gateways : list PaymentGateway;
  w_gateway_accounts : list PaymentGatewayAccount;
  w_bank_accounts : list BankAccount;
  w_journal_entries : list JournalEntry;
  w_error_log : list (string * string);
  w_cache : option (list string);
  w_installed_apps : list string;
  w_dispatched : list json }.

Definition set_mandates (m : gmap string Z) (w : World) : World :=
  {| w_mandates := m;
     w_payment_requests := w_payment_requests w;
     w_has_failed_reason := w_has_failed_reason w;
     w_settings := w_settings w;
     w_gateways := w_gateways w;
     w_gateway_accounts := w_gateway_accounts w;
     w_bank_accounts := w_bank_accounts w;
     w_journal_entries := w_journal_entries w;
     w_error_log := w_error_log w;
     w_cache := w_cache w;
     w_installed_apps := w_installed_apps w;
     w_dispatched := w_dispatched w |}.

Definition set_payment_requests (m : gmap string PaymentRequest)
    (w : World) : World :=
  {| w_mandates := w_mandates w;
     w_payment_requests := m;
     w_has_failed_reason := w_has_failed_reason w;
     w_settings := w_settings w;
     w_gateways := w_gateways w;
     w_gateway_accounts := w_gateway_accounts w;
     w_bank_accounts := w_bank_accounts w;
     w_journal_entries := w_journal_entries w;
     w_error_log := w_error_log w;
     w_cache := w_cache w;
     w_installed_apps := w_installed_apps w;
     w_dispatched := w_dispatched w |}.

Definition set_journal_entries (l : list JournalEntry) (w : World) : World :=
  {| w_mandates := w_mandates w;
     w_payment_requests := w_payment_requests w;
     w_has_failed_reason := w_has_failed_reason w;
     w_settings := w_settings w;
     w_gateways := w_gateways w;
     w_gateway_accounts := w_gateway_accounts w;
     w_bank_accounts := w_bank_accounts w;
     w_journal_entries := l;
     w_error_log := w_error_log w;
     w_cache := w_cache w;
     w_installed_apps := w_installed_apps w;
     w_dispatched := w_dispatched w |}.

Definition set_error_log (l : list (string * string)) (w : World) : World :=
  {| w_mandates := w_mandates w;
     w_payment_requests := w_payment_requests w;
     w_has_failed_reason := w_has_failed_reason w;
     w_settings := w_settings w;
     w_gateways := w_gateways w;
     w_gateway_accounts := w_gateway_accounts w;
     w_bank_accounts := w_bank_accounts w;
     w_journal_entries := w_journal_entries w;
     w_error_log := l;
     w_cache := w_cache w;
     w_installed_apps := w_installed_apps w;
     w_dispatched := w_dispatched w |}.

Definition set_cache (c : option (list string)) (w : World) : World :=
  {| w_mandates := w_mandates w;
     w_payment_requests := w_payment_requests w;
     w_has_failed_reason := w_has_failed_reason w;
     w_settings := w_settings w;
     w_gateways := w_gateways w;
     w_gateway_accounts := w_gateway_accounts w;
     w_bank_accounts := w_bank_accounts w;
     w_journal_entries := w_journal_entries w;
     w_error_log := w_error_log w;
     w_cache := c;
     w_installed_apps := w_installed_apps w;
     w_dispatched := w_dispatched w |}.

Definition set_dispatched (l : list json) (w : World) : World :=
  {| w_mandates := w_mandates w;
     w_payment_requests := w_payment_requests w;
     w_has_failed_reason := w_has_failed_reason w;
     w_settings := w_settings w;
     w_gateways := w_gateways w;
     w_gateway_accounts := w_gateway_accounts w;
     w_bank_accounts := w_bank_accounts w;
     w_journal_entries := w_journal_entries w;
     w_error_log := w_error_log w;
     w_cache := w_cache w;
     w_installed_apps := w_installed_apps w;
     w_dispatched := l |}.

(** The records of the store proper: what a "record mutation" changes.
    The secret cache and the history are left out. *)
Definition same_records (w w' : World) : Prop :=
  w_mandates w' = w_mandates w /\
  w_payment_requests w' = w_payment_requests w /\
  w_journal_entries w' = w_journal_entries w /\
  w_error_log w' = w_error_log w /\
  w_settings w' = w_settings w.

(** ** A state-and-exception monad

    A Python call either returns a value or raises; in both cases the
    store keeps what was written before. *)
Inductive outcome (A : Type) : Type :=
| Ok (a : A) (w : World)
| Raised (e : exn) (w : World).
Arguments Ok {A} a w.
Arguments Raised {A} e w.

Definition M (A : Type) : Type := World -> outcome A.

Definition ret {A} (a : A) : M A := fun w => Ok a w.
Definition raise {A} (e : exn) : M A := fun w => Raised e w.
Definition bind {A B} (c : M A) (k : A -> M B) : M B :=
  fun w => match c w with
           | Ok a w' => k a w'
           | Raised e w' => Raised e w'
           end.
Definition lift {A} (r : exn + A) : M A :=
  match r with
  | inl e => raise e
  | inr a => ret a
  end.
Definition gets {A} (f : World -> A) : M A := fun w => Ok (f w) w.
Definition modify (f : World -> World) : M unit := fun w => Ok tt (f w).
(** [try: c except Exception as e: h(e)]. *)
Definition try_except {A} (c : M A) (h : exn -> M A) : M A :=
  fun w => match c w with
           | Ok a w' => Ok a w'
           | Raised e w' => h e w'
           end.
(** [if b: c]. *)
Definition when (b : bool) (c : M unit) : M unit :=
  if b then c else ret tt.
(** [for x in l: f(x)]. *)
Fixpoint for_each {A} (l : list A) (f : A -> M unit) : M unit :=
  match l with
  | [] => ret tt
  | x :: l' => bind (f x) (fun _ => for_each l' f)
  end.

Declare Scope py_scope.
Delimit Scope py_scope with py.
Notation "x <- c ;; k" := (bind c (fun x => k))
  (at level 100, c at next level, right associativity) : py_scope.
Notation "c ;; k" := (bind c (fun _ => k))
  (at level 100, right associativity) : py_scope.
Local Open Scope py_scope.

Definition world_of {A} (o : outcome A) : World :=
  match o with
  | Ok _ w => w
  | Raised _ w => w
  end.

(** [c] leaves the component [f] of the state as it found it, whether it
    returns or raises. *)
Definition preserves {A B} (f : World -> A) (c : M B) : Prop :=
  forall w, f (world_of (c w)) = f w.

(** ** Collaborators outside the module *)

(** The payout and bank-account resources of the GoCardless client. *)
Record Payout := {
  amount : Z;
  deducted_fees : Z;
  created_at : string;
  arrival_date : string;
  reference : string;
  creditor_bank_account : json }.

Record CreditorBankAccount := {
  account_number_ending : option string }.

Record Client := {
  payouts_get : json -> exn + Payout;
  creditor_bank_accounts_get : json -> exn + CreditorBankAccount }.

Record Request := {
  req_data : list byte;
  req_signature : option string }.

(** Library and framework functions the module calls and does not
    define: they are taken as they are, without assumptions. *)
Class Platform := {
  (** [json.loads] on the raw body. *)
  json_loads : list byte -> exn + json;
  (** [str(v)] of a value that is not a [str]. *)
  py_repr : json -> string;
  (** [str.capitalize]. *)
  capitalize : string -> string;
  (** [str(e)] of an exception. *)
  exn_str : exn -> string;
  (** [dateutil.parser.parse(s).date()]. *)
  parse_date : string -> exn + string;
  (** [GoCardlessSettings.initialize_client]. *)
  initialize_client : GCSettings -> exn + Client;
  (** [PaymentRequest.set_as_paid] and [set_as_cancelled] of the ledger
      application: what the transition makes of the document, or the
      exception it raises. *)
  set_as_paid : PaymentRequest -> exn + PaymentRequest;
  set_as_cancelled : PaymentRequest -> exn + PaymentRequest;
  (** The ledger application's validation of a Journal Entry. *)
  ledger_validate : JournalEntry -> option exn }.

Section Program.
Context {P : Platform}.

(** [str(v)], as an f-string formats [v]. *)
Definition py_str (v : json) : string :=
  match v with
  | JStr s => s
  | _ => py_repr v
  end.

(** [v.capitalize()]: only a [str] has the method. *)
Definition py_capitalize (v : json) : exn + string :=
  match v with
  | JStr s => inr (capitalize s)
  | _ => inl AttributeError
  end.

(** *** Store operations

    Modelled from the spec: the record store is a keyed document store
    with get, set-field, create and comment-append operations; a name
    that is not a string names no document. *)

Definition doc_name (v : json) : option string :=
  match v with
  | JStr s => Some s
  | _ => None
  end.

(** [frappe.db.set_value("GoCardless Mandate", mandate, "disabled", d)].
    Modelled from the spec: a missing mandate record is an error of the
    store, which propagates. *)
Definition db_set_value_mandate (mandate : json) (disabled : Z) : M unit :=
  fun w =>
    match doc_name mandate with
    | Some n =>
        match w_mandates w !! n with
        | Some _ => Ok tt (set_mandates (<[n := disabled]> (w_mandates w)) w)
        | None => Raised DoesNotExistError w
        end
    | None => Raised DoesNotExistError w
    end.

(** [frappe.get_doc("Payment Request", name)]. *)
Definition get_doc_payment_request (name : json)
    : M (string * PaymentRequest) :=
  fun w =>
    match doc_name name with
    | Some n =>
        match w_payment_requests w !! n with
        | Some d => Ok (n, d) w
        | None => Raised DoesNotExistError w
        end
    | None => Raised DoesNotExistError w
    end.

Definition update_payment_request (n : string)
    (f : PaymentRequest -> PaymentRequest) : M unit :=
  modify (fun w => set_payment_requests (alter f n (w_payment_requests w)) w).

(** [doc.add_comment("Info", text=..., comment_by=..., comment_email=...)]. *)
Definition add_comment (n : string) (c : Comment) : M unit :=
  update_payment_request n (fun d =>
    {| pr_status := pr_status d;
       pr_failed_reason := pr_failed_reason d;
       pr_comments := pr_comments d ++ [c] |}).

(** [doc.db_set("status", s)]. *)
Definition db_set_status (n : string) (s : string) : M unit :=
  update_payment_request n (fun d =>
    {| pr_status := s;
       pr_failed_reason := pr_failed_reason d;
       pr_comments := pr_comments d |}).

(** [doc.db_set("failed_reason", v)].  Modelled from the spec: the field
    is absent on an older record schema, and writing an absent field
    fails with the lookup error the handler expects. *)
Definition db_set_failed_reason (n : string) (v : json) : M unit :=
  fun w =>
    if w_has_failed_reason w then
      update_payment_request n (fun d =>
        {| pr_status := pr_status d;
           pr_failed_reason := Some v;
           pr_comments := pr_comments d |}) w
    else Raised (KeyError "failed_reason") w.

(** [doc.set_as_paid()] and [doc.set_as_cancelled()]: the transition [f]
    of the ledger application, run on the stored document. *)
Definition transition (f : PaymentRequest -> exn + PaymentRequest)
    (n : string) : M unit :=
  fun w =>
    match w_payment_requests w !! n with
    | Some d =>
        match f d with
        | inr d' =>
            Ok tt (set_payment_requests (<[n := d']> (w_payment_requests w)) w)
        | inl e => Raised e w
        end
    | None => Raised DoesNotExistError w
    end.

(** [frappe.log_error(a, b)]. *)
Definition log_error (a b : string) : M unit :=
  modify (fun w => set_error_log (w_error_log w ++ [(a, b)]) w).

(** [frappe.get_last_doc("GoCardless Settings", filters={"use_sandbox": 0})]. *)
Definition get_last_doc_settings : M GCSettings :=
  fun w =>
    match find (fun s => negb (use_sandbox s)) (w_settings w) with
    | Some s => Ok s w
    | None => Raised DoesNotExistError w
    end.

(** [frappe.get_value("Payment Gateway",
    filters={"gateway_controller": c}, fieldname="name")]. *)
Definition get_value_gateway (c : string) (w : World) : option string :=
  match find (fun g => String.eqb (gateway_controller g) c) (w_gateways w) with
  | Some g => Some (pg_name g)
  | None => None
  end.

Definition option_string_eqb (a b : option string) : bool :=
  match a, b with
  | Some x, Some y => String.eqb x y
  | None, None => true
  | _, _ => false
  end.

(** [frappe.get_value("Payment Gateway Account",
    filters={"payment_gateway": g}, fieldname="payment_account")]. *)
Definition get_value_gateway_account (g : option string) (w : World)
    : option string :=
  match find (fun a => option_string_eqb (payment_gateway a) g)
             (w_gateway_accounts w) with
  | Some a => payment_account a
  | None => None
  end.

(** [s] ends with [suffix] (the pattern ["%" + suffix] of [like]). *)
Definition ends_with (suffix s : string) : bool :=
  let ls := String.length s in
  let lx := String.length suffix in
  (lx <=? ls)%nat && String.eqb (substring (ls - lx) lx s) suffix.

(** [frappe.get_last_doc("Bank Account",
    filters={"bank_account_no": ["like", "%" + ending]})]. *)
Definition get_last_doc_bank_account (ending : string) : M BankAccount :=
  fun w =>
    match find (fun b => ends_with ending (bank_account_no b))
               (w_bank_accounts w) with
    | Some b => Ok b w
    | None => Raised DoesNotExistError w
    end.

(** [journal_entry.insert(ignore_permissions=True)]: validated, then
    stored as a draft. *)
Definition journal_insert (je : JournalEntry) : M unit :=
  match ledger_validate je with
  | Some e => raise e
  | None => modify (fun w => set_journal_entries (je :: w_journal_entries w) w)
  end.

Definition submitted (je : JournalEntry) : JournalEntry :=
  {| voucher_type := voucher_type je;
     posting_date := posting_date je;
     cheque_date := cheque_date je;
     cheque_no := cheque_no je;
     accounts := accounts je;
     docstatus := 1 |}.

(** [journal_entry.submit()]: validated again, then finalised. *)
Definition journal_submit (je : JournalEntry) : M unit :=
  match ledger_validate je with
  | Some e => raise e
  | None =>
      modify (fun w =>
        set_journal_entries
          (match w_journal_entries w with
           | [] => []
           | _ :: l => submitted je :: l
           end) w)
  end.

(** *** Signature check and secret cache *)

Definition secret_present (s : GCSettings) : bool :=
  match webhooks_secret s with
  | Some k => negb (String.eqb k "")
  | None => false
  end.

(** The inner [_get_webhook_keys]: the non-empty secrets of all
    GoCardless Settings documents. *)
Definition _get_webhook_keys (w : World) : list string :=
  omap (fun s => if secret_present s then webhooks_secret s else None)
       (w_settings w).

(** [frappe.cache().get_value("gocardless_webhooks_secret", generator)]:
    the cached list, or the generated one, which is then cached. *)
Definition get_webhook_keys : M (list string) :=
  fun w =>
    match w_cache w with
    | Some keys => Ok keys w
    | None =>
        let keys := _get_webhook_keys w in
        Ok keys (set_cache (Some keys) w)
    end.

Definition clear_cache : M unit := modify (set_cache None).

(** The keys [get_webhook_keys] returns in [w], and [w] once they are
    cached. *)
Definition webhook_keys (w : World) : list string :=
  match w_cache w with
  | Some keys => keys
  | None => _get_webhook_keys w
  end.
Definition cached (w : World) : World := set_cache (Some (webhook_keys w)) w.

(** The loop of [authenticate_signature] over the keys. *)
Fixpoint check_keys (received_signature : string) (data : list byte)
    (keys : list string) : exn + bool :=
  match keys with
  | [] => inr false
  | key :: keys' =>
      let computed_signature := hmac_sha256_hex key data in
      match compare_digest received_signature computed_signature with
      | inl e => inl e
      | inr true => inr true
      | inr false => check_keys received_signature data keys'
      end
  end.

Definition authenticate_signature (r : Request) : M bool :=
  match req_signature r with
  | None => ret false
  | Some received_signature =>
      if String.eqb received_signature "" then ret false
      else
        keys <- get_webhook_keys ;;
        lift (check_keys received_signature (req_data r) keys)
  end.

(** *** Mandate handler *)

(** The [disabled] value chosen from [event["action"]]. *)
Definition mandate_disabled (action : json) : Z :=
  if py_eq_str action "pending_customer_approval"
     || py_eq_str action "pending_submission"
     || py_eq_str action "submitted"
     || py_eq_str action "active"
  then 0 else 1.

(** [for link in links: mandates.append(link["mandate"])]. *)
Fixpoint collect_mandates (links : list json) : exn + list json :=
  match links with
  | [] => inr []
  | link :: links' =>
      match py_getitem link "mandate" with
      | inl e => inl e
      | inr m =>
          match collect_mandates links' with
          | inl e => inl e
          | inr ms => inr (m :: ms)
          end
      end
  end.

(** The mandate ids of [event["links"]]: of every element when
    [isinstance(links, (list,))], of the single mapping otherwise. *)
Definition event_mandates (links : json) : exn + list json :=
  match links with
  | JList l => collect_mandates l
  | _ => match py_getitem links "mandate" with
         | inl e => inl e
         | inr m => inr [m]
         end
  end.

Definition set_mandate_status (event : json) : M unit :=
  links <- lift (py_getitem event "links") ;;
  mandates <- lift (event_mandates links) ;;
  action <- lift (py_getitem event "action") ;;
  let disabled := mandate_disabled action in
  for_each mandates (fun mandate => db_set_value_mandate mandate disabled).

(** *** Payment request handler *)

Definition comment_action (cap : string) : string :=
  String.append "<strong>GoCardless Event: <em>"
    (String.append cap "<em></strong>").

Definition comment_description (d : string) : string :=
  String.append "<br>" d.

Definition comment_link (payment_id : string) : string :=
  String.append "<br><a href='https://manage.gocardless.com/payments/"
    (String.append payment_id "'>View Payment</a>").

Definition info_comment (text : string) : Comment :=
  {| comment_type := "Info";
     comment_text := text;
     comment_by := "GoCardless";
     comment_email := "help@gocardless.com" |}.

(** The comment text built from the action, the description and the
    payment id; [capitalize] of an action that is not a [str] raises. *)
Definition build_comment (event_action event_description payment_id : json)
    : exn + string :=
  match (if truthy event_action
         then match py_capitalize event_action with
              | inl e => inl e
              | inr cap => inr (comment_action cap)
              end
         else inr "") with
  | inl e => inl e
  | inr c1 =>
      let c2 := if truthy event_description
                then String.append c1
                       (comment_description (py_str event_description))
                else c1 in
      inr (if truthy payment_id
           then String.append c2 (comment_link (py_str payment_id))
           else c2)
  end.

(** [except KeyError: pass]. *)
Definition pass_key_error (e : exn) : M unit :=
  match e with
  | KeyError _ => ret tt
  | _ => raise e
  end.

(** The four transitions.  At most one of them runs, since they test the
    same [event_action] against different strings, so [status] is the
    status of the document as [get_doc] loaded it. *)
Definition apply_action (event event_action : json) (n : string)
    (status : string) : M unit :=
  when (py_eq_str event_action "submitted"
        && negb (String.eqb status "Initiated"))
       (db_set_status n "Initiated") ;;
  when (py_eq_str event_action "confirmed"
        && negb (String.eqb status "Paid"))
       (transition set_as_paid n) ;;
  when (py_eq_str event_action "cancelled"
        && negb (String.eqb status "Cancelled"))
       (transition set_as_cancelled n) ;;
  when (py_eq_str event_action "failed"
        && negb (String.eqb status "Failed"))
       (db_set_status n "Failed" ;;
        try_except
          (details <- lift (py_getitem event "details") ;;
           description <- lift (py_getitem details "description") ;;
           db_set_failed_reason n description)
          pass_key_error).

Definition set_payment_request_status (event : json) : M unit :=
  event_action <- lift (py_get event "action" JNull) ;;
  details <- lift (py_get event "details" (JDict [])) ;;
  event_description <- lift (py_get details "description" JNull) ;;
  links <- lift (py_get event "links" (JDict [])) ;;
  payment_id <- lift (py_get links "payment" JNull) ;;
  comment <- lift (build_comment event_action event_description payment_id) ;;
  metadata <- lift (py_get event "resource_metadata" (JDict [])) ;;
  payment_request <- lift (py_get metadata "reference_document" JNull) ;;
  if negb (truthy payment_request) then ret tt
  else
    doc <- get_doc_payment_request payment_request ;;
    let '(n, d) := doc in
    when (negb (String.eqb comment "")) (add_comment n (info_comment comment)) ;;
    apply_action event event_action n (pr_status d).

(** *** Payout handler *)

(** The [accounts] rows of the journal entry, in the order written.  The
    literal [0] of the source is the [int] zero; it is the float zero
    here, which it equals and adds like. *)
Definition payout_journal_lines
    (deposit_account fees_account payment_account : option string)
    (amount deducted_fees : float) : list JournalLine :=
  [ {| jl_account := deposit_account;
       debit_in_account_currency := amount;
       debit := amount;
       credit := 0;
       credit_in_account_currency := 0 |};
    {| jl_account := fees_account;
       debit_in_account_currency := 0;
       debit := 0;
       credit := deducted_fees;
       credit_in_account_currency := deducted_fees |};
    {| jl_account := payment_account;
       debit_in_account_currency := 0;
       debit := 0;
       credit := amount + deducted_fees;
       credit_in_account_currency := amount + deducted_fees |} ]%float.

Definition payout_journal_entry (payout : Payout) (created_at_date : string)
    (deposit_account fees_account payment_account : option string)
    (amount deducted_fees : float) : JournalEntry :=
  {| voucher_type := "Journal Entry";
     posting_date := arrival_date payout;
     cheque_date := created_at_date;
     cheque_no := reference payout;
     accounts := payout_journal_lines deposit_account fees_account
                   payment_account amount deducted_fees;
     docstatus := 0 |}.

(** [float(x) / 100]: minor units to major units. *)
Definition major_units (x : Z) : exn + float :=
  match float_of_int x with
  | inl e => inl e
  | inr f => inr (f / hundred)%float
  end.

(** ["%" + account_number_ending]: a missing ending is [None], which a
    [str] cannot be added to. *)
Definition like_pattern (ending : option string) : exn + string :=
  match ending with
  | Some s => inr s
  | None => inl TypeError
  end.

(** The body of the [try] block. *)
Definition payout_journal_body (event : json) : M unit :=
  links <- lift (py_get event "links" JNull) ;;
  payout_id <- lift (py_get links "payout" JNull) ;;
  gc_settings <- get_last_doc_settings ;;
  payment_gateway <- gets (get_value_gateway (gs_name gc_settings)) ;;
  payment_account <- gets (get_value_gateway_account payment_gateway) ;;
  client <- lift (initialize_client gc_settings) ;;
  payout <- lift (payouts_get client payout_id) ;;
  let gc_bank_account := creditor_bank_account payout in
  cba <- lift (creditor_bank_accounts_get client gc_bank_account) ;;
  ending <- lift (like_pattern (account_number_ending cba)) ;;
  bank_account <- get_last_doc_bank_account ending ;;
  let deposit_account := account bank_account in
  let fees_account := fees_account gc_settings in
  amount <- lift (major_units (amount payout)) ;;
  deducted_fees <- lift (major_units (deducted_fees payout)) ;;
  created_at_date <- lift (parse_date (created_at payout)) ;;
  let journal_entry :=
    payout_journal_entry payout created_at_date deposit_account
      fees_account payment_account amount deducted_fees in
  journal_insert journal_entry ;;
  journal_submit journal_entry.

Definition create_payout_journal (event : json) : M unit :=
  try_except (payout_journal_body event)
    (fun e => log_error "GoCardless Payout Journal Creation Error"
                        (exn_str e)).

(** Totals of a journal entry, summed over its rows from zero. *)
Definition total_debit (je : JournalEntry) : float :=
  fold_left PrimFloat.add (map debit (accounts je)) 0%float.
Definition total_credit (je : JournalEntry) : float :=
  fold_left PrimFloat.add (map credit (accounts je)) 0%float.

(** *** Dispatcher and entry point *)

Definition erpnext_installed (w : World) : bool :=
  existsb (String.eqb "erpnext") (w_installed_apps w).

Definition set_status (event : json) : M unit :=
  modify (fun w => set_dispatched (w_dispatched w ++ [event]) w) ;;
  resource_type <- lift (py_get event "resource_type" (JDict [])) ;;
  metadata <- lift (py_get event "resource_metadata" (JDict [])) ;;
  reference_doctype <- lift (py_get metadata "reference_doctype" JNull) ;;
  when (py_eq_str resource_type "mandates") (set_mandate_status event) ;;
  when (py_eq_str resource_type "payments"
        && py_eq_str reference_doctype "Payment Request")
       (set_payment_request_status event) ;;
  when (py_eq_str resource_type "payouts")
       (installed <- gets erpnext_installed ;;
        when installed (create_payout_journal event)).

(** [webhooks()]: [None] is Python's [None] (the early return), [Some
    200] the status returned after the batch. *)
Definition webhooks (request : option Request) : M (option Z) :=
  match request with
  | None => ret None
  | Some r =>
      authenticated <- authenticate_signature r ;;
      if negb authenticated then raise AuthenticationError
      else
        loaded <- lift (json_loads (req_data r)) ;;
        let gocardless_events := if truthy loaded then loaded else JList [] in
        events <- lift (py_getitem gocardless_events "events") ;;
        items <- lift (py_iter events) ;;
        for_each items set_status ;;
        log_error "GoCardless Webhook" (py_str gocardless_events) ;;
        ret (Some 200)
  end.

End Program.

(** ** A concrete platform and store, for the examples *)

Module Sample.

Definition cat (a b : string) : string := String.append a b.
Infix "^^" := cat (at level 60, right associativity).

(** A name between double quotes, as JSON text writes it. *)
Definition dq : string := String (ascii_of_nat 34) "".
Definition q (s : string) : string := dq ^^ s ^^ dq.

(** [{"events":[{"resource_type":"mandates","action":"active"}]}]: a
    mandate event without [links]. *)
Definition text_no_links : string :=
  "{" ^^ q "events" ^^ ":[{" ^^ q "resource_type" ^^ ":" ^^ q "mandates"
  ^^ "," ^^ q "action" ^^ ":" ^^ q "active" ^^ "}]}".
Definition event_no_links : json :=
  JDict [("resource_type", JStr "mandates"); ("action", JStr "active")].
Definition batch_no_links : json :=
  JDict [("events", JList [event_no_links])].

(** [{"events":[{"resource_type":"unknown_future_type"},
    {"resource_type":"mandates","action":"active",
     "links":{"mandate":"MD001"}}]}]. *)
Definition text_mixed : string :=
  "{" ^^ q "events" ^^ ":[{" ^^ q "resource_type" ^^ ":"
  ^^ q "unknown_future_type" ^^ "},{" ^^ q "resource_type" ^^ ":"
  ^^ q "mandates" ^^ "," ^^ q "action" ^^ ":" ^^ q "active" ^^ ","
  ^^ q "links" ^^ ":{" ^^ q "mandate" ^^ ":" ^^ q "MD001" ^^ "}}]}".
Definition event_unknown : json :=
  JDict [("resource_type", JStr "unknown_future_type")].
Definition event_active : json :=
  JDict [("resource_type", JStr "mandates"); ("action", JStr "active");
         ("links", JDict [("mandate", JStr "MD001")])].
Definition batch_mixed : json :=
  JDict [("events", JList [event_unknown; event_active])].

(** [{"events":[<event_no_links>,<event_active>]}]: the failing event
    first, a valid one behind it. *)
Definition text_no_links_then_active : string :=
  "{" ^^ q "events" ^^ ":[{" ^^ q "resource_type" ^^ ":" ^^ q "mandates"
  ^^ "," ^^ q "action" ^^ ":" ^^ q "active" ^^ "},{"
  ^^ q "resource_type" ^^ ":" ^^ q "mandates" ^^ "," ^^ q "action" ^^ ":"
  ^^ q "active" ^^ "," ^^ q "links" ^^ ":{" ^^ q "mandate" ^^ ":"
  ^^ q "MD001" ^^ "}}]}".
Definition batch_no_links_then_active : json :=
  JDict [("events", JList [event_no_links; event_active])].

Definition json_table : list (string * json) :=
  [ (text_no_links, batch_no_links);
    (text_mixed, batch_mixed);
    (text_no_links_then_active, batch_no_links_then_active) ].

(** [json.loads] on the bodies of the examples; every other body of
    the examples is the empty one, which is not JSON. *)
Definition json_loads (body : list byte) : exn + json :=
  match dict_lookup (string_of_list_byte body) json_table with
  | Some v => inr v
  | None => inl JSONDecodeError
  end.

Definition upper (c : ascii) : ascii :=
  let n := nat_of_ascii c in
  if ((97 <=? n) && (n <=? 122))%nat then ascii_of_nat (n - 32) else c.
Definition lower (c : ascii) : ascii :=
  let n := nat_of_ascii c in
  if ((65 <=? n) && (n <=? 90))%nat then ascii_of_nat (n + 32) else c.
Fixpoint lower_all (s : string) : string :=
  match s with
  | EmptyString => EmptyString
  | String c s' => String (lower c) (lower_all s')
  end.
(** [str.capitalize] on ASCII text. *)
Definition capitalize (s : string) : string :=
  match s with
  | EmptyString => EmptyString
  | String c s' => String (upper c) (lower_all s')
  end.

Fixpoint join (sep : string) (l : list string) : string :=
  match l with
  | [] => ""
  | [x] => x
  | x :: l' => x ^^ sep ^^ join sep l'
  end.

(** [repr] of a value without floats, for strings that need no
    escaping. *)
Fixpoint repr (v : json) : string :=
  match v with
  | JNull => "None"
  | JBool true => "True"
  | JBool false => "False"
  | JInt z => pretty.pretty z
  | JFloat _ => "<float>"
  | JStr s => "'" ^^ s ^^ "'"
  | JList l => "[" ^^ join ", " (map repr l) ^^ "]"
  | JDict d =>
      "{" ^^ join ", " (map (fun kv => let '(k, x) := kv in
                                       "'" ^^ k ^^ "': " ^^ repr x) d)
      ^^ "}"
  end.

Definition exn_str (e : exn) : string :=
  match e with
  | AuthenticationError => "AuthenticationError"
  | KeyError k => "'" ^^ k ^^ "'"
  | TypeError => "TypeError"
  | AttributeError => "AttributeError"
  | JSONDecodeError => "JSONDecodeError"
  | DoesNotExistError => "DoesNotExistError"
  | OverflowError => "OverflowError"
  | OtherError name => name
  end.

(** The date part of an ISO 8601 timestamp. *)
Definition parse_date (s : string) : exn + string :=
  if (10 <=? String.length s)%nat then inr (substring 0 10 s)
  else inl (OtherError "ParserError").

(** One payout of 100.00 with 2.50 of fees, paid to one bank account. *)
Definition payout : Payout :=
  {| amount := 10000;
     deducted_fees := 250;
     created_at := "2024-05-01T10:00:00.000Z";
     arrival_date := "2024-05-03";
     reference := "REF-1";
     creditor_bank_account := JStr "BA0001" |}.

Definition client : Client :=
  {| payouts_get := fun id =>
       if py_eq_str id "PO0001" then inr payout
       else inl (OtherError "InvalidApiUsageError");
     creditor_bank_accounts_get := fun id =>
       if py_eq_str id "BA0001"
       then inr {| account_number_ending := Some "11" |}
       else inl (OtherError "InvalidApiUsageError") |}.

Definition with_status (s : string) (d : PaymentRequest) : PaymentRequest :=
  {| pr_status := s;
     pr_failed_reason := pr_failed_reason d;
     pr_comments := pr_comments d |}.

Definition all_accounts_set (je : JournalEntry) : bool :=
  forallb (fun l => match jl_account l with Some _ => true | None => false end)
          (accounts je).

(** The ledger of the examples accepts an entry whose rows all name an
    account. *)
Definition ledger_validate (je : JournalEntry) : option exn :=
  if all_accounts_set je then None else Some (OtherError "ValidationError").

Definition platform : Platform :=
  Build_Platform json_loads repr capitalize exn_str parse_date
    (fun _ => inr client)
    (fun d => inr (with_status "Paid" d))
    (fun d => inr (with_status "Cancelled" d))
    ledger_validate.

Definition settings : GCSettings :=
  {| gs_name := "GoCardless-Live";
     use_sandbox := false;
     fees_account := Some "Bank Charges";
     webhooks_secret := Some "whsec_live" |}.

Definition request_PR001 : PaymentRequest :=
  {| pr_status := "Initiated";
     pr_failed_reason := None;
     pr_comments := [] |}.

Definition world : World :=
  {| w_mandates := {[ "MD001" := 1; "MD002" := 0 ]};
     w_payment_requests := {[ "PR001" := request_PR001 ]};
     w_has_failed_reason := false;
     w_settings := [settings];
     w_gateways := [ {| pg_name := "GoCardless";
                        gateway_controller := "GoCardless-Live" |} ];
     w_gateway_accounts :=
       [ {| payment_gateway := Some "GoCardless";
            payment_account := Some "GoCardless Clearing" |} ];
     w_bank_accounts :=
       [ {| bank_account_no := "GB0000000011";
            account := Some "Bank Current" |} ];
     w_journal_entries := [];
     w_error_log := [];
     w_cache := None;
     w_installed_apps := ["frappe"; "payments"; "erpnext"];
     w_dispatched := [] |}.

(** A request whose signature is the HMAC of its body under the
    configured secret. *)
Definition signed (text : string) : Request :=
  let body := list_byte_of_string text in
  {| req_data := body;
     req_signature := Some (hmac_sha256_hex "whsec_live" body) |}.

(** A payment event on PR001. *)
Definition payment_event (action : string) : json :=
  JDict [("resource_type", JStr "payments");
         ("action", JStr action);
         ("resource_metadata",
          JDict [("reference_doctype", JStr "Payment Request");
                 ("reference_document", JStr "PR001")])].

(** A request whose signature header holds the single character
    U+00E9. *)
Definition latin1_request : Request :=
  {| req_data := [];
     req_signature := Some (String (ascii_of_nat 233) "") |}.

(** A request with an empty body and no signature header. *)
Definition empty_request : Request :=
  {| req_data := []; req_signature := None |}.

(** The sample store after a first [confirmed] event on PR001. *)
Definition paid_comment : Comment :=
  info_comment "<strong>GoCardless Event: <em>Confirmed<em></strong>".
Definition world_paid : World :=
  set_payment_requests
    {[ "PR001" := {| pr_status := "Paid";
                     pr_failed_reason := None;
                     pr_comments := [paid_comment] |} ]}
    world.
Definition world_paid_twice : World :=
  set_payment_requests
    {[ "PR001" := {| pr_status := "Paid";
                     pr_failed_reason := None;
                     pr_comments := [paid_comment; paid_comment] |} ]}
    world.

Definition payout_event : json :=
  JDict [("resource_type", JStr "payouts");
         ("links", JDict [("payout", JStr "PO0001")])].

End Sample.

(** ** Further definitions for the properties *)

Definition set_settings (l : list GCSettings) (w : World) : World :=
  {| w_mandates := w_mandates w;
     w_payment_requests := w_payment_requests w;
     w_has_failed_reason := w_has_failed_reason w;
     w_settings := l;
     w_gateways := w_gateways w;
     w_gateway_accounts := w_gateway_accounts w;
     w_bank_accounts := w_bank_accounts w;
     w_journal_entries := w_journal_entries w;
     w_error_log := w_error_log w;
     w_cache := w_cache w;
     w_installed_apps := w_installed_apps w;
     w_dispatched := w_dispatched w |}.

(** A lower-case hexadecimal digit, [0-9a-f]. *)
Definition is_hex_lower_char (c : ascii) : bool :=
  let n := N_of_ascii c in
  (((48 <=? n) && (n <=? 57)) || ((97 <=? n) && (n <=? 102)))%N.

Fixpoint is_hex_lower (s : string) : bool :=
  match s with
  | EmptyString => true
  | String c s' => is_hex_lower_char c && is_hex_lower s'
  end.

(** [c] changes nothing but the part of the state that [upd] writes,
    whether it returns or raises. *)
Definition touches_only {X B} (upd : X -> World -> World) (c : M B) : Prop :=
  forall w, exists x, world_of (c w) = upd x w.

(** The configuration a request reads: settings, gateways, accounts,
    installed applications, the schema, and the secret cache. *)
Definition configuration (w : World) :=
  (w_settings w, w_gateways w, w_gateway_accounts w, w_bank_accounts w,
   w_installed_apps w, w_has_failed_reason w, w_cache w).

(** [c] only reads: it returns or raises in the state it started in. *)
Definition reads_only {B} (c : M B) : Prop :=
  forall w, (exists b, c w = Ok b w) \/ (exists e, c w = Raised e w).

(** [c] adds at most one journal entry and changes nothing else. *)
Definition posts_at_most_one {B} (c : M B) : Prop :=
  forall w,
    world_of (c w) = w \/
    exists je, world_of (c w)
               = set_journal_entries (je :: w_journal_entries w) w.

(** What the payout handler may write: journal entries and the log. *)
Definition set_ledger (x : list JournalEntry * list (string * string))
    (w : World) : World :=
  set_error_log (snd x) (set_journal_entries (fst x) w).

(** The history with one more event. *)
Definition record_event (event : json) (w : World) : World :=
  set_dispatched (w_dispatched w ++ [event]) w.

(** The log with one more entry. *)
Definition logged (a b : string) (w : World) : World :=
  set_error_log (w_error_log w ++ [(a, b)]) w.


(** A payment event the handler can read to the end: [details], [links]
    and [resource_metadata] are absent or mappings, and [action] is
    absent, a string, or a value that counts as false. *)
Definition readable_payment_event (d : list (string * json)) : bool :=
  optional_mapping "details" d
  && optional_mapping "links" d
  && optional_mapping "resource_metadata" d
  && match dict_lookup "action" d with
     | None => true
     | Some (JStr _) => true
     | Some v => negb (truthy v)
     end.

(** The status each action leads to. *)
Definition target_status (a : string) : option string :=
  if String.eqb a "submitted" then Some "Initiated"
  else if String.eqb a "confirmed" then Some "Paid"
  else if String.eqb a "cancelled" then Some "Cancelled"
  else if String.eqb a "failed" then Some "Failed"
  else None.

(** A document with one more comment, and with another status. *)
Definition with_comment (c : Comment) (d : PaymentRequest) : PaymentRequest :=
  {| pr_status := pr_status d;
     pr_failed_reason := pr_failed_reason d;
     pr_comments := pr_comments d ++ [c] |}.

(** Bodies that are JSON but no batch, with what [json.loads] makes of
    them. *)
Module Cases.

Definition text_null : string := "null".
Definition text_empty_object : string := "{}".
Definition text_list : string := "[1]".
(** [{"eventz":[]}]. *)
Definition text_no_events : string :=
  Sample.cat "{" (Sample.cat (Sample.q "eventz") ":[]}").
(** [{"events":5}]. *)
Definition text_events_number : string :=
  Sample.cat "{" (Sample.cat (Sample.q "events") ":5}").
(** [{"events":[]}]. *)
Definition text_events_empty : string :=
  Sample.cat "{" (Sample.cat (Sample.q "events") ":[]}").
(** [{"events":[7]}]. *)
Definition text_event_number : string :=
  Sample.cat "{" (Sample.cat (Sample.q "events") ":[7]}").

(** [{"events":[{"resource_type":"refunds"}]}]. *)
Definition text_other_kinds : string :=
  Sample.cat "{" (Sample.cat (Sample.q "events")
    (Sample.cat ":[{" (Sample.cat (Sample.q "resource_type")
    (Sample.cat ":" (Sample.cat (Sample.q "refunds") "}]}"))))).
Definition event_refund : json := JDict [("resource_type", JStr "refunds")].

Definition json_table : list (string * json) :=
  [ (text_other_kinds, JDict [("events", JList [event_refund])]);
    (text_null, JNull);
    (text_empty_object, JDict []);
    (text_list, JList [JInt 1]);
    (text_no_events, JDict [("eventz", JList [])]);
    (text_events_number, JDict [("events", JInt 5)]);
    (text_events_empty, JDict [("events", JList [])]);
    (text_event_number, JDict [("events", JList [JInt 7])]) ].

Definition json_loads (body : list byte) : exn + json :=
  match dict_lookup (string_of_list_byte body) json_table with
  | Some v => inr v
  | None => Sample.json_loads body
  end.

Definition platform : Platform :=
  Build_Platform json_loads Sample.repr Sample.capitalize Sample.exn_str
    Sample.parse_date
    (fun _ => inr Sample.client)
    (fun d => inr (Sample.with_status "Paid" d))
    (fun d => inr (Sample.with_status "Cancelled" d))
    Sample.ledger_validate.

(** A ledger application whose transitions fail. *)
Definition failing_platform : Platform :=
  Build_Platform json_loads Sample.repr Sample.capitalize Sample.exn_str
    Sample.parse_date
    (fun _ => inr Sample.client)
    (fun _ => inl (OtherError "ValidationError"))
    (fun _ => inl (OtherError "ValidationError"))
    Sample.ledger_validate.

(** The sample store with a second settings document, in sandbox mode
    and with its own secret. *)
Definition sandbox_settings : GCSettings :=
  {| gs_name := "GoCardless-Sandbox";
     use_sandbox := true;
     fees_account := None;
     webhooks_secret := Some "whsec_sandbox" |}.

Definition blank_settings : GCSettings :=
  {| gs_name := "GoCardless-Blank";
     use_sandbox := false;
     fees_account := None;
     webhooks_secret := Some "" |}.

End Cases.

(** * Properties *)

(** ** The hexadecimal digest *)

Lemma hexdigit_cases (z : Z) :
  exists d, 0 <= d < 16 /\ Sha256.hexdigit z =
    ascii_of_N (Z.to_N (if d <? 10 then 48 + d else 87 + d)).
Proof.
  exists (Z.land z 15). split; [|reflexivity].
  change 15 with (Z.ones 4). rewrite Z.land_ones by lia.
  apply Z.mod_pos_bound. lia.
Qed.

Lemma hexdigit_ascii (z : Z) : is_ascii_char (Sha256.hexdigit z) = true.
Proof.
  destruct (hexdigit_cases z) as (d & Hd & ->).
  assert (H : d = 0 \/ d = 1 \/ d = 2 \/ d = 3 \/ d = 4 \/ d = 5 \/ d = 6 \/
              d = 7 \/ d = 8 \/ d = 9 \/ d = 10 \/ d = 11 \/ d = 12 \/
              d = 13 \/ d = 14 \/ d = 15) by lia.
  repeat (destruct H as [-> | H]; [reflexivity|]). subst. reflexivity.
Qed.

Lemma hex_word_ascii w rest :
  is_ascii rest = true -> is_ascii (Sha256.hex_word w rest) = true.
Proof.
  intros H. unfold Sha256.hex_word. cbn [is_ascii].
  rewrite !hexdigit_ascii, H. reflexivity.
Qed.

Lemma hmac_sha256_hex_ascii key data :
  is_ascii (hmac_sha256_hex key data) = true.
Proof.
  unfold hmac_sha256_hex, Sha256.hmac_hexdigest, Sha256.hex_state.
  repeat apply hex_word_ascii. reflexivity.
Qed.

Lemma hmac_sha256_hex_length key data :
  String.length (hmac_sha256_hex key data) = 64%nat.
Proof. reflexivity. Qed.

Lemma hmac_sha256_hex_nonempty key data : hmac_sha256_hex key data <> "".
Proof.
  intros H. apply (f_equal String.length) in H.
  rewrite hmac_sha256_hex_length in H. discriminate.
Qed.

(** The digests agree with the published test vectors: FIPS 180-4 for
    the hash, RFC 4231 (cases 2 and 6) for the keyed hash. *)
Example sha256_abc :
  Sha256.hexdigest (list_byte_of_string "abc")
  = "ba7816bf8f01cfea414140de5dae2223b00361a396177a9cb410ff61f20015ad".
Proof. vm_compute. reflexivity. Qed.

Example hmac_sha256_rfc4231_2 :
  hmac_sha256_hex "Jefe" (list_byte_of_string "what do ya want for nothing?")
  = "5bdcc146bf60754e6a042426089575c75a003f089d2739839dec58b964ec3843".
Proof. vm_compute. reflexivity. Qed.

Example hmac_sha256_rfc4231_6 :
  Sha256.hmac_hexdigest (repeat xaa 131)
    (list_byte_of_string
       "Test Using Larger Than Block-Size Key - Hash Key First")
  = "60e431591ee0b67f0d8a26aacbf5b77f8e0bc6213728c5140546040f0ee37f54".
Proof. vm_compute. reflexivity. Qed.

(** ** World updates *)

Lemma set_cache_same w : set_cache (w_cache w) w = w.
Proof. destruct w; reflexivity. Qed.

Lemma cached_of_cached w keys : w_cache w = Some keys -> cached w = w.
Proof.
  intros H. unfold cached, webhook_keys. rewrite H, <- H.
  apply set_cache_same.
Qed.

Lemma same_records_refl w : same_records w w.
Proof. repeat split. Qed.

Lemma same_records_cached w : same_records w (cached w).
Proof. repeat split. Qed.

Lemma same_records_trans w1 w2 w3 :
  same_records w1 w2 -> same_records w2 w3 -> same_records w1 w3.
Proof.
  unfold same_records. intros (?&?&?&?&?) (?&?&?&?&?).
  repeat split; congruence.
Qed.

(** ** Signature check *)

Lemma get_webhook_keys_eq w : get_webhook_keys w = Ok (webhook_keys w) (cached w).
Proof.
  unfold get_webhook_keys, webhook_keys.
  destruct (w_cache w) as [keys|] eqn:E.
  - rewrite (cached_of_cached w keys E). reflexivity.
  - unfold cached, webhook_keys. rewrite E. reflexivity.
Qed.

Lemma compare_digest_ascii a b :
  is_ascii a = true -> is_ascii b = true ->
  compare_digest a b = inr (String.eqb a b).
Proof. intros Ha Hb. unfold compare_digest. rewrite Ha, Hb. reflexivity. Qed.

Lemma check_keys_ascii s data keys :
  is_ascii s = true ->
  check_keys s data keys
  = inr (existsb (fun key => String.eqb s (hmac_sha256_hex key data)) keys).
Proof.
  intros Hs. induction keys as [|key keys IH]; [reflexivity|].
  cbn [check_keys existsb].
  rewrite (compare_digest_ascii _ _ Hs (hmac_sha256_hex_ascii key data)).
  destruct (String.eqb s (hmac_sha256_hex key data)); [reflexivity|exact IH].
Qed.

Lemma authenticate_signature_eq r w s :
  req_signature r = Some s -> s <> "" ->
  authenticate_signature r w
  = lift (check_keys s (req_data r) (webhook_keys w)) (cached w).
Proof.
  intros Hr Hs. unfold authenticate_signature. rewrite Hr.
  destruct (String.eqb_spec s ""); [contradiction|].
  unfold bind. rewrite get_webhook_keys_eq. reflexivity.
Qed.

Lemma authenticate_signature_world r w :
  world_of (authenticate_signature r w) = w \/
  world_of (authenticate_signature r w) = cached w.
Proof.
  unfold authenticate_signature.
  destruct (req_signature r) as [s|]; [|left; reflexivity].
  destruct (String.eqb s ""); [left; reflexivity|].
  right. unfold bind. rewrite get_webhook_keys_eq.
  destruct (check_keys s (req_data r) (webhook_keys w)); reflexivity.
Qed.

(** C3 (amended).  A supplied signature made of ASCII characters is
    accepted exactly when it is the hexadecimal HMAC-SHA256 of the raw
    body under one of the configured secrets: the digest of a configured
    secret is accepted, any other ASCII string is refused.  An absent or
    empty signature is refused, and so is every signature when no secret
    is configured.  Whatever the outcome, no record is changed and
    nothing is logged; the only effect is that the secret list is cached
    when the cache was empty. *)
Theorem authenticate_signature_ascii (r : Request) (w : World) :
  ((req_signature r = None \/ req_signature r = Some "") ->
   authenticate_signature r w = Ok false w) /\
  (forall s, req_signature r = Some s -> s <> "" -> webhook_keys w = [] ->
   authenticate_signature r w = Ok false (cached w)) /\
  (forall s, req_signature r = Some s -> is_ascii s = true ->
   exists b w',
     authenticate_signature r w = Ok b w' /\
     (b = true <->
      exists key, In key (webhook_keys w) /\
                  s = hmac_sha256_hex key (req_data r))) /\
  (forall key, In key (webhook_keys w) ->
   req_signature r = Some (hmac_sha256_hex key (req_data r)) ->
   authenticate_signature r w = Ok true (cached w)) /\
  (same_records w (world_of (authenticate_signature r w)) /\
   w_dispatched (world_of (authenticate_signature r w)) = w_dispatched w /\
   (w_cache (world_of (authenticate_signature r w)) = w_cache w \/
    w_cache w = None /\
    w_cache (world_of (authenticate_signature r w))
    = Some (_get_webhook_keys w))).
Proof.
  assert (Hiff : forall s,
            existsb (fun key => String.eqb s (hmac_sha256_hex key (req_data r)))
                    (webhook_keys w) = true <->
            exists key, In key (webhook_keys w) /\
                        s = hmac_sha256_hex key (req_data r)).
  { intros s. rewrite existsb_exists. split.
    - intros (key & Hin & Heq). exists key. split; [exact Hin|].
      apply String.eqb_eq. exact Heq.
    - intros (key & Hin & Heq). exists key. split; [exact Hin|].
      apply String.eqb_eq. exact Heq. }
  split; [|split; [|split; [|split]]].
  - intros [H|H]; unfold authenticate_signature; rewrite H; reflexivity.
  - intros s Hr Hs Hk.
    rewrite (authenticate_signature_eq r w s Hr Hs), Hk. reflexivity.
  - intros s Hr Ha.
    destruct (String.eqb_spec s "") as [->|Hs].
    + exists false, w. split.
      * unfold authenticate_signature. rewrite Hr. reflexivity.
      * split; [discriminate|].
        intros (key & _ & Heq). symmetry in Heq.
        destruct (hmac_sha256_hex_nonempty _ _ Heq).
    + exists (existsb (fun key => String.eqb s (hmac_sha256_hex key (req_data r)))
                      (webhook_keys w)), (cached w).
      split; [|apply Hiff].
      rewrite (authenticate_signature_eq r w s Hr Hs).
      rewrite (check_keys_ascii _ _ _ Ha). reflexivity.
  - intros key Hin Hr.
    rewrite (authenticate_signature_eq r w _ Hr (hmac_sha256_hex_nonempty _ _)).
    rewrite (check_keys_ascii _ _ _ (hmac_sha256_hex_ascii _ _)).
    replace (existsb _ _) with true; [reflexivity|].
    symmetry. apply Hiff. exists key. split; [exact Hin|reflexivity].
  - destruct (authenticate_signature_world r w) as [-> | ->].
    + split; [apply same_records_refl|]. split; [reflexivity|].
      left. reflexivity.
    + split; [apply same_records_cached|]. split; [reflexivity|].
      unfold cached, webhook_keys. cbn [w_cache set_cache].
      destruct (w_cache w) as [keys|]; [left|right; split]; reflexivity.
Qed.

(** The digest of the sample body under the configured secret is
    accepted; an ASCII word that is no digest is refused. *)
Lemma authenticate_signature_ascii_witness :
  authenticate_signature (Sample.signed Sample.text_mixed) Sample.world
  = Ok true (cached Sample.world) /\
  exists b w',
    authenticate_signature
      {| req_data := []; req_signature := Some "deadbeef" |} Sample.world
    = Ok b w' /\
    (b = true <->
     exists key, In key (webhook_keys Sample.world) /\
                 "deadbeef" = hmac_sha256_hex key []).
Proof.
  split.
  - apply (proj1 (proj2 (proj2 (proj2
      (authenticate_signature_ascii (Sample.signed Sample.text_mixed)
                                    Sample.world)))) "whsec_live").
    + left. reflexivity.
    + reflexivity.
  - apply (proj1 (proj2 (proj2
      (authenticate_signature_ascii
         {| req_data := []; req_signature := Some "deadbeef" |}
         Sample.world))) "deadbeef").
    + reflexivity.
    + reflexivity.
Defined.

(** C3 (as stated) fails: a supplied signature with a character outside
    ASCII is no digest of any configured secret, yet the check does not
    return false, it raises [TypeError]; and the call has an effect, the
    secret list being cached. *)
Lemma authenticate_signature_non_ascii_raises :
  authenticate_signature Sample.latin1_request Sample.world
  = Raised TypeError (cached Sample.world) /\
  (forall key, In key (webhook_keys Sample.world) ->
     req_signature Sample.latin1_request
     <> Some (hmac_sha256_hex key (req_data Sample.latin1_request))) /\
  w_cache (cached Sample.world) <> w_cache Sample.world.
Proof.
  split; [vm_compute; reflexivity|]. split; [|discriminate].
  intros key Hin Heq.
  apply (f_equal (option_map String.length)) in Heq.
  unfold option_map, Sample.latin1_request, req_signature in Heq.
  rewrite hmac_sha256_hex_length in Heq. discriminate.
Qed.

(** ** The entry point *)

Section Entry.
Context {P : Platform}.

Lemma webhooks_eq (r : Request) (w : World) :
  webhooks (Some r) w
  = match authenticate_signature r w with
    | Ok true w1 =>
        (loaded <- lift (json_loads (req_data r)) ;;
         let gocardless_events := if truthy loaded then loaded else JList [] in
         events <- lift (py_getitem gocardless_events "events") ;;
         items <- lift (py_iter events) ;;
         for_each items set_status ;;
         log_error "GoCardless Webhook" (py_str gocardless_events) ;;
         ret (Some 200)) w1
    | Ok false w1 => Raised AuthenticationError w1
    | Raised e w1 => Raised e w1
    end.
Proof.
  unfold webhooks, bind at 1.
  destruct (authenticate_signature r w) as [[|] w1|e w1]; reflexivity.
Qed.

Lemma authenticate_signature_frame (r : Request) (w : World) :
  same_records w (world_of (authenticate_signature r w)) /\
  w_dispatched (world_of (authenticate_signature r w)) = w_dispatched w.
Proof.
  destruct (authenticate_signature_world r w) as [-> | ->].
  - split; [apply same_records_refl|reflexivity].
  - split; [apply same_records_cached|reflexivity].
Qed.

Lemma webhooks_unauthenticated (r : Request) (w : World) :
  (forall w1, authenticate_signature r w <> Ok true w1) ->
  exists e, webhooks (Some r) w
            = Raised e (world_of (authenticate_signature r w)).
Proof.
  intros H. rewrite webhooks_eq.
  destruct (authenticate_signature r w) as [[|] w1|e w1]; cbn [world_of].
  - destruct (H w1). reflexivity.
  - exists AuthenticationError. reflexivity.
  - exists e. reflexivity.
Qed.

End Entry.

(** C2.  When the signature check of a request returns false, as it
    does when the [Webhook-Signature] header is missing, [webhooks]
    raises the authentication error: the body is not parsed, no event is
    handed to the dispatcher and no record is changed.  Conversely, an
    event is dispatched, or a record changed, only when the check
    returned true. *)
Theorem webhooks_authentication_gate {P : Platform} (r : Request) (w : World) :
  (req_signature r = None ->
   webhooks (Some r) w = Raised AuthenticationError w) /\
  (forall w1, authenticate_signature r w = Ok false w1 ->
   webhooks (Some r) w = Raised AuthenticationError w1 /\
   same_records w w1 /\
   w_dispatched w1 = w_dispatched w) /\
  (w_dispatched (world_of (webhooks (Some r) w)) <> w_dispatched w ->
   exists w1, authenticate_signature r w = Ok true w1) /\
  (~ same_records w (world_of (webhooks (Some r) w)) ->
   exists w1, authenticate_signature r w = Ok true w1).
Proof.
  assert (Hfalse : forall w1, authenticate_signature r w = Ok false w1 ->
            webhooks (Some r) w = Raised AuthenticationError w1 /\
            same_records w w1 /\ w_dispatched w1 = w_dispatched w).
  { intros w1 H. rewrite webhooks_eq, H. split; [reflexivity|].
    pose proof (authenticate_signature_frame r w) as F.
    rewrite H in F. exact F. }
  assert (Hgate : forall (Q : World -> Prop),
            Q (world_of (authenticate_signature r w)) ->
            ~ Q (world_of (webhooks (Some r) w)) ->
            exists w1, authenticate_signature r w = Ok true w1).
  { intros Q HQ HnQ.
    destruct (authenticate_signature r w) as [[|] w1|e w1] eqn:E.
    - exists w1. reflexivity.
    - destruct HnQ. rewrite webhooks_eq, E. exact HQ.
    - destruct HnQ. rewrite webhooks_eq, E. exact HQ. }
  split; [|split; [exact Hfalse|split]].
  - intros H. apply Hfalse. unfold authenticate_signature. rewrite H.
    reflexivity.
  - intros H.
    apply (Hgate (fun w' => w_dispatched w' = w_dispatched w)); [|exact H].
    apply authenticate_signature_frame.
  - intros H. apply (Hgate (same_records w)); [|exact H].
    apply authenticate_signature_frame.
Qed.

(** A request without the header, and one with a wrong signature, on the
    sample store. *)
Lemma webhooks_authentication_gate_witness :
  webhooks (P := Sample.platform) (Some Sample.empty_request) Sample.world
  = Raised AuthenticationError Sample.world /\
  webhooks (P := Sample.platform)
    (Some {| req_data := list_byte_of_string Sample.text_mixed;
             req_signature := Some "deadbeef" |}) Sample.world
  = Raised AuthenticationError (cached Sample.world).
Proof.
  split.
  - apply (proj1 (webhooks_authentication_gate (P := Sample.platform)
                    Sample.empty_request Sample.world)).
    reflexivity.
  - apply (proj1 (proj2 (webhooks_authentication_gate (P := Sample.platform)
       {| req_data := list_byte_of_string Sample.text_mixed;
          req_signature := Some "deadbeef" |} Sample.world))
       (cached Sample.world)).
    vm_compute. reflexivity.
Defined.

(** C7 (amended).  Without a bound request the handler returns [None]
    at once and changes nothing.  An empty raw body is not such a case:
    the request goes through the signature check and the handler
    raises, the authentication error when the check returns false and
    the decoding error of the empty body when it returns true; no record
    is changed and no event dispatched. *)
Theorem webhooks_no_request_or_empty_body {P : Platform} (w : World) :
  webhooks None w = Ok None w /\
  (forall r e, req_data r = [] -> json_loads [] = inl e ->
   webhooks (Some r) w
   = match authenticate_signature r w with
     | Ok true w1 => Raised e w1
     | Ok false w1 => Raised AuthenticationError w1
     | Raised e' w1 => Raised e' w1
     end /\
   same_records w (world_of (webhooks (Some r) w)) /\
   w_dispatched (world_of (webhooks (Some r) w)) = w_dispatched w).
Proof.
  split; [reflexivity|].
  intros r e Hr He.
  assert (Heq : webhooks (Some r) w
                = match authenticate_signature r w with
                  | Ok true w1 => Raised e w1
                  | Ok false w1 => Raised AuthenticationError w1
                  | Raised e' w1 => Raised e' w1
                  end).
  { rewrite webhooks_eq.
    destruct (authenticate_signature r w) as [[|] w1|e' w1]; try reflexivity.
    unfold bind. rewrite Hr, He. reflexivity. }
  split; [exact Heq|].
  rewrite Heq.
  pose proof (authenticate_signature_frame r w) as F.
  destruct (authenticate_signature r w) as [[|] w1|e' w1]; exact F.
Qed.

(** The empty body with the digest of the empty body as signature. *)
Lemma webhooks_no_request_or_empty_body_witness :
  webhooks (P := Sample.platform) (Some (Sample.signed "")) Sample.world
  = Raised JSONDecodeError (cached Sample.world).
Proof.
  destruct (proj2 (webhooks_no_request_or_empty_body (P := Sample.platform)
                     Sample.world)
              (Sample.signed "") JSONDecodeError) as (H & _).
  - reflexivity.
  - reflexivity.
  - rewrite H. vm_compute. reflexivity.
Defined.

(** C7 (as stated) fails: a request with an empty body and no signature
    is not a silent no-op, the handler raises the authentication
    error. *)
Lemma webhooks_empty_body_raises :
  req_data Sample.empty_request = [] /\
  webhooks (P := Sample.platform) (Some Sample.empty_request) Sample.world
  = Raised AuthenticationError Sample.world.
Proof. split; reflexivity. Qed.

(** ** Mandate handler *)

Lemma set_mandates_set_mandates m1 m2 w :
  set_mandates m2 (set_mandates m1 w) = set_mandates m2 w.
Proof. reflexivity. Qed.

Lemma set_mandates_same w : set_mandates (w_mandates w) w = w.
Proof. destruct w; reflexivity. Qed.

(** Writing one flag on every name of a list of existing mandates. *)
Lemma for_each_set_mandates (names : list string) (d : Z) (w : World) :
  Forall (fun n => is_Some (w_mandates w !! n)) names ->
  exists m',
    for_each (map JStr names) (fun m => db_set_value_mandate m d) w
    = Ok tt (set_mandates m' w) /\
    (forall n, In n names -> m' !! n = Some d) /\
    (forall n, ~ In n names -> m' !! n = w_mandates w !! n).
Proof.
  revert w. induction names as [|n names IH]; intros w Hall.
  - exists (w_mandates w). rewrite set_mandates_same.
    split; [reflexivity|]. split; [intros n []|reflexivity].
  - inversion Hall as [|? ? [d0 Hn] Hrest]; subst.
    cbn [map for_each]. unfold bind, db_set_value_mandate at 1.
    cbn [doc_name]. rewrite Hn.
    destruct (IH (set_mandates (<[n := d]> (w_mandates w)) w))
      as (m' & Hrun & Hin & Hout).
    { eapply Forall_impl; [exact Hrest|].
      intros k Hk. cbn [w_mandates set_mandates].
      apply lookup_insert_is_Some. destruct (decide (n = k)); auto. }
    exists m'. rewrite Hrun, set_mandates_set_mandates.
    split; [reflexivity|]. cbn [w_mandates set_mandates] in Hout.
    split.
    + intros k [<- | Hk]; [|apply Hin; exact Hk].
      destruct (in_dec string_dec n names) as [Hi|Hni]; [apply Hin; exact Hi|].
      rewrite (Hout n Hni). apply lookup_insert_eq.
    + intros k Hk. rewrite Hout by (intros Hi; apply Hk; right; exact Hi).
      apply lookup_insert_ne. intros ->. apply Hk. left. reflexivity.
Qed.

Lemma mandate_disabled_str (a : string) :
  mandate_disabled (JStr a)
  = if decide (a = "pending_customer_approval" \/ a = "pending_submission" \/
               a = "submitted" \/ a = "active")
    then 0 else 1.
Proof.
  unfold mandate_disabled, py_eq_str.
  destruct (String.eqb_spec a "pending_customer_approval") as [->|H1];
    [reflexivity|].
  destruct (String.eqb_spec a "pending_submission") as [->|H2];
    [reflexivity|].
  destruct (String.eqb_spec a "submitted") as [->|H3]; [reflexivity|].
  destruct (String.eqb_spec a "active") as [->|H4]; [reflexivity|].
  cbn [orb]. destruct (decide _) as [[?|[?|[?|?]]]|]; congruence.
Qed.

(** C5.  The flag chosen from a string action is 0 exactly for
    [pending_customer_approval], [pending_submission], [submitted] and
    [active], and 1 for every other string; and the handler writes that
    flag on every mandate the event links to. *)
Theorem mandate_action_mapping_total (a : string) :
  (mandate_disabled (JStr a) = 0 <->
   a = "pending_customer_approval" \/ a = "pending_submission" \/
   a = "submitted" \/ a = "active") /\
  (mandate_disabled (JStr a) = 1 <->
   ~ (a = "pending_customer_approval" \/ a = "pending_submission" \/
      a = "submitted" \/ a = "active")) /\
  (forall (d : list (string * json)) (links : json) (names : list string)
          (w : World),
     dict_lookup "links" d = Some links ->
     event_mandates links = inr (map JStr names) ->
     dict_lookup "action" d = Some (JStr a) ->
     Forall (fun n => is_Some (w_mandates w !! n)) names ->
     exists m',
       set_mandate_status (JDict d) w = Ok tt (set_mandates m' w) /\
       (forall n, In n names -> m' !! n = Some (mandate_disabled (JStr a))) /\
       (forall n, ~ In n names -> m' !! n = w_mandates w !! n)).
Proof.
  rewrite mandate_disabled_str.
  split; [|split].
  - destruct (decide _) as [H|H]; split; intros; try discriminate; tauto.
  - destruct (decide _) as [H|H]; split; intros; try discriminate; tauto.
  - intros d links names w Hl Hm Ha Hall.
    destruct (for_each_set_mandates names (mandate_disabled (JStr a)) w Hall)
      as (m' & Hrun & Hin & Hout).
    exists m'. rewrite <- mandate_disabled_str. split; [|split; assumption].
    unfold set_mandate_status, bind, lift, py_getitem.
    rewrite Hl. cbn [ret]. rewrite Hm. cbn [ret]. rewrite Ha. cbn [ret].
    exact Hrun.
Qed.

(** Scenarios 1 and 2: [active] enables MD001, [failed] disables
    MD002. *)
Lemma mandate_action_mapping_total_witness :
  (exists m',
     set_mandate_status Sample.event_active Sample.world
     = Ok tt (set_mandates m' Sample.world) /\ m' !! "MD001" = Some 0) /\
  (exists m',
     set_mandate_status
       (JDict [("action", JStr "failed");
               ("links", JDict [("mandate", JStr "MD002")])]) Sample.world
     = Ok tt (set_mandates m' Sample.world) /\ m' !! "MD002" = Some 1).
Proof.
  split.
  - destruct (proj2 (proj2 (mandate_action_mapping_total "active"))
                [("resource_type", JStr "mandates"); ("action", JStr "active");
                 ("links", JDict [("mandate", JStr "MD001")])]
                (JDict [("mandate", JStr "MD001")]) ["MD001"] Sample.world)
      as (m' & Hrun & Hin & _).
    + reflexivity.
    + reflexivity.
    + reflexivity.
    + repeat constructor. exists 1. reflexivity.
    + exists m'. split; [exact Hrun|]. apply Hin. left. reflexivity.
  - destruct (proj2 (proj2 (mandate_action_mapping_total "failed"))
                [("action", JStr "failed");
                 ("links", JDict [("mandate", JStr "MD002")])]
                (JDict [("mandate", JStr "MD002")]) ["MD002"] Sample.world)
      as (m' & Hrun & Hin & _).
    + reflexivity.
    + reflexivity.
    + reflexivity.
    + repeat constructor. exists 0. reflexivity.
    + exists m'. split; [exact Hrun|]. apply Hin. left. reflexivity.
Defined.

(** ** Payout handler *)

(** The rows carry the values the source writes: the amount as debit of
    the deposit account, the fees as credit of the fees account, their
    sum as credit of the payment account. *)
Lemma payout_journal_lines_values
    (deposit_account fees_account payment_account : option string)
    (amount deducted_fees : float) :
  map (fun l => (jl_account l, debit l, credit l))
      (payout_journal_lines deposit_account fees_account payment_account
         amount deducted_fees)
  = [ (deposit_account, amount, 0%float);
      (fees_account, 0%float, deducted_fees);
      (payment_account, 0%float, (amount + deducted_fees)%float) ].
Proof. reflexivity. Qed.

(** C1, at the payout of scenario 4 (amount 10000, fees 250 in minor
    units).  The three rows are as the claim lists them (debit 100.0,
    credit 2.5, credit 102.5), and the entry the handler posts is not
    balanced: the debits sum to 100.0, the credits to 105.0, and
    neither total is 102.5. *)
Theorem payout_journal_unbalanced :
  major_units 10000 = inr 100%float /\
  major_units 250 = inr 2.5%float /\
  exists je,
    w_journal_entries
      (world_of (create_payout_journal (P := Sample.platform)
                   Sample.payout_event Sample.world))
    = [submitted je] /\
    map (fun l => (jl_account l, debit l, credit l)) (accounts je)
    = [ (Some "Bank Current", 100%float, 0%float);
        (Some "Bank Charges", 0%float, 2.5%float);
        (Some "GoCardless Clearing", 0%float, 102.5%float) ] /\
    total_debit je = 100%float /\
    total_credit je = 105%float /\
    PrimFloat.eqb (total_debit je) (total_credit je) = false /\
    PrimFloat.eqb (total_debit je) 102.5%float = false.
Proof.
  split; [vm_compute; reflexivity|]. split; [vm_compute; reflexivity|].
  exists (payout_journal_entry Sample.payout "2024-05-01"
            (Some "Bank Current") (Some "Bank Charges")
            (Some "GoCardless Clearing") 100%float 2.5%float).
  repeat split; vm_compute; reflexivity.
Qed.

(** C9.  The payout handler never raises: when the body of its [try]
    block raises, at whatever step, the exception is logged and the
    handler returns. *)
Theorem create_payout_journal_never_raises {P : Platform}
    (event : json) (w : World) :
  create_payout_journal event w
  = match payout_journal_body event w with
    | Ok _ w1 => Ok tt w1
    | Raised e w1 =>
        Ok tt (set_error_log
                 (w_error_log w1
                  ++ [("GoCardless Payout Journal Creation Error", exn_str e)])
                 w1)
    end /\
  exists w', create_payout_journal event w = Ok tt w'.
Proof.
  unfold create_payout_journal, try_except.
  destruct (payout_journal_body event w) as [[] w1|e w1].
  - split; [reflexivity|]. exists w1. reflexivity.
  - split; [reflexivity|]. eexists. reflexivity.
Qed.

(** A payout event without [links], and one for a payout the API does
    not know: the failure ends in the log, the handler returns. *)
Example create_payout_journal_failures :
  create_payout_journal (P := Sample.platform)
    (JDict [("resource_type", JStr "payouts")]) Sample.world
  = Ok tt (set_error_log
             [("GoCardless Payout Journal Creation Error", "AttributeError")]
             Sample.world) /\
  create_payout_journal (P := Sample.platform)
    (JDict [("links", JDict [("payout", JStr "PO9999")])]) Sample.world
  = Ok tt (set_error_log
             [("GoCardless Payout Journal Creation Error",
               "InvalidApiUsageError")]
             Sample.world).
Proof. split; vm_compute; reflexivity. Qed.

(** ** What the handlers leave alone *)

Section Frame.
Context {A : Type} (f : World -> A).

Lemma preserves_ret {B} (b : B) : preserves f (ret b).
Proof. intros w. reflexivity. Qed.

Lemma preserves_raise {B} (e : exn) : preserves f (raise (A := B) e).
Proof. intros w. reflexivity. Qed.

Lemma preserves_lift {B} (r : exn + B) : preserves f (lift r).
Proof. destruct r; intros w; reflexivity. Qed.

Lemma preserves_gets {B} (g : World -> B) : preserves f (gets g).
Proof. intros w. reflexivity. Qed.

Lemma preserves_modify (g : World -> World) :
  (forall w, f (g w) = f w) -> preserves f (modify g).
Proof. intros H w. apply H. Qed.

Lemma preserves_bind {B C} (c : M B) (k : B -> M C) :
  preserves f c -> (forall b, preserves f (k b)) -> preserves f (bind c k).
Proof.
  intros Hc Hk w. unfold bind. specialize (Hc w).
  destruct (c w) as [b w1|e w1]; cbn [world_of] in *.
  - rewrite Hk. exact Hc.
  - exact Hc.
Qed.

Lemma preserves_try_except {B} (c : M B) (h : exn -> M B) :
  preserves f c -> (forall e, preserves f (h e)) ->
  preserves f (try_except c h).
Proof.
  intros Hc Hh w. unfold try_except. specialize (Hc w).
  destruct (c w) as [b w1|e w1]; cbn [world_of] in *.
  - exact Hc.
  - rewrite Hh. exact Hc.
Qed.

Lemma preserves_when (b : bool) (c : M unit) :
  preserves f c -> preserves f (when b c).
Proof. intros Hc. destruct b; [exact Hc|apply preserves_ret]. Qed.

Lemma preserves_for_each {B} (l : list B) (g : B -> M unit) :
  (forall x, preserves f (g x)) -> preserves f (for_each l g).
Proof.
  intros Hg. induction l as [|x l IH]; cbn [for_each].
  - apply preserves_ret.
  - apply preserves_bind; [apply Hg|intros _; exact IH].
Qed.

End Frame.

Create HintDb frame.
#[local] Hint Resolve preserves_ret preserves_raise preserves_lift
  preserves_gets preserves_bind preserves_try_except preserves_when
  preserves_for_each : frame.

Section Dispatch.
Context {P : Platform}.

Lemma db_set_value_mandate_dispatched m d :
  preserves w_dispatched (db_set_value_mandate m d).
Proof.
  intros w. unfold db_set_value_mandate.
  destruct (doc_name m) as [n|]; [|reflexivity].
  destruct (w_mandates w !! n); reflexivity.
Qed.

Lemma get_doc_payment_request_dispatched name :
  preserves w_dispatched (get_doc_payment_request name).
Proof.
  intros w. unfold get_doc_payment_request.
  destruct (doc_name name) as [n|]; [|reflexivity].
  destruct (w_payment_requests w !! n); reflexivity.
Qed.

Lemma update_payment_request_dispatched n g :
  preserves w_dispatched (update_payment_request n g).
Proof. intros w. reflexivity. Qed.

Lemma transition_dispatched g n : preserves w_dispatched (transition g n).
Proof.
  intros w. unfold transition.
  destruct (w_payment_requests w !! n) as [d|]; [|reflexivity].
  destruct (g d); reflexivity.
Qed.

Lemma db_set_failed_reason_dispatched n v :
  preserves w_dispatched (db_set_failed_reason n v).
Proof.
  intros w. unfold db_set_failed_reason.
  destruct (w_has_failed_reason w); reflexivity.
Qed.

Lemma log_error_dispatched a b : preserves w_dispatched (log_error a b).
Proof. intros w. reflexivity. Qed.

Lemma get_last_doc_settings_dispatched :
  preserves w_dispatched get_last_doc_settings.
Proof.
  intros w. unfold get_last_doc_settings. destruct (find _ _); reflexivity.
Qed.

Lemma get_last_doc_bank_account_dispatched ending :
  preserves w_dispatched (get_last_doc_bank_account ending).
Proof.
  intros w. unfold get_last_doc_bank_account. destruct (find _ _); reflexivity.
Qed.

Lemma journal_insert_dispatched je : preserves w_dispatched (journal_insert je).
Proof.
  unfold journal_insert. destruct (ledger_validate je); intros w; reflexivity.
Qed.

Lemma journal_submit_dispatched je : preserves w_dispatched (journal_submit je).
Proof.
  unfold journal_submit. destruct (ledger_validate je); intros w; reflexivity.
Qed.

Lemma pass_key_error_dispatched e : preserves w_dispatched (pass_key_error e).
Proof. destruct e; intros w; reflexivity. Qed.

#[local] Hint Resolve db_set_value_mandate_dispatched
  get_doc_payment_request_dispatched update_payment_request_dispatched
  transition_dispatched db_set_failed_reason_dispatched log_error_dispatched
  get_last_doc_settings_dispatched get_last_doc_bank_account_dispatched
  journal_insert_dispatched journal_submit_dispatched
  pass_key_error_dispatched : frame.

Lemma set_mandate_status_dispatched event :
  preserves w_dispatched (set_mandate_status event).
Proof. unfold set_mandate_status. auto 10 with frame. Qed.

Lemma apply_action_dispatched event action n status :
  preserves w_dispatched (apply_action event action n status).
Proof.
  unfold apply_action, db_set_status. auto 20 with frame.
Qed.

Lemma set_payment_request_status_dispatched event :
  preserves w_dispatched (set_payment_request_status event).
Proof.
  unfold set_payment_request_status.
  repeat (apply preserves_bind; [solve [auto with frame]|intros ?]).
  destruct (negb (truthy _)); [auto with frame|].
  apply preserves_bind; [auto with frame|intros [n d]].
  apply preserves_bind;
    [unfold add_comment; auto with frame|intros _].
  apply apply_action_dispatched.
Qed.

Lemma create_payout_journal_dispatched event :
  preserves w_dispatched (create_payout_journal event).
Proof.
  unfold create_payout_journal, payout_journal_body.
  apply preserves_try_except; [|auto with frame].
  repeat (apply preserves_bind; [solve [auto with frame]|intros ?]).
  auto with frame.
Qed.

(** [set_status] records the event and leaves the rest of the history
    alone, whether it returns or raises. *)
Lemma set_status_dispatched event w :
  w_dispatched (world_of (set_status event w)) = w_dispatched w ++ [event].
Proof.
  unfold set_status. unfold bind at 1. unfold modify at 1.
  match goal with
  | |- w_dispatched (world_of (?c ?w')) = _ =>
      assert (H : preserves w_dispatched c); [|rewrite (H w'); reflexivity]
  end.
  repeat (apply preserves_bind; [solve [auto with frame]|intros ?]).
  apply preserves_bind.
  { apply preserves_when. apply set_mandate_status_dispatched. }
  intros _. apply preserves_bind.
  { apply preserves_when. apply set_payment_request_status_dispatched. }
  intros _. apply preserves_when.
  apply preserves_bind; [auto with frame|intros ?].
  apply preserves_when. apply create_payout_journal_dispatched.
Qed.

(** The loop over a batch stops at the first event whose handling
    raises; the history tells how far it came. *)
Lemma for_each_set_status_ok items w w2 :
  for_each items set_status w = Ok tt w2 ->
  w_dispatched w2 = w_dispatched w ++ items.
Proof.
  revert w. induction items as [|event items IH]; intros w; cbn [for_each].
  - intros [= <-]. rewrite app_nil_r. reflexivity.
  - unfold bind. pose proof (set_status_dispatched event w) as Hd.
    destruct (set_status event w) as [[] w1|e w1]; [|discriminate].
    intros H. rewrite (IH _ H). cbn [world_of] in Hd. rewrite Hd.
    rewrite <- app_assoc. reflexivity.
Qed.

Lemma for_each_app {B} (l1 l2 : list B) (g : B -> M unit) w :
  for_each (l1 ++ l2) g w
  = match for_each l1 g w with
    | Ok _ w1 => for_each l2 g w1
    | Raised e w1 => Raised e w1
    end.
Proof.
  revert w. induction l1 as [|x l1 IH]; intros w; [reflexivity|].
  cbn [app for_each]. unfold bind.
  destruct (g x w) as [[] w1|e w1]; [apply IH|reflexivity].
Qed.

Lemma py_getitem_truthy v k x : py_getitem v k = inr x -> truthy v = true.
Proof.
  destruct v as [| | | | |l|d]; try discriminate.
  destruct d; [discriminate|reflexivity].
Qed.

(** Past the signature check and the parsing, the outcome of [webhooks]
    is that of the loop over the batch. *)
Lemma webhooks_run r w w1 loaded events items :
  authenticate_signature r w = Ok true w1 ->
  json_loads (req_data r) = inr loaded ->
  py_getitem loaded "events" = inr events ->
  py_iter events = inr items ->
  webhooks (Some r) w
  = match for_each items set_status w1 with
    | Ok _ w2 =>
        Ok (Some 200)
           (set_error_log
              (w_error_log w2 ++ [("GoCardless Webhook", py_str loaded)]) w2)
    | Raised e w2 => Raised e w2
    end.
Proof.
  intros Ha Hl He Hi. rewrite webhooks_eq, Ha.
  unfold bind at 1. rewrite Hl. cbn [lift ret].
  rewrite (py_getitem_truthy _ _ _ He).
  unfold bind at 1. rewrite He. cbn [lift ret].
  unfold bind at 1. rewrite Hi. cbn [lift ret].
  unfold bind at 1.
  destruct (for_each items set_status w1) as [[] w2|e w2]; reflexivity.
Qed.

End Dispatch.

Section Batch.
Context {P : Platform}.

Lemma for_each_set_status_raised items w e w2 :
  for_each items set_status w = Raised e w2 ->
  exists pre event post,
    items = pre ++ event :: post /\
    w_dispatched w2 = w_dispatched w ++ pre ++ [event].
Proof.
  revert w. induction items as [|x items IH]; intros w; cbn [for_each].
  - discriminate.
  - unfold bind. pose proof (set_status_dispatched x w) as Hd.
    destruct (set_status x w) as [[] w1|e1 w1]; cbn [world_of] in Hd.
    + intros H. destruct (IH _ H) as (pre & event & post & -> & Hw).
      exists (x :: pre), event, post. split; [reflexivity|].
      rewrite Hw, Hd, <- app_assoc. reflexivity.
    + intros [= <- <-]. exists [], x, items. split; [reflexivity|exact Hd].
Qed.

Lemma collect_mandates_lacking l :
  forallb is_dict l = true ->
  existsb (fun x => negb (has_key "mandate" x)) l = true ->
  collect_mandates l = inl (KeyError "mandate").
Proof.
  induction l as [|x l IH]; [discriminate|].
  cbn [forallb existsb collect_mandates].
  intros [Hx Hl]%andb_prop He.
  destruct x as [| | | | | |d]; try discriminate.
  cbn [has_key py_getitem] in *.
  destruct (dict_lookup "mandate" d) as [m|]; [|reflexivity].
  cbn [negb orb] in He. rewrite (IH Hl He). reflexivity.
Qed.

Lemma set_mandate_status_lacking d :
  lacks_mandate d = true ->
  exists k, forall w, set_mandate_status (JDict d) w = Raised (KeyError k) w.
Proof.
  unfold lacks_mandate, set_mandate_status, bind, py_getitem.
  destruct (dict_lookup "links" d) as [links|].
  - intros H. exists "mandate". intros w. cbn [lift ret].
    destruct links as [| | | | |l|ld]; try discriminate.
    + apply andb_prop in H as [Hd He]. unfold event_mandates.
      rewrite (collect_mandates_lacking l Hd He). reflexivity.
    + cbn [event_mandates has_key py_getitem] in *.
      destruct (dict_lookup "mandate" ld); [discriminate|reflexivity].
  - intros _. exists "links". intros w. reflexivity.
Qed.

Lemma set_status_lacking d k w :
  (forall w, set_mandate_status (JDict d) w = Raised (KeyError k) w) ->
  dict_lookup "resource_type" d = Some (JStr "mandates") ->
  optional_mapping "resource_metadata" d = true ->
  set_status (JDict d) w
  = Raised (KeyError k) (set_dispatched (w_dispatched w ++ [JDict d]) w).
Proof.
  intros Hk Ht Hm. unfold set_status, bind, modify, py_get at 1 2.
  rewrite Ht. cbn [lift ret]. unfold optional_mapping in Hm.
  change (py_eq_str (JStr "mandates") "mandates") with true.
  destruct (dict_lookup "resource_metadata" d) as [md|].
  - destruct md as [| | | | | |mdd]; try discriminate.
    cbn [py_get lift ret when]. rewrite Hk. reflexivity.
  - cbn [py_get lift ret when]. rewrite Hk. reflexivity.
Qed.

End Batch.

(** C6 (amended).  For a request that passes the signature check and
    whose body parses to a mapping with an iterable [events]: when the
    handling of every event returns, all events have been dispatched in
    order, the batch is written to the log and 200 is returned; when the
    handling of an event raises, the exception leaves [webhooks], the
    events behind it are not dispatched, the batch is not logged and 200
    is not returned. *)
Theorem webhooks_success_iff_dispatch_returns {P : Platform}
    (r : Request) (w w1 : World) (loaded events : json) (items : list json) :
  authenticate_signature r w = Ok true w1 ->
  json_loads (req_data r) = inr loaded ->
  py_getitem loaded "events" = inr events ->
  py_iter events = inr items ->
  (forall w2, for_each items set_status w1 = Ok tt w2 ->
   webhooks (Some r) w
   = Ok (Some 200)
        (set_error_log
           (w_error_log w2 ++ [("GoCardless Webhook", py_str loaded)]) w2) /\
   w_dispatched w2 = w_dispatched w ++ items) /\
  (forall e w2, for_each items set_status w1 = Raised e w2 ->
   webhooks (Some r) w = Raised e w2 /\
   exists pre event post,
     items = pre ++ event :: post /\
     w_dispatched w2 = w_dispatched w ++ pre ++ [event]).
Proof.
  intros Ha Hl He Hi.
  pose proof (webhooks_run r w w1 loaded events items Ha Hl He Hi) as Hrun.
  pose proof (proj2 (authenticate_signature_frame r w)) as Hd.
  rewrite Ha in Hd. cbn [world_of] in Hd.
  split.
  - intros w2 H. rewrite H in Hrun. split; [exact Hrun|].
    rewrite (for_each_set_status_ok _ _ _ H), Hd. reflexivity.
  - intros e w2 H. rewrite H in Hrun. split; [exact Hrun|].
    destruct (for_each_set_status_raised _ _ _ _ H)
      as (pre & event & post & Hitems & Hw).
    exists pre, event, post. split; [exact Hitems|].
    rewrite Hw, Hd. reflexivity.
Qed.

(** Scenario 6: an event of an unknown kind and a valid mandate event;
    both are dispatched, MD001 is enabled and 200 is returned. *)
Lemma webhooks_success_iff_dispatch_returns_witness :
  exists w2,
    webhooks (P := Sample.platform) (Some (Sample.signed Sample.text_mixed))
      Sample.world
    = Ok (Some 200)
         (set_error_log
            (w_error_log w2
             ++ [("GoCardless Webhook", Sample.repr Sample.batch_mixed)]) w2) /\
    w_dispatched w2 = [Sample.event_unknown; Sample.event_active] /\
    w_mandates w2 !! "MD001" = Some 0.
Proof.
  set (w1 := cached Sample.world).
  set (w2 := set_dispatched [Sample.event_unknown; Sample.event_active]
               (set_mandates (<["MD001" := 0]> (w_mandates w1)) w1)).
  exists w2.
  destruct (webhooks_success_iff_dispatch_returns (P := Sample.platform)
              (Sample.signed Sample.text_mixed) Sample.world w1
              Sample.batch_mixed
              (JList [Sample.event_unknown; Sample.event_active])
              [Sample.event_unknown; Sample.event_active]) as (Hok & _).
  - vm_compute. reflexivity.
  - vm_compute. reflexivity.
  - reflexivity.
  - reflexivity.
  - destruct (Hok w2) as (Hrun & Hd).
    + vm_compute. reflexivity.
    + split; [exact Hrun|]. split; [exact Hd|]. vm_compute. reflexivity.
Defined.

(** C6 (as stated) fails: an authenticated request whose body parses
    with an [events] field, holding a mandate event without [links];
    [webhooks] raises [KeyError], nothing is logged and 200 is not
    returned. *)
Lemma webhooks_mandate_without_links_raises :
  authenticate_signature (Sample.signed Sample.text_no_links) Sample.world
  = Ok true (cached Sample.world) /\
  json_loads (Platform := Sample.platform)
    (req_data (Sample.signed Sample.text_no_links))
  = inr Sample.batch_no_links /\
  py_getitem Sample.batch_no_links "events"
  = inr (JList [Sample.event_no_links]) /\
  webhooks (P := Sample.platform) (Some (Sample.signed Sample.text_no_links))
    Sample.world
  = Raised (KeyError "links")
      (set_dispatched [Sample.event_no_links] (cached Sample.world)) /\
  w_error_log (set_dispatched [Sample.event_no_links] (cached Sample.world))
  = [].
Proof. repeat split; vm_compute; reflexivity. Qed.

(** C10.  A mandate event whose [links] is absent, or is a mapping
    without [mandate], or is a sequence of mappings one of which is
    without [mandate], makes the mandate handler raise [KeyError] before
    it writes anything.  In a batch the exception leaves the dispatch
    loop and [webhooks]: the events behind it are not dispatched, the
    batch is not logged and 200 is not returned. *)
Theorem mandate_without_link_aborts_batch {P : Platform}
    (d : list (string * json)) :
  lacks_mandate d = true ->
  exists k,
    (forall w, set_mandate_status (JDict d) w = Raised (KeyError k) w) /\
    (dict_lookup "resource_type" d = Some (JStr "mandates") ->
     optional_mapping "resource_metadata" d = true ->
     forall (pre post : list json) (w1 w2 : World),
       for_each pre set_status w1 = Ok tt w2 ->
       for_each (pre ++ JDict d :: post) set_status w1
       = Raised (KeyError k)
           (set_dispatched (w_dispatched w1 ++ pre ++ [JDict d]) w2) /\
       forall (r : Request) (w : World) (loaded events : json),
         authenticate_signature r w = Ok true w1 ->
         json_loads (req_data r) = inr loaded ->
         py_getitem loaded "events" = inr events ->
         py_iter events = inr (pre ++ JDict d :: post) ->
         webhooks (Some r) w
         = Raised (KeyError k)
             (set_dispatched (w_dispatched w ++ pre ++ [JDict d]) w2)).
Proof.
  intros Hl. destruct (set_mandate_status_lacking d Hl) as (k & Hk).
  exists k. split; [exact Hk|].
  intros Ht Hm pre post w1 w2 Hpre.
  assert (Hloop : for_each (pre ++ JDict d :: post) set_status w1
                  = Raised (KeyError k)
                      (set_dispatched (w_dispatched w1 ++ pre ++ [JDict d]) w2)).
  { rewrite for_each_app, Hpre. cbn [for_each]. unfold bind.
    rewrite (set_status_lacking d k w2 Hk Ht Hm).
    rewrite (for_each_set_status_ok _ _ _ Hpre), <- app_assoc. reflexivity. }
  split; [exact Hloop|].
  intros r w loaded events Ha Hj He Hi.
  rewrite (webhooks_run r w w1 loaded events _ Ha Hj He Hi), Hloop.
  pose proof (proj2 (authenticate_signature_frame r w)) as Hd.
  rewrite Ha in Hd. cbn [world_of] in Hd. rewrite Hd. reflexivity.
Qed.

(** A batch whose first event is a mandate event without [links] and
    whose second is valid: the second is not dispatched, MD001 keeps its
    flag. *)
Lemma mandate_without_link_aborts_batch_witness :
  exists k,
    webhooks (P := Sample.platform)
      (Some (Sample.signed Sample.text_no_links_then_active)) Sample.world
    = Raised (KeyError k)
        (set_dispatched [Sample.event_no_links] (cached Sample.world)).
Proof.
  destruct (mandate_without_link_aborts_batch (P := Sample.platform)
              [("resource_type", JStr "mandates"); ("action", JStr "active")])
    as (k & _ & H).
  - reflexivity.
  - exists k.
    destruct (H eq_refl eq_refl [] [Sample.event_active]
                (cached Sample.world) (cached Sample.world) eq_refl)
      as (_ & Hw).
    apply (Hw (Sample.signed Sample.text_no_links_then_active) Sample.world
              Sample.batch_no_links_then_active
              (JList [Sample.event_no_links; Sample.event_active])).
    + vm_compute. reflexivity.
    + vm_compute. reflexivity.
    + reflexivity.
    + reflexivity.
Defined.

(** ** Payment request handler *)

Section Payment.
Context {P : Platform}.

Lemma bind_Ok_inv {A B} (c : M A) (k : A -> M B) w b w' :
  bind c k w = Ok b w' -> exists a w1, c w = Ok a w1 /\ k a w1 = Ok b w'.
Proof.
  unfold bind. destruct (c w) as [a w1|e w1]; [|discriminate].
  intros H. exists a, w1. split; [reflexivity|exact H].
Qed.

Lemma lift_Ok_inv {A} (r : exn + A) w a w' :
  lift r w = Ok a w' -> r = inr a /\ w' = w.
Proof.
  destruct r as [e|a0]; [discriminate|]. intros [= <- <-].
  split; reflexivity.
Qed.

Lemma build_comment_nonempty a desc pid text :
  a <> "" -> build_comment (JStr a) desc pid = inr text -> text <> "".
Proof.
  intros Ha. unfold build_comment, truthy at 1, py_capitalize.
  destruct (String.eqb_spec a ""); [contradiction|]. cbn [negb].
  unfold comment_action.
  destruct (truthy desc), (truthy pid); intros [= <-]; discriminate.
Qed.

Lemma apply_action_confirmed event n status w :
  apply_action event (JStr "confirmed") n status w
  = if String.eqb status "Paid" then Ok tt w
    else transition set_as_paid n w.
Proof.
  unfold apply_action.
  change (py_eq_str (JStr "confirmed") "submitted") with false.
  change (py_eq_str (JStr "confirmed") "confirmed") with true.
  change (py_eq_str (JStr "confirmed") "cancelled") with false.
  change (py_eq_str (JStr "confirmed") "failed") with false.
  cbn [andb when]. unfold bind, ret.
  destruct (String.eqb status "Paid"); cbn [negb when ret].
  - reflexivity.
  - destruct (transition set_as_paid n w) as [[] w1|e w1]; reflexivity.
Qed.

Lemma add_comment_lookup n c w d :
  w_payment_requests w !! n = Some d ->
  exists w1,
    add_comment n c w = Ok tt w1 /\
    w_payment_requests w1 !! n
    = Some {| pr_status := pr_status d;
              pr_failed_reason := pr_failed_reason d;
              pr_comments := pr_comments d ++ [c] |}.
Proof.
  intros Hd. eexists. split; [reflexivity|].
  cbn [w_payment_requests set_payment_requests].
  rewrite lookup_alter_eq, Hd. reflexivity.
Qed.

End Payment.

Section PaymentRuns.
Context {P : Platform}.

(** The handler on an event whose fields are known: once the comment is
    built and the target named, what is left is the comment and the
    transition. *)
Lemma set_payment_request_status_run
    (event action details desc links pid md : json) (text n : string) :
  py_get event "action" JNull = inr action ->
  py_get event "details" (JDict []) = inr details ->
  py_get details "description" JNull = inr desc ->
  py_get event "links" (JDict []) = inr links ->
  py_get links "payment" JNull = inr pid ->
  build_comment action desc pid = inr text ->
  py_get event "resource_metadata" (JDict []) = inr md ->
  py_get md "reference_document" JNull = inr (JStr n) ->
  n <> "" -> text <> "" ->
  forall w,
    set_payment_request_status event w
    = match w_payment_requests w !! n with
      | Some d =>
          (add_comment n (info_comment text) ;;
           apply_action event action n (pr_status d)) w
      | None => Raised DoesNotExistError w
      end.
Proof.
  intros H1 H2 H3 H4 H5 H6 H7 H8 Hn Ht w.
  unfold set_payment_request_status.
  unfold bind at 1. rewrite H1. cbn [lift ret].
  unfold bind at 1. rewrite H2. cbn [lift ret].
  unfold bind at 1. rewrite H3. cbn [lift ret].
  unfold bind at 1. rewrite H4. cbn [lift ret].
  unfold bind at 1. rewrite H5. cbn [lift ret].
  unfold bind at 1. rewrite H6. cbn [lift ret].
  unfold bind at 1. rewrite H7. cbn [lift ret].
  unfold bind at 1. rewrite H8. cbn [lift ret].
  cbn [truthy]. destruct (String.eqb_spec n ""); [contradiction|].
  cbn [negb]. unfold bind at 1, get_doc_payment_request. cbn [doc_name].
  destruct (w_payment_requests w !! n) as [d|]; [|reflexivity].
  destruct (String.eqb_spec text ""); [contradiction|]. reflexivity.
Qed.

(** A run that returns has read every field it needs. *)
Lemma set_payment_request_status_Ok_inv (event : json) (w w1 : World) :
  set_payment_request_status event w = Ok tt w1 ->
  exists action details desc links pid text md ref,
    py_get event "action" JNull = inr action /\
    py_get event "details" (JDict []) = inr details /\
    py_get details "description" JNull = inr desc /\
    py_get event "links" (JDict []) = inr links /\
    py_get links "payment" JNull = inr pid /\
    build_comment action desc pid = inr text /\
    py_get event "resource_metadata" (JDict []) = inr md /\
    py_get md "reference_document" JNull = inr ref.
Proof.
  unfold set_payment_request_status. intros H.
  apply bind_Ok_inv in H as (action & w' & [H1 ->]%lift_Ok_inv & H).
  apply bind_Ok_inv in H as (details & w' & [H2 ->]%lift_Ok_inv & H).
  apply bind_Ok_inv in H as (desc & w' & [H3 ->]%lift_Ok_inv & H).
  apply bind_Ok_inv in H as (links & w' & [H4 ->]%lift_Ok_inv & H).
  apply bind_Ok_inv in H as (pid & w' & [H5 ->]%lift_Ok_inv & H).
  apply bind_Ok_inv in H as (text & w' & [H6 ->]%lift_Ok_inv & H).
  apply bind_Ok_inv in H as (md & w' & [H7 ->]%lift_Ok_inv & H).
  apply bind_Ok_inv in H as (ref & w' & [H8 ->]%lift_Ok_inv & H).
  exists action, details, desc, links, pid, text, md, ref.
  repeat split; assumption.
Qed.

End PaymentRuns.

(** C4 (amended).  After a first application of a [confirmed] event that
    returned, the status of the payment request is Paid (the mark-paid
    transition leaving it so); a second application of the same event
    runs no second mark-paid transition and writes no status, but it is
    not without effect: it appends the informational comment once
    more, and that is all it does. *)
Theorem confirmed_twice_repeats_only_the_comment {P : Platform}
    (event md : json) (n : string) (w w1 : World) :
  py_get event "action" JNull = inr (JStr "confirmed") ->
  py_get event "resource_metadata" (JDict []) = inr md ->
  py_get md "reference_document" JNull = inr (JStr n) ->
  n <> "" ->
  (forall d d', set_as_paid d = inr d' -> pr_status d' = "Paid") ->
  set_payment_request_status event w = Ok tt w1 ->
  exists d1 text,
    w_payment_requests w1 !! n = Some d1 /\
    pr_status d1 = "Paid" /\
    text <> "" /\
    set_payment_request_status event w1
    = add_comment n (info_comment text) w1 /\
    w_payment_requests (world_of (set_payment_request_status event w1)) !! n
    = Some {| pr_status := "Paid";
              pr_failed_reason := pr_failed_reason d1;
              pr_comments := pr_comments d1 ++ [info_comment text] |}.
Proof.
  intros Ha Hm Hr Hn Hpaid Hrun.
  destruct (set_payment_request_status_Ok_inv event w w1 Hrun)
    as (action & details & desc & links & pid & text & md' & ref
        & H1 & H2 & H3 & H4 & H5 & H6 & H7 & H8).
  rewrite Ha in H1. injection H1 as <-.
  rewrite Hm in H7. injection H7 as <-.
  rewrite Hr in H8. injection H8 as <-.
  assert (Ht : text <> "").
  { apply (build_comment_nonempty "confirmed" desc pid); [discriminate|exact H6]. }
  pose proof (set_payment_request_status_run event _ _ _ _ _ _ text n
                Ha H2 H3 H4 H5 H6 Hm Hr Hn Ht) as Heq.
  (* the first application *)
  assert (Hd1 : exists d1, w_payment_requests w1 !! n = Some d1 /\
                           pr_status d1 = "Paid").
  { rewrite Heq in Hrun.
    destruct (w_payment_requests w !! n) as [d|] eqn:Hd; [|discriminate].
    unfold bind at 1 in Hrun.
    destruct (add_comment_lookup n (info_comment text) w d Hd)
      as (wc & Hc & Hdc).
    rewrite Hc, apply_action_confirmed in Hrun.
    destruct (String.eqb_spec (pr_status d) "Paid") as [Hs|Hs].
    - injection Hrun as <-. eexists. split; [exact Hdc|exact Hs].
    - unfold transition in Hrun. rewrite Hdc in Hrun.
      destruct (set_as_paid _) as [e|d'] eqn:Hp; [discriminate|].
      injection Hrun as <-. exists d'.
      cbn [w_payment_requests set_payment_requests].
      split; [apply lookup_insert_eq|apply (Hpaid _ _ Hp)]. }
  destruct Hd1 as (d1 & Hd1 & Hs1).
  exists d1, text. split; [exact Hd1|]. split; [exact Hs1|].
  split; [exact Ht|].
  (* the second application *)
  assert (H2nd : set_payment_request_status event w1
                 = add_comment n (info_comment text) w1).
  { rewrite Heq, Hd1. unfold bind at 1.
    destruct (add_comment_lookup n (info_comment text) w1 d1 Hd1)
      as (wc & Hc & _).
    rewrite Hc, apply_action_confirmed, Hs1. reflexivity. }
  split; [exact H2nd|].
  rewrite H2nd.
  destruct (add_comment_lookup n (info_comment text) w1 d1 Hd1)
    as (wc & Hc & Hdc).
  rewrite Hc. cbn [world_of]. rewrite Hdc, Hs1. reflexivity.
Qed.

(** Scenario 3 and its repetition, on the sample store: PR001 goes from
    Initiated to Paid with one comment, and the second application adds
    a second comment. *)
Lemma confirmed_twice_repeats_only_the_comment_witness :
  exists d1 text,
    w_payment_requests Sample.world_paid !! "PR001" = Some d1 /\
    pr_status d1 = "Paid" /\
    text <> "" /\
    set_payment_request_status (P := Sample.platform)
      (Sample.payment_event "confirmed") Sample.world_paid
    = add_comment "PR001" (info_comment text) Sample.world_paid /\
    w_payment_requests
      (world_of (set_payment_request_status (P := Sample.platform)
                   (Sample.payment_event "confirmed") Sample.world_paid))
      !! "PR001"
    = Some {| pr_status := "Paid";
              pr_failed_reason := pr_failed_reason d1;
              pr_comments := pr_comments d1 ++ [info_comment text] |}.
Proof.
  apply (confirmed_twice_repeats_only_the_comment (P := Sample.platform)
           (Sample.payment_event "confirmed")
           (JDict [("reference_doctype", JStr "Payment Request");
                   ("reference_document", JStr "PR001")])
           "PR001" Sample.world Sample.world_paid).
  - reflexivity.
  - reflexivity.
  - reflexivity.
  - discriminate.
  - intros d d' [= <-]. reflexivity.
  - vm_compute. reflexivity.
Defined.

(** C4 (as stated) fails: the second application of the [confirmed]
    event of scenario 3 is not a no-op, it leaves a second copy of the
    comment on the payment request. *)
Lemma confirmed_twice_duplicates_comment :
  set_payment_request_status (P := Sample.platform)
    (Sample.payment_event "confirmed") Sample.world
  = Ok tt Sample.world_paid /\
  set_payment_request_status (P := Sample.platform)
    (Sample.payment_event "confirmed") Sample.world_paid
  = Ok tt Sample.world_paid_twice /\
  w_payment_requests Sample.world_paid_twice
  <> w_payment_requests Sample.world_paid /\
  (pr_comments <$> w_payment_requests Sample.world_paid_twice !! "PR001")
  = Some [Sample.paid_comment; Sample.paid_comment].
Proof.
  split; [vm_compute; reflexivity|]. split; [vm_compute; reflexivity|].
  split; [|vm_compute; reflexivity].
  intros H. apply (f_equal (fun m => pr_comments <$> m !! "PR001")) in H.
  vm_compute in H. discriminate.
Qed.

Section FailedEvent.
Context {P : Platform}.

Lemma py_get_optional_mapping k d :
  optional_mapping k d = true ->
  exists dd, py_get (JDict d) k (JDict []) = inr (JDict dd).
Proof.
  unfold optional_mapping, py_get.
  destruct (dict_lookup k d) as [v|].
  - destruct v; try discriminate. intros _. eexists. reflexivity.
  - intros _. eexists. reflexivity.
Qed.

Lemma py_get_dict dd k default :
  exists x, py_get (JDict dd) k default = inr x.
Proof. eexists. reflexivity. Qed.

Lemma build_comment_str a desc pid :
  exists text, build_comment (JStr a) desc pid = inr text.
Proof.
  unfold build_comment, py_capitalize.
  destruct (truthy (JStr a)); eexists; reflexivity.
Qed.

Lemma apply_action_failed event n status w :
  apply_action event (JStr "failed") n status w
  = if String.eqb status "Failed" then Ok tt w
    else (db_set_status n "Failed" ;;
          try_except
            (details <- lift (py_getitem event "details") ;;
             description <- lift (py_getitem details "description") ;;
             db_set_failed_reason n description)
            pass_key_error) w.
Proof.
  unfold apply_action.
  change (py_eq_str (JStr "failed") "submitted") with false.
  change (py_eq_str (JStr "failed") "confirmed") with false.
  change (py_eq_str (JStr "failed") "cancelled") with false.
  change (py_eq_str (JStr "failed") "failed") with true.
  cbn [andb when]. unfold bind at 1 2 3. cbn [ret].
  destruct (String.eqb status "Failed"); reflexivity.
Qed.

End FailedEvent.

(** C8.  A [failed] payment event on a payment request that is not yet
    Failed sets its status to Failed and then tries to record the
    description of the event as [failed_reason].  When the schema has no
    such field the attempt is dropped: the handler returns, the status
    stays Failed and [failed_reason] is as it was.  When the schema has
    the field and the event carries a description, it is recorded. *)
Theorem failed_event_records_reason_when_possible {P : Platform}
    (d md : list (string * json)) (n : string) (doc : PaymentRequest)
    (w : World) :
  dict_lookup "action" d = Some (JStr "failed") ->
  optional_mapping "details" d = true ->
  optional_mapping "links" d = true ->
  dict_lookup "resource_metadata" d = Some (JDict md) ->
  dict_lookup "reference_document" md = Some (JStr n) ->
  n <> "" ->
  w_payment_requests w !! n = Some doc ->
  pr_status doc <> "Failed" ->
  exists w' doc',
    set_payment_request_status (JDict d) w = Ok tt w' /\
    w_payment_requests w' !! n = Some doc' /\
    pr_status doc' = "Failed" /\
    pr_failed_reason doc'
    = (if w_has_failed_reason w then
         match dict_lookup "details" d with
         | Some (JDict dd) =>
             match dict_lookup "description" dd with
             | Some description => Some description
             | None => pr_failed_reason doc
             end
         | _ => pr_failed_reason doc
         end
       else pr_failed_reason doc).
Proof.
  intros Ha Hdet Hlinks Hm Hr Hn Hdoc Hs.
  destruct (py_get_optional_mapping _ _ Hdet) as (dd & H2).
  destruct (py_get_dict dd "description" JNull) as (desc & H3).
  destruct (py_get_optional_mapping _ _ Hlinks) as (ld & H4).
  destruct (py_get_dict ld "payment" JNull) as (pid & H5).
  destruct (build_comment_str "failed" desc pid) as (text & H6).
  assert (Ht : text <> "").
  { apply (build_comment_nonempty "failed" desc pid); [discriminate|exact H6]. }
  assert (H1 : py_get (JDict d) "action" JNull = inr (JStr "failed")).
  { unfold py_get. rewrite Ha. reflexivity. }
  assert (H7 : py_get (JDict d) "resource_metadata" (JDict [])
               = inr (JDict md)).
  { unfold py_get. rewrite Hm. reflexivity. }
  assert (H8 : py_get (JDict md) "reference_document" JNull = inr (JStr n)).
  { unfold py_get. rewrite Hr. reflexivity. }
  rewrite (set_payment_request_status_run (JDict d) _ _ _ _ _ _ text n
             H1 H2 H3 H4 H5 H6 H7 H8 Hn Ht w), Hdoc.
  unfold bind at 1.
  destruct (add_comment_lookup n (info_comment text) w doc Hdoc)
    as (wc & Hc & Hdc).
  assert (Hfr : w_has_failed_reason wc = w_has_failed_reason w).
  { injection Hc as <-. reflexivity. }
  rewrite Hc, apply_action_failed.
  destruct (String.eqb_spec (pr_status doc) "Failed") as [|_]; [contradiction|].
  unfold bind at 1, db_set_status at 1, update_payment_request at 1,
    modify at 1.
  set (wf := set_payment_requests _ wc).
  assert (Hwf : w_payment_requests wf !! n
                = Some {| pr_status := "Failed";
                          pr_failed_reason := pr_failed_reason doc;
                          pr_comments := pr_comments doc ++ [info_comment text]
                       |}).
  { unfold wf. cbn [w_payment_requests set_payment_requests].
    rewrite lookup_alter_eq, Hdc. reflexivity. }
  assert (Hfr' : w_has_failed_reason wf = w_has_failed_reason w).
  { rewrite <- Hfr. reflexivity. }
  unfold try_except, bind, py_getitem at 1.
  destruct (dict_lookup "details" d) as [details|] eqn:Ed; cbn [lift ret raise].
  - unfold py_getitem at 1.
    destruct details as [| | | | | |dd'];
      try (cbn [lift raise pass_key_error];
           unfold optional_mapping in Hdet; rewrite Ed in Hdet; discriminate).
    destruct (dict_lookup "description" dd') as [description|];
      cbn [lift ret raise pass_key_error].
    + unfold db_set_failed_reason. rewrite Hfr'.
      destruct (w_has_failed_reason w).
      * eexists _, _. split; [reflexivity|].
        cbn [w_payment_requests set_payment_requests].
        rewrite lookup_alter_eq, Hwf. cbn [fmap option_fmap option_map].
        repeat split; reflexivity.
      * cbn [pass_key_error ret]. exists wf. eexists.
        split; [reflexivity|]. split; [exact Hwf|]. split; reflexivity.
    + exists wf. eexists. split; [reflexivity|]. split; [exact Hwf|].
      split; [reflexivity|]. destruct (w_has_failed_reason w); reflexivity.
  - exists wf. eexists. split; [reflexivity|]. split; [exact Hwf|].
    split; [reflexivity|]. destruct (w_has_failed_reason w); reflexivity.
Qed.

(** A [failed] event with a description on PR001, on the sample store,
    whose schema has no [failed_reason]: PR001 becomes Failed, the
    reason is dropped without an error. *)
Lemma failed_event_records_reason_when_possible_witness :
  exists w' doc',
    set_payment_request_status (P := Sample.platform)
      (JDict [("resource_type", JStr "payments");
              ("action", JStr "failed");
              ("details", JDict [("description", JStr "Insufficient funds")]);
              ("resource_metadata",
               JDict [("reference_doctype", JStr "Payment Request");
                      ("reference_document", JStr "PR001")])])
      Sample.world
    = Ok tt w' /\
    w_payment_requests w' !! "PR001" = Some doc' /\
    pr_status doc' = "Failed" /\
    pr_failed_reason doc' = None.
Proof.
  apply (failed_event_records_reason_when_possible (P := Sample.platform)
           [("resource_type", JStr "payments");
            ("action", JStr "failed");
            ("details", JDict [("description", JStr "Insufficient funds")]);
            ("resource_metadata",
             JDict [("reference_doctype", JStr "Payment Request");
                    ("reference_document", JStr "PR001")])]
           [("reference_doctype", JStr "Payment Request");
            ("reference_document", JStr "PR001")]
           "PR001" Sample.request_PR001 Sample.world).
  - reflexivity.
  - reflexivity.
  - reflexivity.
  - reflexivity.
  - reflexivity.
  - discriminate.
  - reflexivity.
  - discriminate.
Defined.

(** * Further properties of the code *)

(** ** Secret cache *)

Lemma _get_webhook_keys_spec (w : World) (k : string) :
  In k (_get_webhook_keys w) <->
  k <> "" /\ exists s, In s (w_settings w) /\ webhooks_secret s = Some k.
Proof.
  unfold _get_webhook_keys. rewrite <- list_elem_of_In, list_elem_of_omap.
  split.
  - intros (s & Hs & Hk). apply list_elem_of_In in Hs.
    unfold secret_present in Hk.
    destruct (webhooks_secret s) as [k'|] eqn:E; [|discriminate].
    destruct (String.eqb_spec k' "") as [|Hne]; [discriminate|].
    injection Hk as <-. split; [exact Hne|]. exists s. split; assumption.
  - intros (Hne & s & Hs & Hk). exists s. split; [apply list_elem_of_In; exact Hs|].
    unfold secret_present. rewrite Hk.
    destruct (String.eqb_spec k ""); [contradiction|reflexivity].
Qed.

(** X1.  After [clear_cache], [get_webhook_keys] reads the settings
    again: it returns, and caches, exactly the secrets of the GoCardless
    Settings documents that are set and not empty. *)
Theorem get_webhook_keys_after_clear_cache (w : World) :
  bind clear_cache (fun _ => get_webhook_keys) w
  = Ok (_get_webhook_keys w) (set_cache (Some (_get_webhook_keys w)) w) /\
  (forall k, In k (_get_webhook_keys w) <->
     k <> "" /\ exists s, In s (w_settings w) /\ webhooks_secret s = Some k).
Proof. split; [reflexivity|apply _get_webhook_keys_spec]. Qed.

(** X2.  Once the keys are cached, [get_webhook_keys] keeps returning
    the cached list whatever becomes of the settings documents, and
    leaves the state alone, so a request is still checked against the
    old secrets: a secret that was added, changed or removed counts only
    after [clear_cache], which makes the next call read the new
    settings. *)
Theorem get_webhook_keys_stale_until_cleared
    (w : World) (settings' : list GCSettings) :
  get_webhook_keys (set_settings settings' (cached w))
  = Ok (webhook_keys w) (set_settings settings' (cached w)) /\
  (forall r,
     authenticate_signature r (set_settings settings' (cached w))
     = match authenticate_signature r (cached w) with
       | Ok b _ => Ok b (set_settings settings' (cached w))
       | Raised e _ => Raised e (set_settings settings' (cached w))
       end) /\
  bind clear_cache (fun _ => get_webhook_keys)
       (set_settings settings' (cached w))
  = Ok (_get_webhook_keys (set_settings settings' w))
       (set_cache (Some (_get_webhook_keys (set_settings settings' w)))
                  (set_settings settings' w)).
Proof.
  split; [reflexivity|]. split; [|reflexivity].
  intros r. unfold authenticate_signature.
  destruct (req_signature r) as [s|]; [|reflexivity].
  destruct (String.eqb s ""); [reflexivity|].
  unfold bind, get_webhook_keys. cbn [w_cache set_settings cached set_cache].
  destruct (check_keys s (req_data r) (webhook_keys w)); reflexivity.
Qed.

(** ** Signature check *)

Lemma check_keys_non_ascii s data keys :
  is_ascii s = false ->
  check_keys s data keys
  = match keys with [] => inr false | _ :: _ => inl TypeError end.
Proof.
  intros Hs. destruct keys as [|key keys]; [reflexivity|].
  cbn [check_keys]. unfold compare_digest. rewrite Hs. reflexivity.
Qed.

Lemma existsb_Permutation {A} (f : A -> bool) (l l' : list A) :
  Permutation l l' -> existsb f l = existsb f l'.
Proof.
  induction 1 as [|x l l' _ IH|x y l|l l' l'' _ IH1 _ IH2]; cbn [existsb].
  - reflexivity.
  - rewrite IH. reflexivity.
  - destruct (f x), (f y); reflexivity.
  - congruence.
Qed.

(** X3.  The order of the secrets is irrelevant to the signature check:
    the loop over the keys gives the same answer, or the same error, on
    every permutation of the key list. *)
Theorem check_keys_order_irrelevant (s : string) (data : list byte)
    (keys keys' : list string) :
  Permutation keys keys' ->
  check_keys s data keys = check_keys s data keys'.
Proof.
  intros Hp. destruct (is_ascii s) eqn:Hs.
  - rewrite !check_keys_ascii by exact Hs.
    rewrite (existsb_Permutation _ _ _ Hp). reflexivity.
  - rewrite !check_keys_non_ascii by exact Hs.
    destruct keys as [|k keys], keys' as [|k' keys']; try reflexivity.
    + apply Permutation_nil in Hp. discriminate.
    + symmetry in Hp. apply Permutation_nil in Hp. discriminate.
Qed.

Lemma check_keys_order_irrelevant_witness :
  check_keys (hmac_sha256_hex "whsec_live" []) [] ["old"; "whsec_live"]
  = check_keys (hmac_sha256_hex "whsec_live" []) [] ["whsec_live"; "old"].
Proof.
  apply (check_keys_order_irrelevant _ _ ["old"; "whsec_live"]
           ["whsec_live"; "old"]).
  apply perm_swap.
Defined.

Lemma is_ascii_false_nonempty s : is_ascii s = false -> s <> "".
Proof. intros H ->. discriminate. Qed.

(** X4.  A signature header with a character outside ASCII, checked
    against at least one secret, makes the comparison raise [TypeError]:
    [authenticate_signature] does not return, and [webhooks] fails with
    that error instead of the authentication error, before the body is
    parsed or any event dispatched. *)
Theorem non_ascii_signature_raises_type_error {P : Platform}
    (r : Request) (w : World) (s : string) :
  req_signature r = Some s ->
  is_ascii s = false ->
  webhook_keys w <> [] ->
  authenticate_signature r w = Raised TypeError (cached w) /\
  webhooks (Some r) w = Raised TypeError (cached w).
Proof.
  intros Hr Hs Hk.
  assert (Ha : authenticate_signature r w = Raised TypeError (cached w)).
  { rewrite (authenticate_signature_eq r w s Hr (is_ascii_false_nonempty s Hs)).
    rewrite (check_keys_non_ascii _ _ _ Hs).
    destruct (webhook_keys w); [contradiction|reflexivity]. }
  split; [exact Ha|]. rewrite webhooks_eq, Ha. reflexivity.
Qed.

Lemma non_ascii_signature_raises_type_error_witness :
  authenticate_signature Sample.latin1_request Sample.world
  = Raised TypeError (cached Sample.world) /\
  webhooks (P := Sample.platform) (Some Sample.latin1_request) Sample.world
  = Raised TypeError (cached Sample.world).
Proof.
  apply (non_ascii_signature_raises_type_error (P := Sample.platform)
           Sample.latin1_request Sample.world (String (ascii_of_nat 233) "")).
  - reflexivity.
  - reflexivity.
  - discriminate.
Defined.

Lemma hexdigit_hex_lower (z : Z) : is_hex_lower_char (Sha256.hexdigit z) = true.
Proof.
  destruct (hexdigit_cases z) as (d & Hd & ->).
  assert (H : d = 0 \/ d = 1 \/ d = 2 \/ d = 3 \/ d = 4 \/ d = 5 \/ d = 6 \/
              d = 7 \/ d = 8 \/ d = 9 \/ d = 10 \/ d = 11 \/ d = 12 \/
              d = 13 \/ d = 14 \/ d = 15) by lia.
  repeat (destruct H as [-> | H]; [reflexivity|]). subst. reflexivity.
Qed.

Lemma hex_word_hex_lower w rest :
  is_hex_lower rest = true -> is_hex_lower (Sha256.hex_word w rest) = true.
Proof.
  intros H. unfold Sha256.hex_word. cbn [is_hex_lower].
  rewrite !hexdigit_hex_lower, H. reflexivity.
Qed.

Lemma hmac_sha256_hex_hex_lower key data :
  is_hex_lower (hmac_sha256_hex key data) = true.
Proof.
  unfold hmac_sha256_hex, Sha256.hmac_hexdigest, Sha256.hex_state.
  repeat apply hex_word_hex_lower. reflexivity.
Qed.

Lemma compare_digest_true a b : compare_digest a b = inr true -> a = b.
Proof.
  unfold compare_digest. destruct (is_ascii a && is_ascii b); [|discriminate].
  intros [= H]. apply String.eqb_eq. exact H.
Qed.

Lemma check_keys_true s data keys :
  check_keys s data keys = inr true ->
  exists key, In key keys /\ s = hmac_sha256_hex key data.
Proof.
  induction keys as [|key keys IH]; [discriminate|].
  cbn [check_keys].
  destruct (compare_digest s (hmac_sha256_hex key data)) as [e|[|]] eqn:E.
  - discriminate.
  - intros _. exists key. split; [left; reflexivity|].
    apply compare_digest_true. exact E.
  - intros H. destruct (IH H) as (k & Hin & Hk).
    exists k. split; [right; exact Hin|exact Hk].
Qed.

(** X5.  Whatever the supplied signature, ASCII or not, the check
    returns true only when it is the digest of the body under one of
    the keys in use; an accepted signature is therefore 64 lower-case
    hexadecimal digits, so a digest written in upper case, shortened or
    padded is never accepted. *)
Theorem accepted_signature_is_a_digest (r : Request) (w w' : World) :
  authenticate_signature r w = Ok true w' ->
  exists s key,
    req_signature r = Some s /\
    In key (webhook_keys w) /\
    s = hmac_sha256_hex key (req_data r) /\
    String.length s = 64%nat /\
    is_hex_lower s = true.
Proof.
  intros H. unfold authenticate_signature in H.
  destruct (req_signature r) as [s|] eqn:Hr; [|discriminate].
  destruct (String.eqb s ""); [discriminate|].
  unfold bind in H. rewrite get_webhook_keys_eq in H.
  destruct (check_keys s (req_data r) (webhook_keys w)) as [e|[|]] eqn:E;
    try discriminate.
  destruct (check_keys_true _ _ _ E) as (key & Hin & Hs).
  exists s, key. split; [reflexivity|]. split; [exact Hin|].
  split; [exact Hs|]. rewrite Hs.
  split; [apply hmac_sha256_hex_length|apply hmac_sha256_hex_hex_lower].
Qed.

Lemma accepted_signature_is_a_digest_witness :
  exists s key,
    req_signature (Sample.signed Sample.text_mixed) = Some s /\
    In key (webhook_keys Sample.world) /\
    s = hmac_sha256_hex key (req_data (Sample.signed Sample.text_mixed)) /\
    String.length s = 64%nat /\
    is_hex_lower s = true.
Proof.
  apply (accepted_signature_is_a_digest (Sample.signed Sample.text_mixed)
           Sample.world (cached Sample.world)).
  vm_compute. reflexivity.
Defined.

(** ** Payloads that are no batch *)

(** X6.  Past the signature check, a body that is not a batch makes
    [webhooks] raise before any event is dispatched or anything logged:
    the decoding error when the body is not JSON; [TypeError] when it
    decodes to anything but a non-empty mapping (an empty object
    included, because of the [or []]) or when [events] is not iterable;
    [KeyError] when the mapping has no [events]. *)
Theorem webhooks_malformed_payload {P : Platform}
    (r : Request) (w w1 : World) :
  authenticate_signature r w = Ok true w1 ->
  (forall e, json_loads (req_data r) = inl e ->
   webhooks (Some r) w = Raised e w1) /\
  (forall loaded, json_loads (req_data r) = inr loaded ->
   is_dict loaded = false \/ loaded = JDict [] ->
   webhooks (Some r) w = Raised TypeError w1) /\
  (forall d, json_loads (req_data r) = inr (JDict d) ->
   d <> [] -> dict_lookup "events" d = None ->
   webhooks (Some r) w = Raised (KeyError "events") w1) /\
  (forall d events e, json_loads (req_data r) = inr (JDict d) ->
   dict_lookup "events" d = Some events -> py_iter events = inl e ->
   webhooks (Some r) w = Raised e w1).
Proof.
  intros Ha. rewrite webhooks_eq, Ha.
  split; [|split; [|split]].
  - intros e He. unfold bind. rewrite He. reflexivity.
  - intros loaded Hl Hc. unfold bind at 1. rewrite Hl. cbn [lift ret].
    assert (Hg : py_getitem (if truthy loaded then loaded else JList [])
                   "events" = inl TypeError).
    { destruct Hc as [Hc| ->]; [|reflexivity].
      destruct loaded; try discriminate;
        destruct (truthy _); reflexivity. }
    unfold bind at 1. rewrite Hg. reflexivity.
  - intros d Hl Hd He. unfold bind at 1. rewrite Hl. cbn [lift ret].
    destruct d as [|kv d]; [contradiction|]. cbn [truthy].
    unfold bind at 1, py_getitem. rewrite He. reflexivity.
  - intros d events e Hl He Hi. unfold bind at 1. rewrite Hl. cbn [lift ret].
    assert (Hg : py_getitem (JDict d) "events" = inr events).
    { unfold py_getitem. rewrite He. reflexivity. }
    rewrite (py_getitem_truthy _ _ _ Hg).
    unfold bind at 1. rewrite Hg. cbn [lift ret].
    unfold bind at 1. rewrite Hi. reflexivity.
Qed.

(** The empty object, a mapping without [events], and [events] a
    number, each with a valid signature. *)
Lemma webhooks_malformed_payload_witness :
  webhooks (P := Cases.platform)
    (Some (Sample.signed Cases.text_empty_object)) Sample.world
  = Raised TypeError (cached Sample.world) /\
  webhooks (P := Cases.platform)
    (Some (Sample.signed Cases.text_no_events)) Sample.world
  = Raised (KeyError "events") (cached Sample.world) /\
  webhooks (P := Cases.platform)
    (Some (Sample.signed Cases.text_events_number)) Sample.world
  = Raised TypeError (cached Sample.world).
Proof.
  split; [|split].
  - apply (proj1 (proj2 (webhooks_malformed_payload (P := Cases.platform)
             (Sample.signed Cases.text_empty_object) Sample.world
             (cached Sample.world) ltac:(vm_compute; reflexivity)))
             (JDict [])).
    + vm_compute. reflexivity.
    + right. reflexivity.
  - apply (proj1 (proj2 (proj2 (webhooks_malformed_payload (P := Cases.platform)
             (Sample.signed Cases.text_no_events) Sample.world
             (cached Sample.world) ltac:(vm_compute; reflexivity))))
             [("eventz", JList [])]).
    + vm_compute. reflexivity.
    + discriminate.
    + reflexivity.
  - apply (proj2 (proj2 (proj2 (webhooks_malformed_payload (P := Cases.platform)
             (Sample.signed Cases.text_events_number) Sample.world
             (cached Sample.world) ltac:(vm_compute; reflexivity))))
             [("events", JInt 5)] (JInt 5) TypeError).
    + vm_compute. reflexivity.
    + reflexivity.
    + reflexivity.
Defined.

(** ** Routing *)

Section Routing.
Context {P : Platform}.

Lemma set_status_eq (event rt md rd : json) (w : World) :
  py_get event "resource_type" (JDict []) = inr rt ->
  py_get event "resource_metadata" (JDict []) = inr md ->
  py_get md "reference_doctype" JNull = inr rd ->
  set_status event w
  = (when (py_eq_str rt "mandates") (set_mandate_status event) ;;
     when (py_eq_str rt "payments" && py_eq_str rd "Payment Request")
          (set_payment_request_status event) ;;
     when (py_eq_str rt "payouts")
          (installed <- gets erpnext_installed ;;
           when installed (create_payout_journal event)))
      (record_event event w).
Proof.
  intros H1 H2 H3. unfold set_status.
  unfold bind at 1, modify.
  unfold bind at 1. rewrite H1. cbn [lift ret].
  unfold bind at 1. rewrite H2. cbn [lift ret].
  unfold bind at 1. rewrite H3. reflexivity.
Qed.

Lemma bind_ret_unit (c : M unit) (w : World) :
  bind c (fun _ => ret tt) w = c w.
Proof. unfold bind. destruct (c w) as [[] w1|e w1]; reflexivity. Qed.

End Routing.

(** X7.  An event that no branch of the dispatcher matches is skipped
    without a trace in the records: a [resource_type] other than
    [mandates], [payments] and [payouts], a payment whose
    [reference_doctype] is not Payment Request, or a payout when the
    ledger application is not installed. *)
Theorem set_status_skips_unmatched {P : Platform}
    (event rt md rd : json) (w : World) :
  py_get event "resource_type" (JDict []) = inr rt ->
  py_get event "resource_metadata" (JDict []) = inr md ->
  py_get md "reference_doctype" JNull = inr rd ->
  py_eq_str rt "mandates" = false ->
  py_eq_str rt "payments" && py_eq_str rd "Payment Request" = false ->
  py_eq_str rt "payouts" && erpnext_installed w = false ->
  set_status event w = Ok tt (record_event event w).
Proof.
  intros H1 H2 H3 Hm Hp Ho.
  rewrite (set_status_eq event rt md rd w H1 H2 H3), Hm, Hp.
  cbn [when]. unfold bind at 1 2. cbn [ret].
  destruct (py_eq_str rt "payouts"); [|reflexivity].
  cbn [andb] in Ho. cbn [when]. unfold bind, gets.
  change (erpnext_installed (record_event event w))
    with (erpnext_installed w).
  rewrite Ho. reflexivity.
Qed.

(** A payment event that refers to a Sales Invoice. *)
Lemma set_status_skips_unmatched_witness :
  set_status (P := Sample.platform)
    (JDict [("resource_type", JStr "payments");
            ("action", JStr "confirmed");
            ("resource_metadata",
             JDict [("reference_doctype", JStr "Sales Invoice");
                    ("reference_document", JStr "PR001")])])
    Sample.world
  = Ok tt
      (record_event
         (JDict [("resource_type", JStr "payments");
                 ("action", JStr "confirmed");
                 ("resource_metadata",
                  JDict [("reference_doctype", JStr "Sales Invoice");
                         ("reference_document", JStr "PR001")])])
         Sample.world).
Proof.
  apply (set_status_skips_unmatched (P := Sample.platform) _
           (JStr "payments")
           (JDict [("reference_doctype", JStr "Sales Invoice");
                   ("reference_document", JStr "PR001")])
           (JStr "Sales Invoice")); reflexivity.
Defined.

(** X8.  The dispatcher needs every event to be a mapping, and its
    [resource_metadata], when present, to be one: otherwise it raises
    [AttributeError] before any handler runs, even for a mandate event
    whose [links] and [action] are in order. *)
Theorem set_status_needs_mappings {P : Platform} (event : json) (w : World) :
  (is_dict event = false ->
   set_status event w = Raised AttributeError (record_event event w)) /\
  (forall d v, event = JDict d ->
   dict_lookup "resource_metadata" d = Some v -> is_dict v = false ->
   set_status event w = Raised AttributeError (record_event event w)).
Proof.
  split.
  - intros H. unfold set_status, bind, modify.
    destruct event; try discriminate; reflexivity.
  - intros d v -> Hv Hd. unfold set_status, bind, modify, py_get at 1 2.
    cbn [lift ret]. rewrite Hv.
    destruct v; try discriminate; reflexivity.
Qed.

Lemma set_status_needs_mappings_witness :
  set_status (P := Sample.platform) (JInt 7) Sample.world
  = Raised AttributeError (record_event (JInt 7) Sample.world) /\
  set_status (P := Sample.platform)
    (JDict [("resource_type", JStr "mandates"); ("action", JStr "active");
            ("links", JDict [("mandate", JStr "MD001")]);
            ("resource_metadata", JNull)]) Sample.world
  = Raised AttributeError
      (record_event
         (JDict [("resource_type", JStr "mandates"); ("action", JStr "active");
                 ("links", JDict [("mandate", JStr "MD001")]);
                 ("resource_metadata", JNull)]) Sample.world).
Proof.
  split.
  - apply (proj1 (set_status_needs_mappings (P := Sample.platform)
                    (JInt 7) Sample.world)). reflexivity.
  - apply (proj2 (set_status_needs_mappings (P := Sample.platform) _
                    Sample.world)
             [("resource_type", JStr "mandates"); ("action", JStr "active");
              ("links", JDict [("mandate", JStr "MD001")]);
              ("resource_metadata", JNull)] JNull); reflexivity.
Defined.

(** X9.  Each event is handled by one handler only, chosen by
    [resource_type]: a mandate event by the mandate handler, a payment
    event of a Payment Request by the payment handler, a payout event by
    the payout handler when the ledger application is installed; the
    outcome of the dispatcher is the outcome of that handler. *)
Theorem set_status_routes_to_one_handler {P : Platform}
    (d : list (string * json)) (w : World) :
  optional_mapping "resource_metadata" d = true ->
  (dict_lookup "resource_type" d = Some (JStr "mandates") ->
   set_status (JDict d) w
   = set_mandate_status (JDict d) (record_event (JDict d) w)) /\
  (dict_lookup "resource_type" d = Some (JStr "payments") ->
   (exists md, dict_lookup "resource_metadata" d = Some (JDict md) /\
               dict_lookup "reference_doctype" md
               = Some (JStr "Payment Request")) ->
   set_status (JDict d) w
   = set_payment_request_status (JDict d) (record_event (JDict d) w)) /\
  (dict_lookup "resource_type" d = Some (JStr "payouts") ->
   erpnext_installed w = true ->
   set_status (JDict d) w
   = create_payout_journal (JDict d) (record_event (JDict d) w)).
Proof.
  intros Hm.
  destruct (py_get_optional_mapping _ _ Hm) as (md & H2).
  destruct (py_get_dict md "reference_doctype" JNull) as (rd & H3).
  split; [|split].
  - intros Ht.
    rewrite (set_status_eq (JDict d) (JStr "mandates") (JDict md) rd w);
      [|unfold py_get; rewrite Ht; reflexivity|exact H2|exact H3].
    change (py_eq_str (JStr "mandates") "mandates") with true.
    change (py_eq_str (JStr "mandates") "payments") with false.
    change (py_eq_str (JStr "mandates") "payouts") with false.
    cbn [andb when]. unfold bind.
    destruct (set_mandate_status _ _) as [[] w1|e w1]; reflexivity.
  - intros Ht (md' & Hmd & Hrd).
    assert (md' = md) as ->.
    { unfold py_get in H2. rewrite Hmd in H2. congruence. }
    assert (rd = JStr "Payment Request") as ->.
    { unfold py_get in H3. rewrite Hrd in H3. congruence. }
    rewrite (set_status_eq (JDict d) (JStr "payments") (JDict md)
               (JStr "Payment Request") w);
      [|unfold py_get; rewrite Ht; reflexivity|exact H2|exact H3].
    change (py_eq_str (JStr "payments") "mandates") with false.
    change (py_eq_str (JStr "payments") "payments") with true.
    change (py_eq_str (JStr "payments") "payouts") with false.
    change (py_eq_str (JStr "Payment Request") "Payment Request") with true.
    cbn [andb when]. unfold bind, ret.
    destruct (set_payment_request_status _ _) as [[] w1|e w1]; reflexivity.
  - intros Ht Hi.
    rewrite (set_status_eq (JDict d) (JStr "payouts") (JDict md) rd w);
      [|unfold py_get; rewrite Ht; reflexivity|exact H2|exact H3].
    change (py_eq_str (JStr "payouts") "mandates") with false.
    change (py_eq_str (JStr "payouts") "payments") with false.
    change (py_eq_str (JStr "payouts") "payouts") with true.
    cbn [andb when]. unfold bind at 1 2 3, gets. cbn [ret].
    change (erpnext_installed (record_event (JDict d) w))
      with (erpnext_installed w).
    rewrite Hi. reflexivity.
Qed.

Lemma set_status_routes_to_one_handler_witness :
  set_status (P := Sample.platform) Sample.event_active Sample.world
  = set_mandate_status Sample.event_active
      (record_event Sample.event_active Sample.world) /\
  set_status (P := Sample.platform) (Sample.payment_event "confirmed")
    Sample.world
  = set_payment_request_status (P := Sample.platform)
      (Sample.payment_event "confirmed")
      (record_event (Sample.payment_event "confirmed") Sample.world) /\
  set_status (P := Sample.platform) Sample.payout_event Sample.world
  = create_payout_journal (P := Sample.platform) Sample.payout_event
      (record_event Sample.payout_event Sample.world).
Proof.
  split; [|split].
  - apply (proj1 (set_status_routes_to_one_handler (P := Sample.platform)
             [("resource_type", JStr "mandates"); ("action", JStr "active");
              ("links", JDict [("mandate", JStr "MD001")])]
             Sample.world eq_refl)).
    reflexivity.
  - apply (proj1 (proj2 (set_status_routes_to_one_handler
             (P := Sample.platform)
             [("resource_type", JStr "payments");
              ("action", JStr "confirmed");
              ("resource_metadata",
               JDict [("reference_doctype", JStr "Payment Request");
                      ("reference_document", JStr "PR001")])]
             Sample.world eq_refl))).
    + reflexivity.
    + eexists. split; reflexivity.
  - apply (proj2 (proj2 (set_status_routes_to_one_handler
             (P := Sample.platform)
             [("resource_type", JStr "payouts");
              ("links", JDict [("payout", JStr "PO0001")])]
             Sample.world eq_refl))).
    + reflexivity.
    + reflexivity.
Defined.

Section Unrouted.
Context {P : Platform}.




End Unrouted.



(** ** Mandate handler, continued *)

Lemma for_each_set_mandates_raised (ms : list json) (d : Z) (w : World) e w' :
  for_each ms (fun m => db_set_value_mandate m d) w = Raised e w' ->
  e = DoesNotExistError.
Proof.
  revert w. induction ms as [|m ms IH]; intros w; cbn [for_each].
  - discriminate.
  - unfold bind, db_set_value_mandate at 1.
    destruct (doc_name m) as [n|]; [|intros [= <- _]; reflexivity].
    destruct (w_mandates w !! n); [|intros [= <- _]; reflexivity].
    apply IH.
Qed.

Lemma for_each_set_mandates_Ok_inv (ms : list json) (d : Z) (w w1 : World) :
  for_each ms (fun m => db_set_value_mandate m d) w = Ok tt w1 ->
  exists names,
    ms = map JStr names /\
    Forall (fun n => is_Some (w_mandates w !! n)) names.
Proof.
  revert w. induction ms as [|m ms IH]; intros w; cbn [for_each].
  - intros _. exists []. split; [reflexivity|constructor].
  - unfold bind, db_set_value_mandate at 1.
    destruct m as [| | | |n| |]; cbn [doc_name]; try discriminate.
    destruct (w_mandates w !! n) as [d0|] eqn:Hn; [|discriminate].
    intros H. destruct (IH _ H) as (names & -> & Hall).
    exists (n :: names). split; [reflexivity|].
    constructor; [exists d0; exact Hn|].
    eapply Forall_impl; [exact Hall|].
    intros k Hk. cbn [w_mandates set_mandates] in Hk.
    apply lookup_insert_is_Some in Hk as [<- | [_ Hk]]; [|exact Hk].
    exists d0. exact Hn.
Qed.

(** X11.  The mandate handler reads [links] and [action] before it
    writes: an event without [action] raises [KeyError], whatever its
    links, and any error other than the store's own for an unknown
    mandate leaves every mandate as it was. *)
Theorem set_mandate_status_reads_before_writing
    (event : json) (w : World) :
  (forall d links ms, event = JDict d ->
   dict_lookup "links" d = Some links -> event_mandates links = inr ms ->
   dict_lookup "action" d = None ->
   set_mandate_status event w = Raised (KeyError "action") w) /\
  (forall e w', set_mandate_status event w = Raised e w' ->
   e <> DoesNotExistError -> w' = w).
Proof.
  split.
  - intros d links ms -> Hl Hm Ha.
    unfold set_mandate_status, bind, py_getitem.
    rewrite Hl. cbn [lift ret]. rewrite Hm. cbn [lift ret]. rewrite Ha.
    reflexivity.
  - intros e w'. unfold set_mandate_status, bind.
    destruct (py_getitem event "links") as [e1|links];
      [intros [= _ <-]; reflexivity|]. cbn [lift ret].
    destruct (event_mandates links) as [e2|ms];
      [intros [= _ <-]; reflexivity|]. cbn [lift ret].
    destruct (py_getitem event "action") as [e3|action];
      [intros [= _ <-]; reflexivity|]. cbn [lift ret].
    intros H Hne. destruct Hne.
    apply (for_each_set_mandates_raised _ _ _ _ _ H).
Qed.

Lemma set_mandate_status_reads_before_writing_witness :
  set_mandate_status
    (JDict [("resource_type", JStr "mandates");
            ("links", JDict [("mandate", JStr "MD001")])]) Sample.world
  = Raised (KeyError "action") Sample.world.
Proof.
  apply (proj1 (set_mandate_status_reads_before_writing _ Sample.world)
           [("resource_type", JStr "mandates");
            ("links", JDict [("mandate", JStr "MD001")])]
           (JDict [("mandate", JStr "MD001")]) [JStr "MD001"]);
    reflexivity.
Defined.

(** X12.  An [action] that is not a string ([null], a number, a list)
    is treated like an unknown action: the handler returns after
    disabling every mandate the event links to. *)
Theorem set_mandate_status_disables_on_odd_action
    (d : list (string * json)) (links action : json) (names : list string)
    (w : World) :
  dict_lookup "links" d = Some links ->
  event_mandates links = inr (map JStr names) ->
  dict_lookup "action" d = Some action ->
  (forall a, action <> JStr a) ->
  Forall (fun n => is_Some (w_mandates w !! n)) names ->
  exists m',
    set_mandate_status (JDict d) w = Ok tt (set_mandates m' w) /\
    (forall n, In n names -> m' !! n = Some 1) /\
    (forall n, ~ In n names -> m' !! n = w_mandates w !! n).
Proof.
  intros Hl Hm Ha Hodd Hall.
  assert (Hd : mandate_disabled action = 1).
  { destruct action; try reflexivity. destruct (Hodd s). reflexivity. }
  destruct (for_each_set_mandates names 1 w Hall) as (m' & Hrun & Hin & Hout).
  exists m'. split; [|split; assumption].
  unfold set_mandate_status, bind, lift, py_getitem.
  rewrite Hl. cbn [ret]. rewrite Hm. cbn [ret]. rewrite Ha. cbn [ret].
  rewrite Hd. exact Hrun.
Qed.

Lemma set_mandate_status_disables_on_odd_action_witness :
  exists m',
    set_mandate_status
      (JDict [("action", JNull);
              ("links", JList [JDict [("mandate", JStr "MD002")]])])
      Sample.world
    = Ok tt (set_mandates m' Sample.world) /\
    m' !! "MD002" = Some 1.
Proof.
  destruct (set_mandate_status_disables_on_odd_action
              [("action", JNull);
               ("links", JList [JDict [("mandate", JStr "MD002")]])]
              (JList [JDict [("mandate", JStr "MD002")]]) JNull ["MD002"]
              Sample.world) as (m' & Hrun & Hin & _).
  - reflexivity.
  - reflexivity.
  - reflexivity.
  - discriminate.
  - repeat constructor. exists 0. reflexivity.
  - exists m'. split; [exact Hrun|]. apply Hin. left. reflexivity.
Defined.

(** X13.  The mandate handler is idempotent: when an event has been
    applied, applying it again returns and changes nothing at all. *)
Theorem set_mandate_status_idempotent (event : json) (w w1 : World) :
  set_mandate_status event w = Ok tt w1 ->
  set_mandate_status event w1 = Ok tt w1.
Proof.
  unfold set_mandate_status. intros H.
  apply bind_Ok_inv in H as (links & w' & [H1 ->]%lift_Ok_inv & H).
  apply bind_Ok_inv in H as (ms & w' & [H2 ->]%lift_Ok_inv & H).
  apply bind_Ok_inv in H as (action & w' & [H3 ->]%lift_Ok_inv & H).
  unfold bind. rewrite H1. cbn [lift ret]. rewrite H2. cbn [lift ret].
  rewrite H3. cbn [lift ret].
  set (d := mandate_disabled action) in *.
  destruct (for_each_set_mandates_Ok_inv ms d w w1 H) as (names & -> & Hall).
  destruct (for_each_set_mandates names d w Hall) as (m1 & Hrun & Hin & Hout).
  rewrite Hrun in H. injection H as <-.
  destruct (for_each_set_mandates names d (set_mandates m1 w))
    as (m2 & Hrun2 & Hin2 & Hout2).
  { apply Forall_forall. intros n Hn%list_elem_of_In.
    cbn [w_mandates set_mandates].
    rewrite (Hin n Hn). eexists. reflexivity. }
  rewrite Hrun2, set_mandates_set_mandates. f_equal. f_equal.
  apply map_eq. intros n. cbn [w_mandates set_mandates] in Hout2.
  destruct (in_dec string_dec n names) as [Hn|Hn].
  - rewrite (Hin n Hn), (Hin2 n Hn). reflexivity.
  - apply Hout2. exact Hn.
Qed.

Lemma set_mandate_status_idempotent_witness :
  set_mandate_status Sample.event_active
    (set_mandates (<["MD001" := 0]> (w_mandates Sample.world)) Sample.world)
  = Ok tt
      (set_mandates (<["MD001" := 0]> (w_mandates Sample.world)) Sample.world).
Proof.
  apply (set_mandate_status_idempotent Sample.event_active Sample.world).
  vm_compute. reflexivity.
Defined.

(** ** Payment request handler, continued *)

Section PaymentFields.
Context {P : Platform}.

(** The handler once the fields of the event are read. *)
Lemma set_payment_request_status_fields
    (event action details desc links pid md ref : json) (text : string) :
  py_get event "action" JNull = inr action ->
  py_get event "details" (JDict []) = inr details ->
  py_get details "description" JNull = inr desc ->
  py_get event "links" (JDict []) = inr links ->
  py_get links "payment" JNull = inr pid ->
  build_comment action desc pid = inr text ->
  py_get event "resource_metadata" (JDict []) = inr md ->
  py_get md "reference_document" JNull = inr ref ->
  forall w,
    set_payment_request_status event w
    = if negb (truthy ref) then Ok tt w
      else (doc <- get_doc_payment_request ref ;;
            let '(n, d) := doc in
            when (negb (String.eqb text ""))
                 (add_comment n (info_comment text)) ;;
            apply_action event action n (pr_status d)) w.
Proof.
  intros H1 H2 H3 H4 H5 H6 H7 H8 w.
  unfold set_payment_request_status.
  unfold bind at 1. rewrite H1. cbn [lift ret].
  unfold bind at 1. rewrite H2. cbn [lift ret].
  unfold bind at 1. rewrite H3. cbn [lift ret].
  unfold bind at 1. rewrite H4. cbn [lift ret].
  unfold bind at 1. rewrite H5. cbn [lift ret].
  unfold bind at 1. rewrite H6. cbn [lift ret].
  unfold bind at 1. rewrite H7. cbn [lift ret].
  unfold bind at 1. rewrite H8. cbn [lift ret].
  destruct (negb (truthy ref)); reflexivity.
Qed.

Lemma readable_payment_event_fields (d : list (string * json)) :
  readable_payment_event d = true ->
  exists action dd desc ld pid md text,
    py_get (JDict d) "action" JNull = inr action /\
    py_get (JDict d) "details" (JDict []) = inr (JDict dd) /\
    py_get (JDict dd) "description" JNull = inr desc /\
    py_get (JDict d) "links" (JDict []) = inr (JDict ld) /\
    py_get (JDict ld) "payment" JNull = inr pid /\
    build_comment action desc pid = inr text /\
    py_get (JDict d) "resource_metadata" (JDict []) = inr (JDict md).
Proof.
  unfold readable_payment_event.
  intros [[[Hd Hl]%andb_prop Hm]%andb_prop Ha]%andb_prop.
  destruct (py_get_optional_mapping _ _ Hd) as (dd & H2).
  destruct (py_get_dict dd "description" JNull) as (desc & H3).
  destruct (py_get_optional_mapping _ _ Hl) as (ld & H4).
  destruct (py_get_dict ld "payment" JNull) as (pid & H5).
  destruct (py_get_optional_mapping _ _ Hm) as (md & H7).
  destruct (py_get_dict d "action" JNull) as (action & H1).
  assert (Hb : exists text, build_comment action desc pid = inr text).
  { unfold py_get in H1.
    destruct (dict_lookup "action" d) as [v|]; injection H1 as <-.
    - destruct v; try apply build_comment_str;
        unfold build_comment; apply negb_true_iff in Ha; rewrite Ha;
        eexists; reflexivity.
    - unfold build_comment. cbn [truthy]. eexists. reflexivity. }
  destruct Hb as (text & H6).
  exists action, dd, desc, ld, pid, md, text. repeat split; assumption.
Qed.

Lemma py_get_lookup d k default v :
  dict_lookup k d = Some v -> py_get (JDict d) k default = inr v.
Proof. intros H. unfold py_get. rewrite H. reflexivity. Qed.

(** What is left of the handler for an event with a string action that
    names an existing document. *)
Lemma set_payment_request_status_named
    (d md : list (string * json)) (a n : string) (doc : PaymentRequest)
    (w : World) :
  readable_payment_event d = true ->
  dict_lookup "action" d = Some (JStr a) -> a <> "" ->
  dict_lookup "resource_metadata" d = Some (JDict md) ->
  dict_lookup "reference_document" md = Some (JStr n) -> n <> "" ->
  w_payment_requests w !! n = Some doc ->
  exists text,
    text <> "" /\
    set_payment_request_status (JDict d) w
    = apply_action (JDict d) (JStr a) n (pr_status doc)
        (set_payment_requests
           (<[n := with_comment (info_comment text) doc]>
              (w_payment_requests w)) w).
Proof.
  intros Hr Ha Hne Hm Href Hn Hdoc.
  destruct (readable_payment_event_fields d Hr)
    as (action & dd & desc & ld & pid & md' & text
        & H1 & H2 & H3 & H4 & H5 & H6 & H7).
  rewrite (py_get_lookup _ _ _ _ Ha) in H1. injection H1 as <-.
  rewrite (py_get_lookup _ _ _ _ Hm) in H7. injection H7 as <-.
  assert (Ht : text <> "") by exact (build_comment_nonempty a desc pid text Hne H6).
  exists text. split; [exact Ht|].
  rewrite (set_payment_request_status_run (JDict d) _ _ _ _ _ _ text n
             (py_get_lookup _ _ _ _ Ha) H2 H3 H4 H5 H6
             (py_get_lookup _ _ _ _ Hm) (py_get_lookup _ _ _ _ Href) Hn Ht w).
  rewrite Hdoc. unfold bind at 1, add_comment, update_payment_request, modify.
  f_equal. f_equal. apply map_eq. intros k.
  destruct (decide (k = n)) as [->|Hk].
  - rewrite lookup_alter_eq, lookup_insert_eq, Hdoc. reflexivity.
  - rewrite lookup_alter_ne, lookup_insert_ne by congruence. reflexivity.
Qed.

Lemma apply_action_guarded event a n status w :
  target_status a = None \/ target_status a = Some status ->
  apply_action event (JStr a) n status w = Ok tt w.
Proof.
  unfold target_status, apply_action, py_eq_str.
  destruct (String.eqb_spec a "submitted") as [->|H1].
  { intros [|[= <-]]; [discriminate|]. reflexivity. }
  destruct (String.eqb_spec a "confirmed") as [->|H2].
  { intros [|[= <-]]; [discriminate|]. reflexivity. }
  destruct (String.eqb_spec a "cancelled") as [->|H3].
  { intros [|[= <-]]; [discriminate|]. reflexivity. }
  destruct (String.eqb_spec a "failed") as [->|H4].
  { intros [|[= <-]]; [discriminate|]. reflexivity. }
  intros _. reflexivity.
Qed.

End PaymentFields.

(** X14.  A payment event that names no document (no
    [resource_metadata], no [reference_document], or one that counts as
    false, such as the empty string) is ignored: the handler returns and
    nothing is written, not even the comment it has built. *)
Theorem payment_event_without_reference_is_ignored {P : Platform}
    (d : list (string * json)) (w : World) :
  readable_payment_event d = true ->
  (forall md ref,
     dict_lookup "resource_metadata" d = Some (JDict md) ->
     dict_lookup "reference_document" md = Some ref ->
     truthy ref = false) ->
  set_payment_request_status (JDict d) w = Ok tt w.
Proof.
  intros Hr Href.
  destruct (readable_payment_event_fields d Hr)
    as (action & dd & desc & ld & pid & md & text
        & H1 & H2 & H3 & H4 & H5 & H6 & H7).
  destruct (py_get_dict md "reference_document" JNull) as (ref & H8).
  rewrite (set_payment_request_status_fields (JDict d) _ _ _ _ _ _ ref text
             H1 H2 H3 H4 H5 H6 H7 H8 w).
  assert (Hf : truthy ref = false).
  { unfold py_get in H7, H8.
    destruct (dict_lookup "resource_metadata" d) as [v|] eqn:Em.
    - injection H7 as ->.
      destruct (dict_lookup "reference_document" md) as [x|] eqn:Ex.
      + injection H8 as <-. apply (Href md x eq_refl Ex).
      + injection H8 as <-. reflexivity.
    - injection H7 as <-. injection H8 as <-. reflexivity. }
  rewrite Hf. reflexivity.
Qed.

Lemma payment_event_without_reference_is_ignored_witness :
  set_payment_request_status (P := Sample.platform)
    (JDict [("resource_type", JStr "payments"); ("action", JStr "confirmed");
            ("resource_metadata",
             JDict [("reference_doctype", JStr "Payment Request");
                    ("reference_document", JStr "")])]) Sample.world
  = Ok tt Sample.world.
Proof.
  apply (payment_event_without_reference_is_ignored (P := Sample.platform)).
  - reflexivity.
  - intros md ref [= <-] [= <-]. reflexivity.
Defined.

(** X15.  A payment event that calls for no transition only leaves its
    comment: this is so for an action other than [submitted],
    [confirmed], [cancelled] and [failed], and for each of these four
    when the document is already in the status the action leads to; in
    particular a [failed] event on a Failed document does not touch
    [failed_reason]. *)
Theorem payment_event_off_target_only_comments {P : Platform}
    (d md : list (string * json)) (a n : string) (doc : PaymentRequest)
    (w : World) :
  readable_payment_event d = true ->
  dict_lookup "action" d = Some (JStr a) -> a <> "" ->
  dict_lookup "resource_metadata" d = Some (JDict md) ->
  dict_lookup "reference_document" md = Some (JStr n) -> n <> "" ->
  w_payment_requests w !! n = Some doc ->
  target_status a = None \/ target_status a = Some (pr_status doc) ->
  exists text,
    text <> "" /\
    set_payment_request_status (JDict d) w
    = Ok tt (set_payment_requests
               (<[n := with_comment (info_comment text) doc]>
                  (w_payment_requests w)) w).
Proof.
  intros Hr Ha Hne Hm Href Hn Hdoc Ht.
  destruct (set_payment_request_status_named d md a n doc w
              Hr Ha Hne Hm Href Hn Hdoc) as (text & Htext & Heq).
  exists text. split; [exact Htext|].
  rewrite Heq. apply apply_action_guarded. exact Ht.
Qed.

(** An event with an action of a later API version, and a [failed]
    event on a document that is Failed already. *)
Lemma payment_event_off_target_only_comments_witness :
  (exists text,
     text <> "" /\
     set_payment_request_status (P := Sample.platform)
       (Sample.payment_event "resubmission_requested") Sample.world
     = Ok tt (set_payment_requests
                (<["PR001" := with_comment (info_comment text)
                                 Sample.request_PR001]>
                   (w_payment_requests Sample.world)) Sample.world)) /\
  (exists text,
     text <> "" /\
     set_payment_request_status (P := Sample.platform)
       (Sample.payment_event "confirmed") Sample.world_paid
     = Ok tt (set_payment_requests
                (<["PR001" := with_comment (info_comment text)
                                 {| pr_status := "Paid";
                                    pr_failed_reason := None;
                                    pr_comments := [Sample.paid_comment] |}]>
                   (w_payment_requests Sample.world_paid))
                Sample.world_paid)).
Proof.
  split.
  - apply (payment_event_off_target_only_comments (P := Sample.platform)
             _ [("reference_doctype", JStr "Payment Request");
                ("reference_document", JStr "PR001")]
             "resubmission_requested" "PR001" Sample.request_PR001
             Sample.world); try reflexivity; try discriminate.
    left. reflexivity.
  - apply (payment_event_off_target_only_comments (P := Sample.platform)
             _ [("reference_doctype", JStr "Payment Request");
                ("reference_document", JStr "PR001")]
             "confirmed" "PR001" _ Sample.world_paid);
      try reflexivity; try discriminate.
    right. reflexivity.
Defined.

Section Transitions.
Context {P : Platform}.

Lemma set_payment_requests_twice m1 m2 w :
  set_payment_requests m2 (set_payment_requests m1 w)
  = set_payment_requests m2 w.
Proof. reflexivity. Qed.

Lemma apply_action_submitted event n status w :
  apply_action event (JStr "submitted") n status w
  = if String.eqb status "Initiated" then Ok tt w
    else db_set_status n "Initiated" w.
Proof.
  unfold apply_action.
  change (py_eq_str (JStr "submitted") "submitted") with true.
  change (py_eq_str (JStr "submitted") "confirmed") with false.
  change (py_eq_str (JStr "submitted") "cancelled") with false.
  change (py_eq_str (JStr "submitted") "failed") with false.
  cbn [andb when]. unfold bind, ret.
  destruct (String.eqb status "Initiated"); reflexivity.
Qed.

Lemma apply_action_cancelled event n status w :
  apply_action event (JStr "cancelled") n status w
  = if String.eqb status "Cancelled" then Ok tt w
    else transition set_as_cancelled n w.
Proof.
  unfold apply_action.
  change (py_eq_str (JStr "cancelled") "submitted") with false.
  change (py_eq_str (JStr "cancelled") "confirmed") with false.
  change (py_eq_str (JStr "cancelled") "cancelled") with true.
  change (py_eq_str (JStr "cancelled") "failed") with false.
  cbn [andb when]. unfold bind, ret.
  destruct (String.eqb status "Cancelled"); cbn [negb when ret].
  - reflexivity.
  - destruct (transition set_as_cancelled n w) as [[] w1|e w1]; reflexivity.
Qed.

Lemma transition_commented f n c doc w :
  transition f n
    (set_payment_requests
       (<[n := with_comment c doc]> (w_payment_requests w)) w)
  = match f (with_comment c doc) with
    | inr d' =>
        Ok tt (set_payment_requests (<[n := d']> (w_payment_requests w)) w)
    | inl e =>
        Raised e (set_payment_requests
                    (<[n := with_comment c doc]> (w_payment_requests w)) w)
    end.
Proof.
  unfold transition. cbn [w_payment_requests set_payment_requests].
  rewrite lookup_insert_eq. destruct (f _) as [e|d']; [reflexivity|].
  rewrite insert_insert_eq. reflexivity.
Qed.

End Transitions.

(** X16.  A [submitted] event sets the status to Initiated from any
    other status, Paid, Cancelled and Failed included: the guard only
    asks that the document is not Initiated already, so a [submitted]
    event that arrives after [confirmed] takes a paid request back to
    Initiated. *)
Theorem submitted_event_sets_initiated_from_any_status {P : Platform}
    (d md : list (string * json)) (n : string) (doc : PaymentRequest)
    (w : World) :
  readable_payment_event d = true ->
  dict_lookup "action" d = Some (JStr "submitted") ->
  dict_lookup "resource_metadata" d = Some (JDict md) ->
  dict_lookup "reference_document" md = Some (JStr n) -> n <> "" ->
  w_payment_requests w !! n = Some doc ->
  pr_status doc <> "Initiated" ->
  exists text,
    set_payment_request_status (JDict d) w
    = Ok tt (set_payment_requests
               (<[n := {| pr_status := "Initiated";
                          pr_failed_reason := pr_failed_reason doc;
                          pr_comments := pr_comments doc
                                         ++ [info_comment text] |}]>
                  (w_payment_requests w)) w).
Proof.
  intros Hr Ha Hm Href Hn Hdoc Hs.
  destruct (set_payment_request_status_named d md "submitted" n doc w
              Hr Ha ltac:(discriminate) Hm Href Hn Hdoc)
    as (text & Htext & Heq).
  exists text. rewrite Heq, apply_action_submitted.
  destruct (String.eqb_spec (pr_status doc) "Initiated"); [contradiction|].
  unfold db_set_status, update_payment_request, modify.
  rewrite set_payment_requests_twice.
  cbn [w_payment_requests set_payment_requests].
  f_equal. f_equal. apply map_eq. intros k.
  destruct (decide (k = n)) as [->|Hk].
  - rewrite lookup_alter_eq, !lookup_insert_eq. reflexivity.
  - rewrite lookup_alter_ne, !lookup_insert_ne by congruence. reflexivity.
Qed.

(** The paid request of the sample store, after a late [submitted]. *)
Lemma submitted_event_sets_initiated_from_any_status_witness :
  exists text,
    set_payment_request_status (P := Sample.platform)
      (Sample.payment_event "submitted") Sample.world_paid
    = Ok tt (set_payment_requests
               (<["PR001" := {| pr_status := "Initiated";
                                pr_failed_reason := None;
                                pr_comments := [Sample.paid_comment]
                                               ++ [info_comment text] |}]>
                  (w_payment_requests Sample.world_paid))
               Sample.world_paid).
Proof.
  apply (submitted_event_sets_initiated_from_any_status
           (P := Sample.platform) _
           [("reference_doctype", JStr "Payment Request");
            ("reference_document", JStr "PR001")]
           "PR001"
           {| pr_status := "Paid"; pr_failed_reason := None;
              pr_comments := [Sample.paid_comment] |} Sample.world_paid);
    try reflexivity; discriminate.
Defined.

(** X17.  A [confirmed] or [cancelled] event on a document that is not
    yet in the target status first stores the comment, then runs the
    transition of the ledger application on the stored document and
    keeps what it returns; when the transition raises, the exception
    leaves the handler and the comment stays. *)
Theorem transition_event_comments_then_transitions {P : Platform}
    (d md : list (string * json)) (n : string) (doc : PaymentRequest)
    (w : World) :
  readable_payment_event d = true ->
  dict_lookup "resource_metadata" d = Some (JDict md) ->
  dict_lookup "reference_document" md = Some (JStr n) -> n <> "" ->
  w_payment_requests w !! n = Some doc ->
  (dict_lookup "action" d = Some (JStr "confirmed") ->
   pr_status doc <> "Paid" ->
   exists text,
     set_payment_request_status (JDict d) w
     = match set_as_paid (with_comment (info_comment text) doc) with
       | inr d' =>
           Ok tt (set_payment_requests
                    (<[n := d']> (w_payment_requests w)) w)
       | inl e =>
           Raised e (set_payment_requests
                       (<[n := with_comment (info_comment text) doc]>
                          (w_payment_requests w)) w)
       end) /\
  (dict_lookup "action" d = Some (JStr "cancelled") ->
   pr_status doc <> "Cancelled" ->
   exists text,
     set_payment_request_status (JDict d) w
     = match set_as_cancelled (with_comment (info_comment text) doc) with
       | inr d' =>
           Ok tt (set_payment_requests
                    (<[n := d']> (w_payment_requests w)) w)
       | inl e =>
           Raised e (set_payment_requests
                       (<[n := with_comment (info_comment text) doc]>
                          (w_payment_requests w)) w)
       end).
Proof.
  intros Hr Hm Href Hn Hdoc. split.
  - intros Ha Hs.
    destruct (set_payment_request_status_named d md "confirmed" n doc w
                Hr Ha ltac:(discriminate) Hm Href Hn Hdoc)
      as (text & Htext & Heq).
    exists text. rewrite Heq, apply_action_confirmed.
    destruct (String.eqb_spec (pr_status doc) "Paid"); [contradiction|].
    apply transition_commented.
  - intros Ha Hs.
    destruct (set_payment_request_status_named d md "cancelled" n doc w
                Hr Ha ltac:(discriminate) Hm Href Hn Hdoc)
      as (text & Htext & Heq).
    exists text. rewrite Heq, apply_action_cancelled.
    destruct (String.eqb_spec (pr_status doc) "Cancelled"); [contradiction|].
    apply transition_commented.
Qed.

(** With a ledger application whose mark-paid transition fails, the
    [confirmed] event of scenario 3 raises and leaves its comment on the
    request, which stays Initiated. *)
Lemma transition_event_comments_then_transitions_witness :
  exists text,
    set_payment_request_status (P := Cases.failing_platform)
      (Sample.payment_event "confirmed") Sample.world
    = Raised (OtherError "ValidationError")
        (set_payment_requests
           (<["PR001" := with_comment (info_comment text)
                            Sample.request_PR001]>
              (w_payment_requests Sample.world)) Sample.world).
Proof.
  destruct (proj1 (transition_event_comments_then_transitions
                     (P := Cases.failing_platform)
                     [("resource_type", JStr "payments");
                      ("action", JStr "confirmed");
                      ("resource_metadata",
                       JDict [("reference_doctype", JStr "Payment Request");
                              ("reference_document", JStr "PR001")])]
                     [("reference_doctype", JStr "Payment Request");
                      ("reference_document", JStr "PR001")]
                     "PR001" Sample.request_PR001 Sample.world
                     eq_refl eq_refl eq_refl ltac:(discriminate) eq_refl)
              eq_refl ltac:(discriminate)) as (text & H).
  exists text. exact H.
Defined.

(** X18.  A payment event that names a document the store does not
    hold raises the store's error before anything is written. *)
Theorem payment_event_for_unknown_document_raises {P : Platform}
    (d md : list (string * json)) (n : string) (w : World) :
  readable_payment_event d = true ->
  dict_lookup "resource_metadata" d = Some (JDict md) ->
  dict_lookup "reference_document" md = Some (JStr n) -> n <> "" ->
  w_payment_requests w !! n = None ->
  set_payment_request_status (JDict d) w = Raised DoesNotExistError w.
Proof.
  intros Hr Hm Href Hn Hdoc.
  destruct (readable_payment_event_fields d Hr)
    as (action & dd & desc & ld & pid & md' & text
        & H1 & H2 & H3 & H4 & H5 & H6 & H7).
  rewrite (py_get_lookup _ _ _ _ Hm) in H7. injection H7 as <-.
  rewrite (set_payment_request_status_fields (JDict d) _ _ _ _ _ _
             (JStr n) text H1 H2 H3 H4 H5 H6
             (py_get_lookup _ _ _ _ Hm) (py_get_lookup _ _ _ _ Href) w).
  cbn [truthy]. destruct (String.eqb_spec n ""); [contradiction|].
  cbn [negb]. unfold bind, get_doc_payment_request. cbn [doc_name].
  rewrite Hdoc. reflexivity.
Qed.

Lemma payment_event_for_unknown_document_raises_witness :
  set_payment_request_status (P := Sample.platform)
    (JDict [("action", JStr "confirmed");
            ("resource_metadata",
             JDict [("reference_document", JStr "PR404")])]) Sample.world
  = Raised DoesNotExistError Sample.world.
Proof.
  apply (payment_event_for_unknown_document_raises (P := Sample.platform)
           _ [("reference_document", JStr "PR404")] "PR404");
    try reflexivity; discriminate.
Defined.

Section Unreadable.
Context {P : Platform}.

Lemma py_get_error v k default e :
  py_get v k default = inl e -> e = AttributeError.
Proof. destruct v; cbn [py_get]; congruence. Qed.

Lemma py_get_inr_is_dict v k default x :
  py_get v k default = inr x -> is_dict v = true.
Proof. destruct v; cbn [py_get]; try discriminate. reflexivity. Qed.

Lemma build_comment_error action desc pid e :
  build_comment action desc pid = inl e -> e = AttributeError.
Proof.
  unfold build_comment, py_capitalize.
  destruct (truthy action); [|discriminate].
  destruct action; congruence.
Qed.

Lemma optional_mapping_of_py_get d k v x :
  py_get (JDict d) k (JDict []) = inr v -> is_dict v = true ->
  x = k -> optional_mapping x d = true.
Proof.
  intros H Hv ->. unfold optional_mapping. unfold py_get in H.
  destruct (dict_lookup k d); [|reflexivity]. congruence.
Qed.

Lemma fields_readable (d : list (string * json))
    (action details desc links pid md ref : json) (text : string) :
  py_get (JDict d) "action" JNull = inr action ->
  py_get (JDict d) "details" (JDict []) = inr details ->
  py_get details "description" JNull = inr desc ->
  py_get (JDict d) "links" (JDict []) = inr links ->
  py_get links "payment" JNull = inr pid ->
  build_comment action desc pid = inr text ->
  py_get (JDict d) "resource_metadata" (JDict []) = inr md ->
  py_get md "reference_document" JNull = inr ref ->
  readable_payment_event d = true.
Proof.
  intros H1 H2 H3 H4 H5 H6 H7 H8. unfold readable_payment_event.
  rewrite (optional_mapping_of_py_get d "details" details "details" H2
             (py_get_inr_is_dict _ _ _ _ H3) eq_refl).
  rewrite (optional_mapping_of_py_get d "links" links "links" H4
             (py_get_inr_is_dict _ _ _ _ H5) eq_refl).
  rewrite (optional_mapping_of_py_get d "resource_metadata" md
             "resource_metadata" H7 (py_get_inr_is_dict _ _ _ _ H8) eq_refl).
  cbn [andb]. unfold py_get in H1.
  destruct (dict_lookup "action" d) as [v|]; [|reflexivity].
  injection H1 as <-. unfold build_comment, py_capitalize in H6.
  destruct (truthy v) eqn:Ev; [|destruct v; reflexivity].
  destruct v; try discriminate. reflexivity.
Qed.

End Unreadable.

(** X19.  A payment event the handler cannot read to the end raises
    [AttributeError] before anything is written, even when the document
    it names exists: this is so when the event is no mapping, when
    [details], [links] or [resource_metadata] is present and no mapping,
    and when [action] is a number, a list or another value that counts
    as true and is no string. *)
Theorem unreadable_payment_event_raises {P : Platform}
    (event : json) (w : World) :
  match event with
  | JDict d => readable_payment_event d = false
  | _ => True
  end ->
  set_payment_request_status event w = Raised AttributeError w.
Proof.
  intros H. unfold set_payment_request_status.
  unfold bind at 1.
  destruct (py_get event "action" JNull) as [e|action] eqn:H1;
    [rewrite (py_get_error _ _ _ _ H1); reflexivity|]. cbn [lift ret].
  unfold bind at 1.
  destruct (py_get event "details" (JDict [])) as [e|details] eqn:H2;
    [rewrite (py_get_error _ _ _ _ H2); reflexivity|]. cbn [lift ret].
  unfold bind at 1.
  destruct (py_get details "description" JNull) as [e|desc] eqn:H3;
    [rewrite (py_get_error _ _ _ _ H3); reflexivity|]. cbn [lift ret].
  unfold bind at 1.
  destruct (py_get event "links" (JDict [])) as [e|links] eqn:H4;
    [rewrite (py_get_error _ _ _ _ H4); reflexivity|]. cbn [lift ret].
  unfold bind at 1.
  destruct (py_get links "payment" JNull) as [e|pid] eqn:H5;
    [rewrite (py_get_error _ _ _ _ H5); reflexivity|]. cbn [lift ret].
  unfold bind at 1.
  destruct (build_comment action desc pid) as [e|text] eqn:H6;
    [rewrite (build_comment_error _ _ _ _ H6); reflexivity|]. cbn [lift ret].
  unfold bind at 1.
  destruct (py_get event "resource_metadata" (JDict [])) as [e|md] eqn:H7;
    [rewrite (py_get_error _ _ _ _ H7); reflexivity|]. cbn [lift ret].
  unfold bind at 1.
  destruct (py_get md "reference_document" JNull) as [e|ref] eqn:H8;
    [rewrite (py_get_error _ _ _ _ H8); reflexivity|].
  exfalso. destruct event as [| | | | | |d]; try discriminate.
  rewrite (fields_readable d _ _ _ _ _ _ _ _ H1 H2 H3 H4 H5 H6 H7 H8) in H.
  discriminate.
Qed.

(** A [confirmed] event on PR001 whose [details] is [null], and one
    whose [action] is the number 5. *)
Lemma unreadable_payment_event_raises_witness :
  set_payment_request_status (P := Sample.platform)
    (JDict [("action", JStr "confirmed"); ("details", JNull);
            ("resource_metadata",
             JDict [("reference_document", JStr "PR001")])]) Sample.world
  = Raised AttributeError Sample.world /\
  set_payment_request_status (P := Sample.platform)
    (JDict [("action", JInt 5);
            ("resource_metadata",
             JDict [("reference_document", JStr "PR001")])]) Sample.world
  = Raised AttributeError Sample.world.
Proof.
  split;
    apply (unreadable_payment_event_raises (P := Sample.platform));
    reflexivity.
Defined.

(** ** What each handler writes *)

Section Footprint.
Context {X : Type} (upd : X -> World -> World) (get : World -> X).
Hypothesis upd_get : forall w, upd (get w) w = w.
Hypothesis upd_upd : forall x y w, upd y (upd x w) = upd y w.

Lemma touches_only_ret {B} (b : B) : touches_only upd (ret b).
Proof. intros w. exists (get w). symmetry. apply upd_get. Qed.

Lemma touches_only_raise {B} (e : exn) : touches_only upd (raise (A := B) e).
Proof. intros w. exists (get w). symmetry. apply upd_get. Qed.

Lemma touches_only_lift {B} (r : exn + B) : touches_only upd (lift r).
Proof. destruct r; [apply touches_only_raise|apply touches_only_ret]. Qed.

Lemma touches_only_gets {B} (g : World -> B) : touches_only upd (gets g).
Proof. intros w. exists (get w). symmetry. apply upd_get. Qed.

Lemma touches_only_bind {B C} (c : M B) (k : B -> M C) :
  touches_only upd c -> (forall b, touches_only upd (k b)) ->
  touches_only upd (bind c k).
Proof.
  intros Hc Hk w. unfold bind. destruct (Hc w) as (x & Hx).
  destruct (c w) as [b w1|e w1]; cbn [world_of] in *.
  - destruct (Hk b w1) as (y & Hy). exists y.
    rewrite Hy, Hx. apply upd_upd.
  - exists x. exact Hx.
Qed.

Lemma touches_only_try_except {B} (c : M B) (h : exn -> M B) :
  touches_only upd c -> (forall e, touches_only upd (h e)) ->
  touches_only upd (try_except c h).
Proof.
  intros Hc Hh w. unfold try_except. destruct (Hc w) as (x & Hx).
  destruct (c w) as [b w1|e w1]; cbn [world_of] in *.
  - exists x. exact Hx.
  - destruct (Hh e w1) as (y & Hy). exists y.
    rewrite Hy, Hx. apply upd_upd.
Qed.

Lemma touches_only_when (b : bool) (c : M unit) :
  touches_only upd c -> touches_only upd (when b c).
Proof. intros Hc. destruct b; [exact Hc|apply touches_only_ret]. Qed.

Lemma touches_only_for_each {B} (l : list B) (g : B -> M unit) :
  (forall x, touches_only upd (g x)) -> touches_only upd (for_each l g).
Proof.
  intros Hg. induction l as [|x l IH]; cbn [for_each].
  - apply touches_only_ret.
  - apply touches_only_bind; [apply Hg|intros _; exact IH].
Qed.

End Footprint.

Lemma set_payment_requests_same w :
  set_payment_requests (w_payment_requests w) w = w.
Proof. destruct w; reflexivity. Qed.

Lemma set_mandate_status_touches_only (event : json) :
  touches_only set_mandates (set_mandate_status event).
Proof.
  pose proof set_mandates_same as Hg.
  pose proof (fun x y w => set_mandates_set_mandates x y w) as Hu.
  unfold set_mandate_status.
  repeat (apply (touches_only_bind _ Hu);
          [solve [apply (touches_only_lift _ w_mandates Hg)]|intros ?]).
  apply (touches_only_for_each _ w_mandates Hg Hu). intros m w.
  unfold db_set_value_mandate.
  destruct (doc_name m) as [n|]; [|exists (w_mandates w); symmetry; apply Hg].
  destruct (w_mandates w !! n);
    [eexists; reflexivity|exists (w_mandates w); symmetry; apply Hg].
Qed.

Lemma set_payment_request_status_touches_only {P : Platform} (event : json) :
  touches_only set_payment_requests (set_payment_request_status event).
Proof.
  pose proof set_payment_requests_same as Hg.
  pose proof (fun x y w => set_payment_requests_twice x y w) as Hu.
  assert (Hupd : forall n f,
            touches_only set_payment_requests (update_payment_request n f)).
  { intros n f w. eexists. reflexivity. }
  assert (Htr : forall f n,
            touches_only set_payment_requests (transition f n)).
  { intros f n w. unfold transition.
    destruct (w_payment_requests w !! n) as [d|];
      [|exists (w_payment_requests w); symmetry; apply Hg].
    destruct (f d);
      [exists (w_payment_requests w); symmetry; apply Hg
      |eexists; reflexivity]. }
  unfold set_payment_request_status.
  repeat (apply (touches_only_bind _ Hu);
          [solve [apply (touches_only_lift _ w_payment_requests Hg)]
          |intros ?]).
  destruct (negb (truthy _));
    [apply (touches_only_ret _ w_payment_requests Hg)|].
  apply (touches_only_bind _ Hu).
  { intros w. unfold get_doc_payment_request.
    destruct (doc_name _) as [n|];
      [|exists (w_payment_requests w); symmetry; apply Hg].
    destruct (w_payment_requests w !! n);
      exists (w_payment_requests w); symmetry; apply Hg. }
  intros [n d].
  apply (touches_only_bind _ Hu).
  { apply (touches_only_when _ w_payment_requests Hg). apply Hupd. }
  intros _. unfold apply_action.
  apply (touches_only_bind _ Hu).
  { apply (touches_only_when _ w_payment_requests Hg). apply Hupd. }
  intros _. apply (touches_only_bind _ Hu).
  { apply (touches_only_when _ w_payment_requests Hg). apply Htr. }
  intros _. apply (touches_only_bind _ Hu).
  { apply (touches_only_when _ w_payment_requests Hg). apply Htr. }
  intros _. apply (touches_only_when _ w_payment_requests Hg).
  apply (touches_only_bind _ Hu); [apply Hupd|].
  intros _. apply (touches_only_try_except _ Hu).
  + repeat (apply (touches_only_bind _ Hu);
            [solve [apply (touches_only_lift _ w_payment_requests Hg)]
            |intros ?]).
    intros w. unfold db_set_failed_reason.
    destruct (w_has_failed_reason w);
      [eexists; reflexivity
      |exists (w_payment_requests w); symmetry; apply Hg].
  + intros e. destruct e;
      first [apply (touches_only_ret _ w_payment_requests Hg)
            |apply (touches_only_raise _ w_payment_requests Hg)].
Qed.


(** ** Payout handler, continued *)

Section PayoutSteps.
Context {P : Platform}.

Lemma reads_only_lift {B} (r : exn + B) : reads_only (lift r).
Proof. intros w. destruct r as [e|b]; [right|left]; eexists; reflexivity. Qed.

Lemma reads_only_gets {B} (g : World -> B) : reads_only (gets g).
Proof. intros w. left. eexists. reflexivity. Qed.

Lemma reads_only_get_last_doc_settings : reads_only get_last_doc_settings.
Proof.
  intros w. unfold get_last_doc_settings.
  destruct (find _ _); [left|right]; eexists; reflexivity.
Qed.

Lemma reads_only_get_last_doc_bank_account ending :
  reads_only (get_last_doc_bank_account ending).
Proof.
  intros w. unfold get_last_doc_bank_account.
  destruct (find _ _); [left|right]; eexists; reflexivity.
Qed.

Lemma posts_at_most_one_bind {B C} (c : M B) (k : B -> M C) :
  reads_only c -> (forall b, posts_at_most_one (k b)) ->
  posts_at_most_one (bind c k).
Proof.
  intros Hc Hk w. unfold bind.
  destruct (Hc w) as [(b & ->)|(e & ->)]; [apply Hk|left; reflexivity].
Qed.

Lemma posts_at_most_one_insert_submit je :
  posts_at_most_one (journal_insert je ;; journal_submit je).
Proof.
  intros w. unfold bind, journal_insert, journal_submit.
  destruct (ledger_validate je) as [e|]; [left; reflexivity|].
  right. exists (submitted je). reflexivity.
Qed.

Lemma payout_journal_body_posts_at_most_one event :
  posts_at_most_one (payout_journal_body event).
Proof.
  unfold payout_journal_body.
  repeat (apply posts_at_most_one_bind;
          [solve [apply reads_only_lift | apply reads_only_gets
                 | apply reads_only_get_last_doc_settings
                 | apply reads_only_get_last_doc_bank_account]
          |intros ?]).
  apply posts_at_most_one_insert_submit.
Qed.

Lemma find_all_false {A} (f : A -> bool) (l : list A) :
  (forall x, In x l -> f x = false) -> find f l = None.
Proof.
  induction l as [|x l IH]; [reflexivity|]. intros H. cbn [find].
  rewrite (H x (or_introl eq_refl)). apply IH.
  intros y Hy. apply H. right. exact Hy.
Qed.

End PayoutSteps.

(** X21.  Whatever the event, the payout handler changes nothing but
    the journal entries and the log, and adds at most one entry to
    each: mandates, payment requests, settings and the secret cache come
    out as they went in. *)
Theorem create_payout_journal_footprint {P : Platform}
    (event : json) (w : World) :
  exists j l,
    world_of (create_payout_journal event w) = set_ledger (j, l) w /\
    (j = w_journal_entries w \/ exists je, j = je :: w_journal_entries w) /\
    (l = w_error_log w \/
     exists msg,
       l = w_error_log w
           ++ [("GoCardless Payout Journal Creation Error", msg)]).
Proof.
  assert (Hsame : forall w0, set_ledger (w_journal_entries w0, w_error_log w0) w0
                             = w0).
  { intros w0. destruct w0; reflexivity. }
  unfold create_payout_journal, try_except.
  destruct (payout_journal_body_posts_at_most_one event w) as [Hw|(je & Hw)];
    destruct (payout_journal_body event w) as [[] w1|e w1];
    cbn [world_of] in *; subst w1.
  - exists (w_journal_entries w), (w_error_log w).
    split; [symmetry; apply Hsame|]. split; left; reflexivity.
  - exists (w_journal_entries w), (w_error_log w ++
      [("GoCardless Payout Journal Creation Error", exn_str e)]).
    split; [destruct w; reflexivity|]. split; [left; reflexivity|].
    right. eexists. reflexivity.
  - exists (je :: w_journal_entries w), (w_error_log w).
    split; [destruct w; reflexivity|]. split; [right; eexists|left]; reflexivity.
  - exists (je :: w_journal_entries w), (w_error_log w ++
      [("GoCardless Payout Journal Creation Error", exn_str e)]).
    split; [destruct w; reflexivity|].
    split; right; eexists; reflexivity.
Qed.

(** X22.  The payout handler posts nothing, and logs the failure,
    when the event gives no mapping under [links] ([AttributeError]),
    and when no GoCardless Settings document is out of sandbox mode
    ([DoesNotExistError]); in the second case the API client is not
    even initialised. *)
Theorem create_payout_journal_prerequisites {P : Platform}
    (event : json) (w : World) :
  (match event with
   | JDict d => match dict_lookup "links" d with
                | Some (JDict _) => False
                | _ => True
                end
   | _ => True
   end ->
   create_payout_journal event w
   = Ok tt (logged "GoCardless Payout Journal Creation Error"
              (exn_str AttributeError) w)) /\
  (forall d ld, event = JDict d ->
   dict_lookup "links" d = Some (JDict ld) ->
   (forall s, In s (w_settings w) -> use_sandbox s = true) ->
   create_payout_journal event w
   = Ok tt (logged "GoCardless Payout Journal Creation Error"
              (exn_str DoesNotExistError) w)).
Proof.
  split.
  - intros H. unfold create_payout_journal, try_except, payout_journal_body.
    unfold bind at 1.
    destruct event as [| | | | | |d]; try reflexivity.
    cbn [py_get lift ret]. unfold bind at 1.
    destruct (dict_lookup "links" d) as [links|]; [|reflexivity].
    destruct links; try reflexivity. destruct H.
  - intros d ld -> Hl Hs.
    unfold create_payout_journal, try_except, payout_journal_body.
    unfold bind at 1. cbn [py_get]. rewrite Hl. cbn [lift ret].
    unfold bind at 1. cbn [py_get lift ret].
    unfold bind at 1, get_last_doc_settings.
    rewrite find_all_false; [reflexivity|].
    intros s Hin. rewrite (Hs s Hin). reflexivity.
Qed.

(** A payout event without [links], and the sample payout event on a
    store whose only settings document is in sandbox mode. *)
Lemma create_payout_journal_prerequisites_witness :
  create_payout_journal (P := Sample.platform)
    (JDict [("resource_type", JStr "payouts")]) Sample.world
  = Ok tt (logged "GoCardless Payout Journal Creation Error"
             "AttributeError" Sample.world) /\
  create_payout_journal (P := Sample.platform) Sample.payout_event
    (set_settings [Cases.sandbox_settings] Sample.world)
  = Ok tt (logged "GoCardless Payout Journal Creation Error"
             "DoesNotExistError"
             (set_settings [Cases.sandbox_settings] Sample.world)).
Proof.
  split.
  - apply (proj1 (create_payout_journal_prerequisites (P := Sample.platform)
                    (JDict [("resource_type", JStr "payouts")]) Sample.world)).
    exact I.
  - apply (proj2 (create_payout_journal_prerequisites (P := Sample.platform)
                    Sample.payout_event
                    (set_settings [Cases.sandbox_settings] Sample.world))
             [("resource_type", JStr "payouts");
              ("links", JDict [("payout", JStr "PO0001")])]
             [("payout", JStr "PO0001")]).
    + reflexivity.
    + reflexivity.
    + intros s [<-|[]]. reflexivity.
Defined.

(** ** What a webhook call never changes *)

Section Configuration.
Context {P : Platform}.

Lemma touches_only_preserves {X A B} (upd : X -> World -> World)
    (f : World -> A) (c : M B) :
  touches_only upd c -> (forall x w, f (upd x w) = f w) -> preserves f c.
Proof. intros Hc Hf w. destruct (Hc w) as (x & ->). apply Hf. Qed.

Lemma create_payout_journal_touches_only event :
  touches_only set_ledger (create_payout_journal event).
Proof.
  intros w. unfold create_payout_journal, try_except.
  destruct (payout_journal_body_posts_at_most_one event w) as [Hw|(je & Hw)];
    destruct (payout_journal_body event w) as [[] w1|e w1];
    cbn [world_of] in *; subst w1.
  - exists (w_journal_entries w, w_error_log w). destruct w; reflexivity.
  - exists (w_journal_entries w,
            w_error_log w
            ++ [("GoCardless Payout Journal Creation Error", exn_str e)]).
    destruct w; reflexivity.
  - exists (je :: w_journal_entries w, w_error_log w).
    destruct w; reflexivity.
  - exists (je :: w_journal_entries w,
            w_error_log w
            ++ [("GoCardless Payout Journal Creation Error", exn_str e)]).
    reflexivity.
Qed.

Lemma set_status_configuration event :
  preserves configuration (set_status event).
Proof.
  unfold set_status.
  apply preserves_bind; [apply preserves_modify; reflexivity|intros _].
  repeat (apply preserves_bind; [solve [apply preserves_lift]|intros ?]).
  apply preserves_bind.
  { apply preserves_when.
    apply (touches_only_preserves set_mandates);
      [apply set_mandate_status_touches_only|reflexivity]. }
  intros _. apply preserves_bind.
  { apply preserves_when.
    apply (touches_only_preserves set_payment_requests);
      [apply set_payment_request_status_touches_only|reflexivity]. }
  intros _. apply preserves_when.
  apply preserves_bind; [apply preserves_gets|intros ?].
  apply preserves_when.
  apply (touches_only_preserves set_ledger);
    [apply create_payout_journal_touches_only|reflexivity].
Qed.

Lemma webhooks_after_check_configuration (r : Request) :
  preserves configuration
    (loaded <- lift (json_loads (req_data r)) ;;
     let gocardless_events := if truthy loaded then loaded else JList [] in
     events <- lift (py_getitem gocardless_events "events") ;;
     items <- lift (py_iter events) ;;
     for_each items set_status ;;
     log_error "GoCardless Webhook" (py_str gocardless_events) ;;
     ret (Some 200)).
Proof.
  repeat (apply preserves_bind; [solve [apply preserves_lift]|intros ?]).
  apply preserves_bind.
  { apply preserves_for_each. apply set_status_configuration. }
  intros _. apply preserves_bind; [|intros _; apply preserves_ret].
  apply preserves_modify. reflexivity.
Qed.

Lemma webhooks_configuration (request : option Request) (w : World) :
  configuration (world_of (webhooks request w)) = configuration w \/
  w_cache w = None /\
  configuration (world_of (webhooks request w)) = configuration (cached w).
Proof.
  destruct request as [r|]; [|left; reflexivity].
  rewrite webhooks_eq.
  assert (Hrest := webhooks_after_check_configuration r).
  destruct (authenticate_signature_world r w) as [Hw|Hw];
    destruct (authenticate_signature r w) as [[|] w1|e w1];
    cbn [world_of] in *; subst w1;
    try (left; first [apply Hrest|reflexivity]);
    destruct (w_cache w) as [keys|] eqn:Ec;
    try (left; rewrite ?Hrest, (cached_of_cached w keys Ec); reflexivity);
    right; (split; [reflexivity|]); first [apply Hrest|reflexivity].
Qed.

End Configuration.

(** X23.  A call of [webhooks], whatever the request and however it
    ends, changes neither the settings documents, gateways, gateway
    accounts, bank accounts, installed applications nor the schema, and
    never alters a filled secret cache (an empty one may be filled); so
    the secrets that the next request is checked against are the same
    as before. *)
Theorem webhooks_leaves_configuration {P : Platform}
    (request : option Request) (w : World) :
  w_settings (world_of (webhooks request w)) = w_settings w /\
  w_gateways (world_of (webhooks request w)) = w_gateways w /\
  w_gateway_accounts (world_of (webhooks request w)) = w_gateway_accounts w /\
  w_bank_accounts (world_of (webhooks request w)) = w_bank_accounts w /\
  w_installed_apps (world_of (webhooks request w)) = w_installed_apps w /\
  w_has_failed_reason (world_of (webhooks request w)) = w_has_failed_reason w /\
  (w_cache (world_of (webhooks request w)) = w_cache w \/
   w_cache w = None /\
   w_cache (world_of (webhooks request w)) = Some (_get_webhook_keys w)) /\
  webhook_keys (world_of (webhooks request w)) = webhook_keys w.
Proof.
  destruct (webhooks_configuration request w) as [H|[Hc H]];
    set (w' := world_of (webhooks request w)) in *;
    injection H as H1 H2 H3 H4 H5 H6 H7.
  - repeat split; try assumption; [left; assumption|].
    unfold webhook_keys, _get_webhook_keys. rewrite H7, H1. reflexivity.
  - repeat split; try assumption.
    + right. split; [exact Hc|]. rewrite H7. cbn [cached w_cache set_cache].
      unfold webhook_keys. rewrite Hc. reflexivity.
    + unfold webhook_keys at 1. rewrite H7. cbn [cached w_cache set_cache].
      reflexivity.
Qed.
